(** * Channel adapters of the courier gateway: FreshChat, Zenvia SMS,
      Zenvia WhatsApp and Slack.

    A shallow embedding of the handlers under [freshchat/], [handlers/zenvia/],
    [handlers/slack/] and of the Zenvia WhatsApp handler, with the properties
    of their inbound and outbound pipelines. *)

From stdpp Require Import gmap strings list fin_maps.
From Stdlib Require Import Ascii String Lia.

Local Open Scope string_scope.

(** ** Canonical model (package [courier]) *)

Module Courier.

(** [courier.MsgStatusValue] *)
Inductive MsgStatusValue :=
| MsgWired | MsgSent | MsgDelivered | MsgFailed | MsgErrored.

#[export] Instance MsgStatusValue_eq_dec : EqDecision MsgStatusValue.
Proof. solve_decision. Defined.

(** The states that tell the backend a message went out. *)
Definition is_success (v : MsgStatusValue) : bool :=
  match v with
  | MsgWired | MsgSent | MsgDelivered => true
  | MsgFailed | MsgErrored => false
  end.

(** [courier.Channel]: the address on the provider side and the
    configuration mapping. *)
Record Channel := {
  chan_address : string;
  chan_schemes : list string;
  chan_config : gmap string string
}.

(** [Channel.StringConfigForKey(key, default)] *)
Definition StringConfigForKey (c : Channel) (key def : string) : string :=
  default def (chan_config c !! key).

(** [urns.URN]: scheme, path and display name. *)
Record URN := {
  urn_scheme : string;
  urn_path : string;
  urn_display : string
}.

(** A JSON document, as [encoding/json] and [jsonparser] see it. *)
#[warnings="-register-all"]
Inductive json :=
| JNull
| JBool (b : bool)
| JNum (n : Z)
| JStr (s : string)
| JArr (items : list json)
| JObj (fields : list (string * json)).

Fixpoint assoc {A} (k : string) (l : list (string * A)) : option A :=
  match l with
  | [] => None
  | (k', v) :: l' => if String.eqb k k' then Some v else assoc k l'
  end.

(** Walk a key path down nested objects. *)
Fixpoint json_get (path : list string) (j : json) : option json :=
  match path with
  | [] => Some j
  | k :: path' =>
      match j with
      | JObj fields =>
          match assoc k fields with
          | Some j' => json_get path' j'
          | None => None
          end
      | _ => None
      end
  end.

(** [jsonparser.GetString(body, keys...)]: the error case is [None]. *)
Definition GetString (doc : option json) (path : list string) : option string :=
  match doc with
  | Some j => match json_get path j with Some (JStr s) => Some s | _ => None end
  | None => None
  end.

(** [jsonparser.GetBoolean(body, keys...)] *)
Definition GetBoolean (doc : option json) (path : list string) : option bool :=
  match doc with
  | Some j => match json_get path j with Some (JBool b) => Some b | _ => None end
  | None => None
  end.

(** The body of an outgoing request. *)
Inductive ReqBody :=
| BodyNone
| BodyJSON (j : json)
| BodyForm (fields : list (string * string)).

Record Request := {
  req_method : string;
  req_url : string;
  req_headers : list (string * string);
  req_body : ReqBody
}.

(** [utils.RequestResponse] together with the error [MakeHTTPRequest]
    returns with it: [rr_body] are the bytes of the response, [rr_doc] the
    JSON document they hold ([None] when they hold none). *)
Record RR := {
  rr_err : option string;
  rr_body : string;
  rr_doc : option json
}.

(** The provider side: the answer to the [n]-th call of a send. *)
Definition Net := nat -> Request -> RR.

(** [courier.ChannelLog] *)
Record ChannelLog := {
  log_description : string;
  log_rr : RR;
  log_error : option string
}.

Definition NewChannelLogFromRR (desc : string) (rr : RR) : ChannelLog :=
  {| log_description := desc; log_rr := rr; log_error := None |}.

(** [ChannelLog.WithError(description, err)]: a nil error changes nothing. *)
Definition WithError (desc : string) (err : option string) (l : ChannelLog) : ChannelLog :=
  match err with
  | Some e => {| log_description := desc; log_rr := log_rr l; log_error := Some e |}
  | None => l
  end.

(** [courier.MsgStatus]; a [None] in the log trail is a nil [*ChannelLog]. *)
Record MsgStatus := {
  status_value : MsgStatusValue;
  status_external_id : string;
  status_logs : list (option ChannelLog)
}.

(** [Backend.NewMsgStatusForID(channel, id, status)] *)
Definition NewMsgStatusForID (v : MsgStatusValue) : MsgStatus :=
  {| status_value := v; status_external_id := EmptyString; status_logs := [] |}.

(** [Backend.NewMsgStatusForExternalID(channel, externalID, status)] *)
Definition NewMsgStatusForExternalID (ext : string) (v : MsgStatusValue) : MsgStatus :=
  {| status_value := v; status_external_id := ext; status_logs := [] |}.

Definition AddLog (l : option ChannelLog) (s : MsgStatus) : MsgStatus :=
  {| status_value := status_value s;
     status_external_id := status_external_id s;
     status_logs := (status_logs s ++ [l])%list |}.

Definition SetStatus (v : MsgStatusValue) (s : MsgStatus) : MsgStatus :=
  {| status_value := v;
     status_external_id := status_external_id s;
     status_logs := status_logs s |}.

Definition SetExternalID (ext : string) (s : MsgStatus) : MsgStatus :=
  {| status_value := status_value s;
     status_external_id := ext;
     status_logs := status_logs s |}.

(** The outbound message an encoder reads. *)
Record OutMsg := {
  msg_channel : Channel;
  msg_id : string;
  msg_urn : URN;
  msg_text : string;
  msg_attachments : list string
}.

(** What [SendMsg] hands back: the status (nil is [None]), the error
    (nil is [None]) and the calls made to the provider, in order. *)
Record SendResult := {
  sr_status : option MsgStatus;
  sr_err : option string;
  sr_calls : list Request
}.

(** The status value [SendMsg] returned, and the last entry of the log
    trail of the status it returned. *)
Definition returned_value (result : SendResult) : option MsgStatusValue :=
  match sr_status result with
  | Some status => Some (status_value status)
  | None => None
  end.


(** [SendMsg] gave up before anything was done: no status, an error, no
    call. *)
Definition refused (result : SendResult) : Prop :=
  sr_status result = None /\ sr_err result <> None /\ sr_calls result = [].

(** A Go call either returns or panics. *)
Inductive outcome (A : Type) :=
| Returns (a : A)
| Panics (why : string).
Arguments Returns {A} a.
Arguments Panics {A} why.

(** An instant, in seconds since the epoch ([time.Time]; [UTC()] keeps it). *)
Definition Time := Z.

(** The inbound message a normalizer builds. *)
Record Msg := {
  in_urn : URN;
  in_text : string;
  in_attachments : list string;
  in_external_id : string;
  in_received_on : option Time;
  in_contact_name : string
}.

(** [Backend.NewIncomingMsg(channel, urn, text)] and the [With...] setters. *)
Definition NewIncomingMsg (urn : URN) (text : string) : Msg :=
  {| in_urn := urn; in_text := text; in_attachments := [];
     in_external_id := EmptyString; in_received_on := None;
     in_contact_name := EmptyString |}.

Definition WithExternalID (ext : string) (m : Msg) : Msg :=
  {| in_urn := in_urn m; in_text := in_text m; in_attachments := in_attachments m;
     in_external_id := ext; in_received_on := in_received_on m;
     in_contact_name := in_contact_name m |}.

Definition WithReceivedOn (date : Time) (m : Msg) : Msg :=
  {| in_urn := in_urn m; in_text := in_text m; in_attachments := in_attachments m;
     in_external_id := in_external_id m; in_received_on := Some date;
     in_contact_name := in_contact_name m |}.

Definition WithContactName (name : string) (m : Msg) : Msg :=
  {| in_urn := in_urn m; in_text := in_text m; in_attachments := in_attachments m;
     in_external_id := in_external_id m; in_received_on := in_received_on m;
     in_contact_name := name |}.

Definition WithAttachment (url : string) (m : Msg) : Msg :=
  {| in_urn := in_urn m; in_text := in_text m;
     in_attachments := (in_attachments m ++ [url])%list;
     in_external_id := in_external_id m; in_received_on := in_received_on m;
     in_contact_name := in_contact_name m |}.

(** How an inbound handler leaves a request: through
    [WriteAndLogRequestError] (an error response, nothing written),
    [WriteAndLogRequestIgnored] (acknowledged, nothing written),
    [WriteMsgsAndResponse] or the status writers. *)
Inductive Handled :=
| RequestError (err : string)
| RequestIgnored (details : string)
| MsgsWritten (msgs : list Msg)
| StatusWritten (status : MsgStatus).

(** The canonical messages a handled request produced. *)
Definition produced (h : Handled) : list Msg :=
  match h with
  | MsgsWritten msgs => msgs
  | _ => []
  end.

Definition is_error_response (h : Handled) : bool :=
  match h with RequestError _ => true | _ => false end.

Definition is_ignored (h : Handled) : bool :=
  match h with RequestIgnored _ => true | _ => false end.

(** [strings.ToUpper] on a text that is all ASCII: a to z go to A to Z,
    every other byte stays. *)
Definition upper_ascii (a : ascii) : ascii :=
  let n := nat_of_ascii a in
  if (97 <=? n)%nat && (n <=? 122)%nat then ascii_of_nat (n - 32) else a.

Fixpoint ToUpperASCII (s : string) : string :=
  match s with
  | EmptyString => EmptyString
  | String a s' => String (upper_ascii a) (ToUpperASCII s')
  end.

(** [strings.TrimLeft(s, "+")] *)
Fixpoint TrimLeftPlus (s : string) : string :=
  match s with
  | String "+"%char s' => TrimLeftPlus s'
  | _ => s
  end.

End Courier.
Import Courier.

(** ** Package [handlers]: splitting a text into parts *)

Module Handlers.

(** The first [n] bytes of [s] and what follows them. *)
Fixpoint str_take (n : nat) (s : string) : string :=
  match n, s with
  | S n', String a s' => String a (str_take n' s')
  | _, _ => EmptyString
  end.

Fixpoint str_drop (n : nat) (s : string) : string :=
  match n, s with
  | S n', String a s' => str_drop n' s'
  | _, _ => s
  end.

(** The length of the longest prefix of [w] that ends in a space. *)
Fixpoint word_cut (w : string) : option nat :=
  match w with
  | EmptyString => None
  | String a w' =>
      match word_cut w' with
      | Some k => Some (S k)
      | None => if Ascii.eqb a " "%char then Some 1 else None
      end
  end.

(** Where the next part of a text longer than [max] ends: after the last
    space among the first [max] bytes, at [max] when there is none. *)
Definition cut_point (text : string) (max : nat) : nat :=
  default max (word_cut (str_take max text)).

Fixpoint split_loop (fuel : nat) (text : string) (max : nat) : list string :=
  match fuel with
  | 0 => []
  | S fuel' =>
      if (String.length text <=? max)%nat then [text]
      else
        let n := cut_point text max in
        str_take n text :: split_loop fuel' (str_drop n text) max
  end.

(** Modelled from the spec: [handlers.SplitMsg], which is not among the
    sources. Section 4.3, step 2: a text no longer than the maximum is one
    part; a longer text is subdivided by the maximum length, at a word
    boundary where the window holds one, and the parts joined with no
    separator are the text again. *)
Definition SplitMsg (text : string) (max : nat) : list string :=
  split_loop (S (String.length text)) text max.

(** The parts joined with no separator. *)
Definition join (parts : list string) : string :=
  String.concat EmptyString parts.

End Handlers.

(** ** Zenvia SMS (package [zenvia]) *)

Module Zenvia.

Definition maxMsgLength : nat := 150.
Definition sendURL : string := "https://api-rest.zenvia360.com.br/services".

(** [statusRequest.CallbackMTRequest] *)
Record statusRequest := {
  StatusCode : string;
  ID : string
}.

Definition statusTable : list (string * MsgStatusValue) :=
  [ ("00", MsgSent); ("01", MsgSent); ("02", MsgSent);
    ("03", MsgDelivered);
    ("04", MsgErrored); ("05", MsgErrored); ("06", MsgErrored);
    ("07", MsgErrored); ("08", MsgErrored); ("09", MsgErrored);
    ("10", MsgErrored) ].

Definition statusMapping : gmap string MsgStatusValue :=
  list_to_map statusTable.

(** The lookup of [StatusMessage]: [statusMapping[code]], errored when the
    code is not found. *)
Definition mapStatus (code : string) : MsgStatusValue :=
  match statusMapping !! code with
  | Some v => v
  | None => MsgErrored
  end.

(** Whether the exchange of one part went through: the call returned no
    error and the status code of the answer is in the table and not
    errored. *)
Definition partSucceeded (rr : RR) : bool :=
  match rr_err rr with
  | Some _ => false
  | None =>
      match statusMapping !! default EmptyString
                                (GetString (rr_doc rr) ["sendSmsResponse"; "statusCode"]) with
      | None | Some MsgErrored => false
      | Some _ => true
      end
  end.

(** [StatusMessage], from the outcome of [DecodeAndValidateJSON]. *)
Definition StatusMessage (decoded : string + statusRequest) : Handled :=
  match decoded with
  | inl err => RequestError err
  | inr zvStatus =>
      StatusWritten (NewMsgStatusForExternalID (ID zvStatus) (mapStatus (StatusCode zvStatus)))
  end.

Section Send.

(** [courier.ConfigUsername] and [courier.ConfigPassword], the keys of the
    credentials. *)
Variables ConfigUsername ConfigPassword : string.
(** [courier.GetTextAndAttachments] and [handlers.SplitMsg]. *)
Variable GetTextAndAttachments : OutMsg -> string.
Variable SplitMsg : string -> nat -> list string.
(** The header value [Request.SetBasicAuth] computes. *)
Variable BasicAuth : string -> string -> string.
Variable net : Net.

(** The [zvOutgoingMsg] of one part, encoded. *)
Definition zvOutgoingMsg (msg : OutMsg) (part : string) : json :=
  JObj [ ("sendSmsRequest",
          JObj [ ("from", JStr "Sender");
                 ("to", JStr (TrimLeftPlus (urn_path (msg_urn msg))));
                 ("schedule", JStr EmptyString);
                 ("msg", JStr part);
                 ("callbackOption", JStr "1");
                 ("id", JStr (msg_id msg));
                 ("aggregateId", JStr EmptyString) ]) ].

Definition partRequest (username password : string) (msg : OutMsg) (part : string) : Request :=
  {| req_method := "POST";
     req_url := sendURL;
     req_headers := [ ("Content-Type", "application/json");
                      ("Accept", "application/json");
                      ("Authorization", BasicAuth username password) ];
     req_body := BodyJSON (zvOutgoingMsg msg part) |}.

(** The loop over the parts: [status] and [calls] are what the iterations
    before left. The error of [http.NewRequest] is not read by the source. *)
Fixpoint sendParts (username password : string) (msg : OutMsg) (parts : list string)
    (status : MsgStatus) (calls : list Request) : SendResult :=
  match parts with
  | [] => {| sr_status := Some status; sr_err := None; sr_calls := calls |}
  | part :: parts' =>
      let req := partRequest username password msg part in
      let rr := net (List.length calls) req in
      let log := WithError "Message Send Error" (rr_err rr)
                   (NewChannelLogFromRR "Message Sent" rr) in
      let status := AddLog (Some log) status in
      let calls := (calls ++ [req])%list in
      match rr_err rr with
      | Some err => {| sr_status := Some status; sr_err := Some err; sr_calls := calls |}
      | None =>
          let responseMsgStatus :=
            default EmptyString (GetString (rr_doc rr) ["sendSmsResponse"; "statusCode"]) in
          let failed :=
            {| sr_status := Some status;
               sr_err := Some ("received non-success response from Zenvia '"
                               ++ responseMsgStatus ++ "'");
               sr_calls := calls |} in
          match statusMapping !! responseMsgStatus with
          | None => failed
          | Some MsgErrored => failed
          | Some _ => sendParts username password msg parts' (SetStatus MsgWired status) calls
          end
      end
  end.

Definition SendMsg (msg : OutMsg) : SendResult :=
  let username := StringConfigForKey (msg_channel msg) ConfigUsername EmptyString in
  if decide (username = EmptyString) then
    {| sr_status := None; sr_err := Some "no username set for ZV channel"; sr_calls := [] |}
  else
    let password := StringConfigForKey (msg_channel msg) ConfigPassword EmptyString in
    if decide (password = EmptyString) then
      {| sr_status := None; sr_err := Some "no password set for ZV channel"; sr_calls := [] |}
    else
      let status := NewMsgStatusForID MsgErrored in
      let parts := SplitMsg (GetTextAndAttachments msg) maxMsgLength in
      sendParts username password msg parts status [].

End Send.

End Zenvia.

(** ** Zenvia WhatsApp (package [zenviawhatsapp]) *)

Module ZenviaWhatsApp.

Definition maxMsgLength : nat := 1152.
Definition sendURL : string := "https://api.zenvia.com/v2/channels/whatsapp/messages".

Section Receive.

(** [strings.ToUpper] *)
Variable ToUpper : string -> string.
(** [float32], and how [fmt.Sprintf] prints one under the verb [%f]. *)
Variable float32 : Type.
Variable FormatF : float32 -> string.
(** [time.Parse] with the layout [2006-01-02T15:04:05Z]. *)
Variable ParseTime : string -> option Time.
(** [urns.NewWhatsAppURN]: an error or the URN. *)
Variable NewWhatsAppURN : string -> string + URN.

Record moContent := {
  Type_ : string;
  Text : string;
  Payload : string;
  FileURL : string;
  FileMimeType : string;
  FileCaption : string;
  FileName : string;
  Longitude : float32;
  Latitude : float32
}.

Record moMessage := {
  ID : string;
  From : string;
  To : string;
  Direction : string;
  Contents : list moContent
}.

Record moPayload := {
  Timestamp : string;
  EventType : string;
  Message : moMessage;
  VisitorName : string
}.

(** [fmt.Sprintf("geo:%f,%f", lat, lon)] *)
Definition geoURL (lat lon : float32) : string :=
  "geo:" ++ FormatF lat ++ "," ++ FormatF lon.

(** The text and the media URL the loop body takes from one content. *)
Definition contentText (content : moContent) : string :=
  if decide (Type_ content = "text") then Text content else EmptyString.

Definition contentMediaURL (content : moContent) : string :=
  if decide (Type_ content = "text") then EmptyString
  else if decide (Type_ content = "location") then
    geoURL (Latitude content) (Longitude content)
  else if decide (Type_ content = "file") then FileURL content
  else EmptyString.

(** One iteration of the loop over the contents. *)
Definition contentMsg (urn : URN) (externalID : string) (date : Time)
    (contactName : string) (content : moContent) : Msg :=
  let text := contentText content in
  let mediaURL := contentMediaURL content in
  let msg := WithContactName contactName
               (WithReceivedOn date
                 (WithExternalID externalID (NewIncomingMsg urn text))) in
  if decide (mediaURL = EmptyString) then msg else WithAttachment mediaURL msg.

(** [receiveMessage], from the outcome of [DecodeAndValidateJSON]. *)
Definition receiveMessage (decoded : string + moPayload) : Handled :=
  match decoded with
  | inl err => RequestError err
  | inr payload =>
      if decide (ToUpper (EventType payload) = "MESSAGE") then
        match ParseTime (Timestamp payload) with
        | None => RequestError ("invalid date format: " ++ Timestamp payload)
        | Some date =>
            if decide (ToUpper (Direction (Message payload)) = "IN") then
              match NewWhatsAppURN (From (Message payload)) with
              | inl err => RequestError err
              | inr urn =>
                  MsgsWritten
                    (map (contentMsg urn (ID (Message payload)) date (VisitorName payload))
                         (Contents (Message payload)))
              end
            else RequestIgnored "ignoring request, not incoming messages"
        end
      else RequestError ("unsupported event type: " ++ EventType payload)
  end.

End Receive.

Definition statusTable : list (string * MsgStatusValue) :=
  [ ("REJECTED", MsgFailed);
    ("NOT_DELIVERED", MsgFailed);
    ("SENT", MsgSent);
    ("DELIVERED", MsgDelivered);
    ("READ", MsgDelivered) ].

Definition statusMapping : gmap string MsgStatusValue :=
  list_to_map statusTable.

Record statusPayload := {
  StatusType : string;
  MessageID : string;
  Code : string
}.

Section Status.

(** [strings.ToUpper] *)
Variable ToUpper : string -> string.

(** The lookup of [receiveStatus]: [statusMapping[strings.ToUpper(code)]],
    errored when it is not found. *)
Definition mapStatus (code : string) : MsgStatusValue :=
  match statusMapping !! ToUpper code with
  | Some v => v
  | None => MsgErrored
  end.

(** [receiveStatus], from the outcome of [DecodeAndValidateJSON]. *)
Definition receiveStatus (decoded : string + statusPayload) : Handled :=
  match decoded with
  | inl err => RequestError err
  | inr payload =>
      if decide (ToUpper (StatusType payload) = "MESSAGE_STATUS") then
        StatusWritten (NewMsgStatusForExternalID (MessageID payload) (mapStatus (Code payload)))
      else RequestError ("unsupported event type: " ++ StatusType payload)
  end.

End Status.

Section Send.

(** [courier.ConfigAPIKey], the key of the API token. *)
Variable ConfigAPIKey : string.
(** [handlers.SplitAttachment]: the content type and the URL. *)
Variable SplitAttachment : string -> string * string.
(** [handlers.SplitMsgByChannel] *)
Variable SplitMsgByChannel : Channel -> string -> nat -> list string.
Variable net : Net.

Definition fileContent (attachment : string) : json :=
  let '(attType, attURL) := SplitAttachment attachment in
  JObj [ ("type", JStr "file"); ("fileUrl", JStr attURL); ("fileMimeType", JStr attType) ].

Definition textContent (msgPart : string) : json :=
  JObj [ ("type", JStr "text"); ("text", JStr msgPart) ].

(** The contents of the one request: the attachments, then the parts of the
    text. *)
Definition mtContents (msg : OutMsg) : list json :=
  let msgParts :=
    if decide (msg_text msg = EmptyString) then []
    else SplitMsgByChannel (msg_channel msg) (msg_text msg) maxMsgLength in
  (map fileContent (msg_attachments msg) ++ map textContent msgParts)%list.

Definition mtPayload (msg : OutMsg) : json :=
  JObj [ ("from", JStr (TrimLeftPlus (chan_address (msg_channel msg))));
         ("to", JStr (TrimLeftPlus (urn_path (msg_urn msg))));
         ("contents", JArr (mtContents msg)) ].

Definition sendRequest (token : string) (msg : OutMsg) : Request :=
  {| req_method := "POST";
     req_url := sendURL;
     req_headers := [ ("Content-Type", "application/json");
                      ("Accept", "application/json");
                      ("X-API-TOKEN", token) ];
     req_body := BodyJSON (mtPayload msg) |}.

(** [SendMsg]. The log is appended as a pointer, so the [WithError] that
    follows a response without id shows in the trail. [json.Marshal] of the
    payload and [http.NewRequest] on the fixed URL do not fail, and their
    error branches are left out. *)
Definition SendMsg (msg : OutMsg) : SendResult :=
  let token := StringConfigForKey (msg_channel msg) ConfigAPIKey EmptyString in
  if decide (token = EmptyString) then
    {| sr_status := None; sr_err := Some "no token set for ZVW channel"; sr_calls := [] |}
  else
    let status := NewMsgStatusForID MsgErrored in
    let req := sendRequest token msg in
    let rr := net 0 req in
    let log := WithError "Message Send Error" (rr_err rr)
                 (NewChannelLogFromRR "Message Sent" rr) in
    match rr_err rr with
    | Some _ =>
        {| sr_status := Some (AddLog (Some log) status); sr_err := None; sr_calls := [req] |}
    | None =>
        match GetString (rr_doc rr) ["id"] with
        | None =>
            let log := WithError "Message Send Error" (Some "unable to get id from body") log in
            {| sr_status := Some (AddLog (Some log) status); sr_err := None; sr_calls := [req] |}
        | Some externalID =>
            {| sr_status :=
                 Some (SetStatus MsgWired (SetExternalID externalID (AddLog (Some log) status)));
               sr_err := None;
               sr_calls := [req] |}
        end
    end.

End Send.

End ZenviaWhatsApp.

(** ** FreshChat (package [freshchat]) *)

Module FreshChat.

Definition apiURL : string := "https://api.freshchat.com/v2".
Definition signatureHeader : string := "X-FreshChat-Signature".

(** What [x509.ParsePKIXPublicKey] can hand back: an [*rsa.PublicKey] or a
    key of another algorithm. *)
Inductive PublicKey :=
| RSAPublicKey (n e : Z)
| OtherPublicKey.

(** The library calls of [validateSignature]. [pemDecode] gives the bytes of
    the first PEM block, [None] for the nil block of a text that holds none;
    the other calls give their error as [inl] or [Some]. *)
Record Crypto := {
  pemDecode : string -> option string;
  ParsePKIXPublicKey : string -> string + PublicKey;
  sha256sum : string -> string;
  base64Decode : string -> string + string;
  VerifyPKCS1v15 : Z -> Z -> string -> string -> option string
}.

(** The inbound request: the value of the signature header (empty when the
    header is absent) and the bytes of the body. *)
Record InRequest := {
  header_signature : string;
  body : string
}.

Section Signature.

Variable lib : Crypto.
(** [courier.ConfigPassword], the key of the public key. *)
Variable ConfigPassword : string.

(** [validateSignature]: [Returns None] is the nil error. *)
Definition validateSignature (validateSignatures : bool) (c : Channel) (r : InRequest)
    : outcome (option string) :=
  if negb validateSignatures then Returns None
  else
    let rsaPubKey := StringConfigForKey c ConfigPassword EmptyString in
    let actual := header_signature r in
    if decide (actual = EmptyString) then Returns (Some "missing request signature")
    else
      let token := body r in
      match pemDecode lib rsaPubKey with
      | None => Panics "invalid memory address or nil pointer dereference"
      | Some blockBytes =>
          match ParsePKIXPublicKey lib blockBytes with
          | inl err => Panics ("failed to parse DER encoded public key: " ++ err)
          | inr pub =>
              let digest := sha256sum lib token in
              match base64Decode lib actual with
              | inl err => Returns (Some ("unable to decode base64 signature, " ++ err))
              | inr decodedSig =>
                  match pub with
                  | OtherPublicKey =>
                      Panics "interface conversion: interface {} is not *rsa.PublicKey"
                  | RSAPublicKey n e =>
                      match VerifyPKCS1v15 lib n e digest decodedSig with
                      | Some err => Returns (Some ("unable to verify signature, " ++ err))
                      | None => Returns None
                      end
                  end
              end
          end
      end.

End Signature.

(** [MessageParts]: [Text] and [Image] are pointers, nil is [None]. *)
Record MessageParts := {
  Text : option string;
  Image : option string
}.

Record Message := {
  ActorID : string;
  ChannelID : string;
  ActorType : string;
  CreatedTime : Time;
  Parts : list MessageParts
}.

(** [moPayload]: [Data.Message] is a pointer, nil when the body has no
    message. *)
Record moPayload := {
  DataMessage : option Message
}.

(** The loop over the message parts: [text] and [mediaURL] after it. *)
Fixpoint collectParts (parts : list MessageParts) (text mediaURL : string) : string * string :=
  match parts with
  | [] => (text, mediaURL)
  | data :: parts' =>
      let text := match Text data with Some content => content | None => text end in
      let mediaURL := match Image data with Some url => url | None => mediaURL end in
      collectParts parts' text mediaURL
  end.

Section Receive.

Variable lib : Crypto.
Variable ConfigPassword : string.
(** [handlers.DecodeAndValidateJSON] on the bytes of the body. *)
Variable DecodeAndValidateJSON : string -> string + moPayload.
(** [urns.NewURNFromParts(scheme, path, "", "")]: an error or the URN. *)
Variable NewURNFromParts : string -> string -> string + URN.

Definition receiveMessage (validateSignatures : bool) (channel : Channel) (r : InRequest)
    : outcome Handled :=
  match validateSignature lib ConfigPassword validateSignatures channel r with
  | Panics why => Panics why
  | Returns (Some err) => Returns (RequestError err)
  | Returns None =>
      match DecodeAndValidateJSON (body r) with
      | inl err => Returns (RequestError err)
      | inr payload =>
          match DataMessage payload with
          | None => Panics "invalid memory address or nil pointer dereference"
          | Some message =>
              if decide (ActorID message = EmptyString) then
                Returns (RequestIgnored "Ignoring request, no message")
              else if decide (ActorType message = "agent") then
                Returns (RequestIgnored "Ignoring request, Agent Message")
              else
                let date := CreatedTime message in
                match chan_schemes channel !! 0%nat with
                | None => Panics "index out of range [0] with length 0"
                | Some scheme =>
                    match NewURNFromParts scheme (ChannelID message ++ "/" ++ ActorID message) with
                    | inl err => Returns (RequestError err)
                    | inr urn =>
                        let '(text, mediaURL) :=
                          collectParts (Parts message) EmptyString EmptyString in
                        let msg := WithReceivedOn date (NewIncomingMsg urn text) in
                        let msg :=
                          if decide (mediaURL = EmptyString) then msg
                          else WithAttachment mediaURL msg in
                        Returns (MsgsWritten [msg])
                    end
                end
          end
      end
  end.

(** An event that passed the signature check and was decoded, with its
    message. *)
Definition arrives (validateSignatures : bool) (channel : Channel)
    (r : InRequest) (message : Message) : Prop :=
  validateSignature lib ConfigPassword validateSignatures channel r = Returns None /\
  exists payload,
    DecodeAndValidateJSON (body r) = inr payload /\
    DataMessage payload = Some message.

End Receive.

(** [strings.Split(s, "/")]: the pieces between the separators; [cur] is the
    piece being read. *)
Fixpoint splitSlash (s : string) (cur : string) : list string :=
  match s with
  | EmptyString => [cur]
  | String a s' =>
      if Ascii.eqb a "/"%char then cur :: splitSlash s' EmptyString
      else splitSlash s' (cur ++ String a EmptyString)
  end.

Definition Split (s : string) : list string := splitSlash s EmptyString.

(** Whether [s] holds the byte [a]. *)
Fixpoint contains (a : ascii) (s : string) : bool :=
  match s with
  | EmptyString => false
  | String b s' => Ascii.eqb b a || contains a s'
  end.

Section Send.

(** [courier.ConfigUsername] and [courier.ConfigAuthToken]. *)
Variables ConfigUsername ConfigAuthToken : string.
Variable net : Net.

Definition textPart (text : string) : json :=
  JObj [ ("text", JObj [ ("content", JStr text) ]) ].

Definition imagePart (mediaURL : string) : json :=
  JObj [ ("image", JObj [ ("url", JStr mediaURL) ]) ].

(** The message parts of the payload: the text when it is not empty, then
    the first attachment when there is one. *)
Definition messageParts (msg : OutMsg) : list json :=
  ((if (0 <? String.length (msg_text msg))%nat then [textPart (msg_text msg)] else []) ++
   (match msg_attachments msg with
    | mediaURL :: _ => [imagePart mediaURL]
    | [] => []
    end))%list.

Definition messagePayload (agentID channelID userID : string) (msg : OutMsg) : json :=
  JObj [ ("messages",
          JArr [ JObj [ ("message_parts", JArr (messageParts msg));
                        ("actor_id", JStr agentID);
                        ("actor_type", JStr "agent") ] ]);
         ("channel_id", JStr channelID);
         ("users", JArr [ JObj [ ("id", JStr userID) ] ]) ].

Definition sendRequest (agentID authToken channelID userID : string) (msg : OutMsg)
    : Request :=
  {| req_method := "POST";
     req_url := apiURL ++ "/conversations";
     req_headers := [ ("Content-Type", "application/json");
                      ("Authorization", "Bearer " ++ authToken) ];
     req_body := BodyJSON (messagePayload agentID channelID userID msg) |}.

(** [SendMsg]. [json.Marshal] of the payload and [http.NewRequest] on the
    fixed URL do not fail, and their error branches are left out. *)
Definition SendMsg (msg : OutMsg) : outcome SendResult :=
  let agentID := StringConfigForKey (msg_channel msg) ConfigUsername EmptyString in
  if decide (agentID = EmptyString) then
    Returns {| sr_status := None;
               sr_err := Some "missing 'agent_id' config for FC channel";
               sr_calls := [] |}
  else
    let authToken := StringConfigForKey (msg_channel msg) ConfigAuthToken EmptyString in
    if decide (authToken = EmptyString) then
      Returns {| sr_status := None;
                 sr_err := Some "missing 'auth_token' config for FC channel";
                 sr_calls := [] |}
    else
      let user := Split (urn_path (msg_urn msg)) in
      let status := NewMsgStatusForID MsgErrored in
      match user !! 0%nat, user !! 1%nat with
      | Some channelID, Some userID =>
          let req := sendRequest agentID authToken channelID userID msg in
          let rr := net 0%nat req in
          let log := WithError "Message Send Error" (rr_err rr)
                       (NewChannelLogFromRR "Message Sent" rr) in
          let status := AddLog (Some log) status in
          match rr_err rr with
          | Some err =>
              Returns {| sr_status := Some status; sr_err := Some err; sr_calls := [req] |}
          | None =>
              Returns {| sr_status := Some (SetStatus MsgWired status);
                         sr_err := None;
                         sr_calls := [req] |}
          end
      | _, _ => Panics "index out of range"
      end.

End Send.

End FreshChat.

(** ** Slack (package [slack]) *)

Module Slack.

Definition apiURL : string := "https://slack.com/api".
Definition configBotToken : string := "bot_token".

(** [FileResponse], without the file it describes. *)
Record FileResponse := {
  OK : bool;
  Error : string
}.

(** [FileParams] *)
Record FileParams := {
  File : string;
  FileName : string;
  Channels : string
}.

Section Send.

(** [handlers.SplitAttachment]: the content type and the URL. *)
Variable SplitAttachment : string -> string * string.
(** [utils.BasePathForURL]: an error or the file name. *)
Variable BasePathForURL : string -> string + string.
(** The error of [http.NewRequest] for a URL, [None] when it builds. *)
Variable NewRequestError : string -> option string.
(** [json.Unmarshal] of a response body into a [FileResponse]. *)
Variable UnmarshalFileResponse : RR -> string + FileResponse.
Variable net : Net.

(** The [mtPayload] of the text part, encoded. *)
Definition mtPayload (msg : OutMsg) : json :=
  JObj [ ("channel", JStr (urn_path (msg_urn msg))); ("text", JStr (msg_text msg)) ].

(** [sendTextMsgPart]: the log and the error. The error of the call is
    kept in the log only; the answer decides. The error of [jsonparser] for
    an answer without the key is written with the text of its
    [KeyPathNotFoundError]. *)
Definition textRequest (msg : OutMsg) (token : string) : Request :=
  {| req_method := "POST";
     req_url := apiURL ++ "/chat.postMessage";
     req_headers := [ ("Content-Type", "application/json; charset=utf-8");
                      ("Authorization", "Bearer " ++ token) ];
     req_body := BodyJSON (mtPayload msg) |}.

(** Whether the answer to the text part reports success. *)
Definition textSucceeded (rr : RR) : bool :=
  match GetBoolean (rr_doc rr) ["ok"] with
  | Some true => true
  | _ => false
  end.

Definition sendTextMsgPart (msg : OutMsg) (token : string) (calls : list Request)
    : option ChannelLog * option string * list Request :=
  let req := textRequest msg token in
  let rr := net (List.length calls) req in
  let calls := (calls ++ [req])%list in
  let log := WithError "Message Send Error" (rr_err rr)
               (NewChannelLogFromRR "Message Sent" rr) in
  match GetBoolean (rr_doc rr) ["ok"] with
  | None => (Some log, Some "Key path not found", calls)
  | Some true => (Some log, None, calls)
  | Some false =>
      match GetString (rr_doc rr) ["error"] with
      | None => (Some log, Some "Key path not found", calls)
      | Some errDescription => (Some log, Some errDescription, calls)
      end
  end.

(** [parseAttachmentToFileParams]: the file, the log and the error. The
    error of the fetch is kept in the log only. *)
Definition parseAttachmentToFileParams (msg : OutMsg) (attachment : string)
    (calls : list Request)
    : option FileParams * option ChannelLog * option string * list Request :=
  let attURL := snd (SplitAttachment attachment) in
  match NewRequestError attURL with
  | Some err => (None, None, Some ("error building file request: " ++ err), calls)
  | None =>
      let req := {| req_method := "GET"; req_url := attURL;
                    req_headers := []; req_body := BodyNone |} in
      let resp := net (List.length calls) req in
      let calls := (calls ++ [req])%list in
      let log := WithError "error fetching media" (rr_err resp)
                   (NewChannelLogFromRR "Fetching attachment" resp) in
      match BasePathForURL attURL with
      | inl err => (None, Some log, Some err, calls)
      | inr filename =>
          (Some {| File := rr_body resp; FileName := filename;
                   Channels := urn_path (msg_urn msg) |},
           Some log, None, calls)
      end
  end.

(** [sendFilePart]: the log and the error; a failed upload has no log.
    Writing the form into its buffer does not fail. *)
Definition sendFilePart (msg : OutMsg) (token : string) (fileParams : FileParams)
    (calls : list Request) : option ChannelLog * option string * list Request :=
  let req :=
    {| req_method := "POST";
       req_url := apiURL ++ "/files.upload";
       req_headers := [ ("Authorization", "Bearer " ++ token);
                        ("Content-Type", "multipart/form-data") ];
       req_body := BodyForm [ ("file", File fileParams);
                              ("filename", FileName fileParams);
                              ("channels", Channels fileParams) ] |} in
  let resp := net (List.length calls) req in
  let calls := (calls ++ [req])%list in
  match rr_err resp with
  | Some err => (None, Some ("error uploading file to slack: " ++ err), calls)
  | None =>
      match UnmarshalFileResponse resp with
      | inl err => (None, Some ("couldn't unmarshal file response: " ++ err), calls)
      | inr fr =>
          if OK fr then
            (Some (NewChannelLogFromRR "uploading file to Slack" resp), None, calls)
          else (None, Some ("error uploading file to slack: " ++ Error fr ++ "."), calls)
      end
  end.

(** The loop over the attachments: [hasError], the status and the calls
    after it. *)
Fixpoint sendAttachments (msg : OutMsg) (botToken : string) (attachments : list string)
    (hasError : bool) (status : MsgStatus) (calls : list Request)
    : bool * MsgStatus * list Request :=
  match attachments with
  | [] => (hasError, status, calls)
  | attachment :: attachments' =>
      let '(fileAttachment, log, err, calls) :=
        parseAttachmentToFileParams msg attachment calls in
      let hasError := bool_decide (err <> None) in
      let status := AddLog log status in
      match fileAttachment with
      | Some fileParams =>
          let '(log, err, calls) := sendFilePart msg botToken fileParams calls in
          let hasError := bool_decide (err <> None) in
          let status := AddLog log status in
          sendAttachments msg botToken attachments' hasError status calls
      | None => sendAttachments msg botToken attachments' hasError status calls
      end
  end.

Definition SendMsg (msg : OutMsg) : SendResult :=
  let botToken := StringConfigForKey (msg_channel msg) configBotToken EmptyString in
  if decide (botToken = EmptyString) then
    {| sr_status := None;
       sr_err := Some "missing bot token for SL/slack channel";
       sr_calls := [] |}
  else
    let status := NewMsgStatusForID MsgErrored in
    let hasError := true in
    let '(hasError, status, calls) :=
      sendAttachments msg botToken (msg_attachments msg) hasError status [] in
    let '(hasError, status, calls) :=
      if decide (msg_text msg = EmptyString) then (hasError, status, calls)
      else
        let '(log, err, calls) := sendTextMsgPart msg botToken calls in
        (bool_decide (err <> None), AddLog log status, calls) in
    let status := if hasError then status else SetStatus MsgWired status in
    {| sr_status := Some status; sr_err := None; sr_calls := calls |}.

End Send.

End Slack.

(** ** Slack: the first [SendMsg] of [slack.go] (lines 167 to 286) *)

Module SlackFirst.

Section Send.

Variable SplitAttachment : string -> string * string.
Variable BasePathForURL : string -> string + string.
Variable NewRequestError : string -> option string.
Variable UnmarshalFileResponse : RR -> string + Slack.FileResponse.
Variable net : Net.

Definition stopped (status : MsgStatus) (err : option string) (calls : list Request)
    : SendResult :=
  {| sr_status := Some status; sr_err := err; sr_calls := calls |}.

(** A send that stopped is errored. *)
Definition stopped_errored (result : SendResult) : Prop :=
  returned_value result = Some MsgErrored.

(** The loop that fetches the attachments: the status, the calls and the
    files when it runs to its end, what [SendMsg] returns when it stops. *)
Fixpoint fetchAll (msg : OutMsg) (attachments : list string)
    (status : MsgStatus) (calls : list Request) (files : list Slack.FileParams)
    : MsgStatus * list Request * list Slack.FileParams + SendResult :=
  match attachments with
  | [] => inl (status, calls, files)
  | attachment :: attachments' =>
      let attURL := snd (SplitAttachment attachment) in
      match NewRequestError attURL with
      | Some err => inr (stopped status (Some ("error building file request: " ++ err)) calls)
      | None =>
          let req := {| req_method := "GET"; req_url := attURL;
                        req_headers := []; req_body := BodyNone |} in
          let resp := net (List.length calls) req in
          let calls := (calls ++ [req])%list in
          let log := WithError "error fetching media" (rr_err resp)
                       (NewChannelLogFromRR "Fetching media" resp) in
          let status := AddLog (Some log) status in
          match rr_err resp with
          | Some err => inr (stopped status (Some err) calls)
          | None =>
              match BasePathForURL attURL with
              | inl err => inr (stopped status (Some err) calls)
              | inr filename =>
                  fetchAll msg attachments' status calls
                    (files ++ [ {| Slack.File := rr_body resp;
                                   Slack.FileName := filename;
                                   Slack.Channels := urn_path (msg_urn msg) |} ])%list
              end
          end
      end
  end.

Definition uploadRequest (botToken : string) (attParams : Slack.FileParams) : Request :=
  {| req_method := "POST";
     req_url := Slack.apiURL ++ "/files.upload";
     req_headers := [ ("Authorization", "Bearer " ++ botToken);
                      ("Content-Type", "multipart/form-data") ];
     req_body := BodyForm [ ("file", Slack.File attParams);
                            ("filename", Slack.FileName attParams);
                            ("channels", Slack.Channels attParams) ] |}.

(** The loop that uploads the files. *)
Fixpoint uploadAll (botToken : string) (files : list Slack.FileParams)
    (status : MsgStatus) (calls : list Request)
    : MsgStatus * list Request + SendResult :=
  match files with
  | [] => inl (status, calls)
  | attParams :: files' =>
      let req := uploadRequest botToken attParams in
      let resp := net (List.length calls) req in
      let calls := (calls ++ [req])%list in
      match rr_err resp with
      | Some err => inr (stopped status (Some ("error uploading file to slack: " ++ err)) calls)
      | None =>
          match UnmarshalFileResponse resp with
          | inl err =>
              inr (stopped status (Some ("couldn't unmarshal file response: " ++ err)) calls)
          | inr fResponse =>
              if Slack.OK fResponse then
                uploadAll botToken files'
                  (AddLog (Some (NewChannelLogFromRR "uploading file to Slack" resp)) status)
                  calls
              else
                inr (stopped status
                       (Some ("error uploading file to slack: " ++ Slack.Error fResponse ++ "."))
                       calls)
          end
      end
  end.

(** The text part: the status and the calls when it went through. An
    answer that says it did not stops the send with a nil error. *)
Definition sendText (msg : OutMsg) (botToken : string) (status : MsgStatus)
    : MsgStatus * list Request + SendResult :=
  if decide (msg_text msg = EmptyString) then inl (status, [])
  else
    let req := Slack.textRequest msg botToken in
    let rr := net 0%nat req in
    let log := WithError "Message Send Error" (rr_err rr)
                 (NewChannelLogFromRR "Message Sent" rr) in
    let status := AddLog (Some log) status in
    match GetBoolean (rr_doc rr) ["ok"] with
    | None => inr (stopped status (Some "Key path not found") [req])
    | Some false => inr (stopped status None [req])
    | Some true => inl (status, [req])
    end.

Definition SendMsg (msg : OutMsg) : SendResult :=
  let botToken := StringConfigForKey (msg_channel msg) Slack.configBotToken EmptyString in
  if decide (botToken = EmptyString) then
    {| sr_status := None;
       sr_err := Some "missing bot token for SL/slack channel";
       sr_calls := [] |}
  else
    let status := NewMsgStatusForID MsgErrored in
    match sendText msg botToken status with
    | inr result => result
    | inl (status, calls) =>
        match fetchAll msg (msg_attachments msg) status calls [] with
        | inr result => result
        | inl (status, calls, files) =>
            match uploadAll botToken files status calls with
            | inr result => result
            | inl (status, calls) =>
                {| sr_status := Some (SetStatus MsgWired status);
                   sr_err := None;
                   sr_calls := calls |}
            end
        end
    end.

End Send.

End SlackFirst.

(** ** Package [utils] *)

Module Utils.

(** The loop of [JoinNonEmpty]: [buf] is what the strings before wrote. *)
Fixpoint joinLoop (delim : string) (strs : list string) (buf : string) : string :=
  match strs with
  | [] => buf
  | s :: strs' =>
      if decide (s = EmptyString) then joinLoop delim strs' buf
      else
        let buf := if (0 <? String.length buf)%nat then buf ++ delim else buf in
        joinLoop delim strs' (buf ++ s)
  end.

Definition JoinNonEmpty (delim : string) (strs : list string) : string :=
  joinLoop delim strs EmptyString.

Fixpoint StringArrayContains (s : list string) (e : string) : bool :=
  match s with
  | [] => false
  | a :: s' => if decide (a = e) then true else StringArrayContains s' e
  end.

(** [utf8.RuneError], the rune U+FFFD. *)
Definition RuneError : Z := 65533.

Section UTF8.

(** Package [unicode/utf8] and the conversion [string(rune)], over the bytes
    of a string: [utf8.ValidString], [utf8.DecodeRuneInString] (the rune and
    its width, which is also what a [range] over a string yields at each
    position) and the UTF-8 encoding of a rune. *)
Variable ValidString : list ascii -> bool.
Variable DecodeRuneInString : list ascii -> Z * nat.
Variable EncodeRune : Z -> list ascii.

(** The loop [for i, r := range s] of [DecodeUTF8], over what is left of
    [s] from position [i] on; [v] holds the runes kept so far. The loop
    moves on by the width of the rune it read; [fuel] bounds its rounds. *)
Fixpoint rangeLoop (fuel : nat) (s : list ascii) (v : list Z) : list Z :=
  match fuel, s with
  | _, [] => v
  | O, _ => v
  | S fuel', _ =>
      let (r, width) := DecodeRuneInString s in
      let rest := drop width s in
      if decide (r = RuneError) then
        let (_, size) := DecodeRuneInString s in
        if decide (size = 1%nat) then rangeLoop fuel' rest v
        else rangeLoop fuel' rest (v ++ [r])%list
      else rangeLoop fuel' rest (v ++ [r])%list
  end.

(** [DecodeUTF8]: [string(v)] encodes the runes kept, one after the
    other. *)
Definition DecodeUTF8 (bytes : list ascii) : list ascii :=
  let s := bytes in
  if negb (ValidString s) then
    flat_map EncodeRune (rangeLoop (List.length s) s [])
  else s.

End UTF8.

End Utils.

(** ** Zenvia SMS: incoming messages *)

Module ZenviaMO.

(** [messageRequest.CallbackMORequest] *)
Record messageRequest := {
  ID : string;
  From : string;
  Text : string;
  Date : string;
  ExternalID : string
}.

(** How [ReceiveMessage] answers: through [WriteAndLogRequestError],
    through [WriteMsgSuccess], or not at all when the backend refused the
    message. *)
Inductive Response :=
| ErrorResponse (err : string)
| MsgSuccess (msgs : list Msg)
| NoResponse (err : string).

(** What [ReceiveMessage] leaves: its answer, the events it returns and
    the messages it handed to [Backend.WriteMsg], in order. *)
Record Received := {
  rc_response : Response;
  rc_events : list Msg;
  rc_writes : list Msg
}.

Section Receive.

(** [time.Parse] with the layout [2006-01-02T15:04:05.000-07:00]. *)
Variable ParseTime : string -> option Time.
(** [urns.NewTelURNForCountry] and [Channel.Country]. *)
Variable NewTelURNForCountry : string -> string -> URN.
Variable Country : Channel -> string.
(** [Backend.WriteMsg]: its error, [None] when the message is queued. *)
Variable WriteMsg : Msg -> option string.

Definition ReceiveMessage (channel : Channel) (decoded : string + messageRequest)
    : Received :=
  match decoded with
  | inl err => {| rc_response := ErrorResponse err; rc_events := []; rc_writes := [] |}
  | inr zvMsg =>
      match ParseTime (Date zvMsg) with
      | None =>
          {| rc_response := ErrorResponse ("invalid date format: " ++ Date zvMsg);
             rc_events := []; rc_writes := [] |}
      | Some date =>
          let urn := NewTelURNForCountry (From zvMsg) (Country channel) in
          let msg := WithReceivedOn date
                       (WithExternalID (ExternalID zvMsg)
                          (NewIncomingMsg urn (Text zvMsg))) in
          match WriteMsg msg with
          | Some err =>
              {| rc_response := NoResponse err; rc_events := []; rc_writes := [msg] |}
          | None =>
              {| rc_response := MsgSuccess [msg]; rc_events := [msg]; rc_writes := [msg] |}
          end
      end
  end.

End Receive.

End ZenviaMO.

(** ** Slack: incoming events *)

Module SlackEvents.

Definition configUserToken : string := "user_token".
Definition configValidationToken : string := "verification_token".
Definition ErrAlreadyPublic : string := "already_public".
Definition ErrPublicVideoNotAllowed : string := "public_video_not_allowed".

(** [File], with the fields the handler reads. *)
Record File := {
  ID : string;
  URLPrivateDownload : string;
  PermalinkPublic : string
}.

(** [FileResponse], with its file. *)
Record FileResponse := {
  OK : bool;
  ResponseFile : File;
  Error : string
}.

(** [UserInfo]: [User.RealName] is all that is read of it. *)
Record UserInfo := {
  RealName : string
}.

(** [moPayload.Event] *)
Record Event := {
  EventKind : string;
  Channel_ : string;
  User : string;
  Text : string;
  ChannelType : string;
  Files : list File;
  BotID : string
}.

Record moPayload := {
  Token : string;
  Event_ : Event;
  Type_ : string;
  EventID : string;
  EventTime : Z;
  Challenge : string
}.

(** The calls of the handler to the Slack API: [users.info] for a user, with
    the bot token, and [files.sharedPublicURL] for a file, with the user
    token. *)
Inductive Call :=
| UsersInfo (botToken userSlackID : string)
| SharedPublicURL (userToken fileID : string).

(** The Slack side: the answer to the [n]-th call of a request. *)
Definition API := nat -> Call -> RR.

(** What the handler writes on the [http.ResponseWriter] itself. *)
Record HTTPResponse := {
  resp_status : nat;
  resp_content_type : string;
  resp_body : string
}.

Inductive Outcome :=
| Verification (resp : HTTPResponse) (err : option string)
| Answered (h : Handled).

(** What [receiveEvent] leaves: its outcome, the calls it made, the channel
    logs it wrote to the backend and the errors it logged for files it gave
    up on. *)
Record EventResult := {
  ev_outcome : Outcome;
  ev_calls : list Call;
  ev_logs : list ChannelLog;
  ev_skipped : list string
}.

(** [strings.Contains] *)
Fixpoint Contains (s substr : string) : bool :=
  String.prefix substr s ||
  match s with
  | EmptyString => false
  | String _ s' => Contains s' substr
  end.

(** [strings.Split(s, sep)] for a separator of one byte; [cur] is the piece
    being read. *)
Fixpoint splitOn (sep : ascii) (s : string) (cur : string) : list string :=
  match s with
  | EmptyString => [cur]
  | String a s' =>
      if Ascii.eqb a sep then cur :: splitOn sep s' EmptyString
      else splitOn sep s' (cur ++ String a EmptyString)
  end.

Definition Split (s : string) (sep : ascii) : list string := splitOn sep s EmptyString.

Section Receive.

(** [Channel.UUID] *)
Variable UUID : Channel -> string.
(** [urns.NewURNFromParts(urns.SlackScheme, path, "", display)] *)
Variable NewSlackURN : string -> string -> string + URN.
(** [json.Unmarshal] of an answer into a [FileResponse], and into a
    [*UserInfo], which the document null leaves nil. *)
Variable UnmarshalFileResponse : RR -> string + FileResponse.
Variable UnmarshalUserInfo : RR -> string + option UserInfo.
Variable api : API.

(** [handleURLVerification]. The configuration is read with
    [ConfigForKey]; its values are strings here. *)
Definition handleURLVerification (channel : Channel) (payload : moPayload) : Outcome :=
  let validationToken := StringConfigForKey channel configValidationToken EmptyString in
  if decide (validationToken = Token payload) then
    Verification {| resp_status := 200; resp_content_type := "text/plain";
                    resp_body := Challenge payload |} None
  else
    Verification {| resp_status := 403; resp_content_type := EmptyString;
                    resp_body := EmptyString |}
      (Some ("Wrong validation token for channel: " ++ UUID channel)).

(** [getUserInfo], as the call number [n]: the user, the log and the
    error. *)
Definition getUserInfo (userSlackID : string) (channel : Channel) (n : nat)
    : option UserInfo * option ChannelLog * option string :=
  let rr := api n (UsersInfo (StringConfigForKey channel Slack.configBotToken EmptyString)
                     userSlackID) in
  match rr_err rr with
  | Some err =>
      (None, Some (WithError "Request User Info Error" (Some err)
                     (NewChannelLogFromRR "Get User info" rr)), Some err)
  | None =>
      match UnmarshalUserInfo rr with
      | inl err =>
          (None, Some (WithError "Unmarshal User Info Error" (Some err)
                         (NewChannelLogFromRR "Get User info" rr)), Some err)
      | inr uInfo => (uInfo, None, None)
      end
  end.

(** The one call of [resolveFile]. *)
Definition fileCall (channel : Channel) (file : File) : Call :=
  SharedPublicURL (StringConfigForKey channel configUserToken EmptyString) (ID file).

(** [resolveFile], as the call number [n]: the error or the URL, and the
    channel logs written to the backend. *)
Definition resolveFile (channel : Channel) (file : File) (n : nat)
    : outcome ((string + string) * list ChannelLog) :=
  let rr := api n (fileCall channel file) in
  match rr_err rr with
  | Some err =>
      Returns (inl err, [WithError "File Resolving Error" (Some err)
                           (NewChannelLogFromRR "File Resolving" rr)])
  | None =>
      match UnmarshalFileResponse rr with
      | inl err => Returns (inl ("couldn't unmarshal file response: " ++ err), [])
      | inr fResponse =>
          let located (currentFile : File) :=
            let pubLnkSplited := Split (PermalinkPublic currentFile) "-" in
            match pubLnkSplited !! (List.length pubLnkSplited - 1)%nat with
            | None => Panics "index out of range [-1]"
            | Some pubSecret =>
                Returns (inr (URLPrivateDownload currentFile ++ "?pub_secret=" ++ pubSecret),
                         [])
            end in
          if OK fResponse then located (ResponseFile fResponse)
          else if decide (Error fResponse = ErrAlreadyPublic) then located file
          else if decide (Error fResponse = ErrPublicVideoNotAllowed) then
            Returns (inl ("public sharing of videos is not available for a free instance of Slack. file id: "
                          ++ ID file ++ ". error: " ++ Error fResponse), [])
          else
            Returns (inl ("couldn't resolve file for file id: " ++ ID file
                          ++ ". error: " ++ Error fResponse), [])
      end
  end.

(** What the loop over the files of an event holds: the URLs of the files
    that resolved, the errors logged for the others, the channel logs
    written and the calls made. *)
Record Resolving := {
  rs_urls : list string;
  rs_skipped : list string;
  rs_logs : list ChannelLog;
  rs_calls : list Call
}.

Fixpoint resolveFiles (channel : Channel) (files : list File) (st : Resolving)
    : outcome Resolving :=
  match files with
  | [] => Returns st
  | file :: files' =>
      let calls := (rs_calls st ++ [fileCall channel file])%list in
      match resolveFile channel file (List.length (rs_calls st)) with
      | Panics why => Panics why
      | Returns (inl err, logs) =>
          resolveFiles channel files'
            {| rs_urls := rs_urls st;
               rs_skipped := (rs_skipped st ++ [err])%list;
               rs_logs := (rs_logs st ++ logs)%list;
               rs_calls := calls |}
      | Returns (inr fileURL, logs) =>
          resolveFiles channel files'
            {| rs_urls := (rs_urls st ++ [fileURL])%list;
               rs_skipped := rs_skipped st;
               rs_logs := (rs_logs st ++ logs)%list;
               rs_calls := calls |}
      end
  end.

Definition attach (urls : list string) (msg : Msg) : Msg :=
  fold_left (fun m url => WithAttachment url m) urls msg.

(** [receiveEvent], from the outcome of [DecodeAndValidateJSON]. *)
Definition receiveEvent (channel : Channel) (decoded : string + moPayload)
    : outcome EventResult :=
  let done (h : Handled) (calls : list Call) (logs : list ChannelLog)
           (skipped : list string) :=
    Returns {| ev_outcome := Answered h; ev_calls := calls; ev_logs := logs;
               ev_skipped := skipped |} in
  match decoded with
  | inl err => done (RequestError err) [] [] []
  | inr payload =>
      if decide (Type_ payload = "url_verification") then
        Returns {| ev_outcome := handleURLVerification channel payload;
                   ev_calls := []; ev_logs := []; ev_skipped := [] |}
      else
        let event := Event_ payload in
        if Contains (EventKind event) "message" && bool_decide (BotID event = EmptyString)
        then
          let date := EventTime payload in
          let build (path userName : string) (calls : list Call) :=
            match NewSlackURN path userName with
            | inl err => done (RequestError err) calls [] []
            | inr urn =>
                match resolveFiles channel (Files event)
                        {| rs_urls := []; rs_skipped := []; rs_logs := [];
                           rs_calls := calls |} with
                | Panics why => Panics why
                | Returns st =>
                    let msg := WithContactName userName
                                 (WithExternalID (EventID payload)
                                    (WithReceivedOn date
                                       (NewIncomingMsg urn (Text event)))) in
                    done (MsgsWritten [attach (rs_urls st) msg])
                         (rs_calls st) (rs_logs st) (rs_skipped st)
                end
            end in
          if decide (ChannelType event = "channel") then
            build (Channel_ event) EmptyString []
          else if decide (ChannelType event = "im") then
            let call := UsersInfo (StringConfigForKey channel Slack.configBotToken EmptyString)
                          (User event) in
            match getUserInfo (User event) channel 0 with
            | (_, log, Some err) =>
                done (RequestError err) [call]
                     (match log with Some l => [l] | None => [] end) []
            | (None, _, None) => Panics "invalid memory address or nil pointer dereference"
            | (Some userInfo, _, None) => build (User event) (RealName userInfo) [call]
            end
          else build EmptyString EmptyString []
        else done (RequestIgnored "Ignoring request, no message") [] [] []
  end.

End Receive.

End SlackEvents.

(** ** The status tables as documented *)

Module Documented.

(** Zenvia SMS: the codes 00 to 02 are sent, 03 is delivered, 04 to 10 and
    every other code are errored. *)
Definition zenviaStatus (code : string) : MsgStatusValue :=
  if decide (code ∈ ["00"; "01"; "02"]) then MsgSent
  else if decide (code = "03") then MsgDelivered
  else MsgErrored.

(** Zenvia WhatsApp: REJECTED and NOT_DELIVERED are failed, SENT is sent,
    DELIVERED and READ are delivered, every other code is errored. *)
Definition whatsappStatus (code : string) : MsgStatusValue :=
  if decide (code ∈ ["REJECTED"; "NOT_DELIVERED"]) then MsgFailed
  else if decide (code = "SENT") then MsgSent
  else if decide (code ∈ ["DELIVERED"; "READ"]) then MsgDelivered
  else MsgErrored.

(** FreshChat: the content of the last text part of an event (empty when it
    has none) and the URL of its last image part. *)
Definition lastText (parts : list FreshChat.MessageParts) : string :=
  List.last (omap FreshChat.Text parts) EmptyString.

Definition lastImage (parts : list FreshChat.MessageParts) : string :=
  List.last (omap FreshChat.Image parts) EmptyString.

End Documented.

(** ** Inputs the properties are tried on *)

Module Examples.

Fixpoint repeatChar (a : ascii) (n : nat) : string :=
  match n with
  | 0 => EmptyString
  | S n' => String a (repeatChar a n')
  end.

(** A text of 151 bytes without a space, and one of 2300 bytes. *)
Definition text151 : string := repeatChar "a" 151.
Definition text2300 : string := repeatChar "b" 2300.

(** A Zenvia WhatsApp event with a text, an image file and a location.
    Coordinates are kept as printed under [%f]; the timestamp parser knows
    the one timestamp of the event. *)
Definition waParseTime (s : string) : option Time :=
  if decide (s = "2021-03-08T18:45:07Z") then Some 1615229107%Z else None.

Definition waURN (from : string) : string + URN :=
  if decide (from = EmptyString) then inl "invalid whatsapp id"
  else inr {| urn_scheme := "whatsapp"; urn_path := from; urn_display := EmptyString |}.

Definition waContent (type text fileURL lat lon : string) : ZenviaWhatsApp.moContent string :=
  {| ZenviaWhatsApp.Type_ := type;
     ZenviaWhatsApp.Text := text;
     ZenviaWhatsApp.Payload := EmptyString;
     ZenviaWhatsApp.FileURL := fileURL;
     ZenviaWhatsApp.FileMimeType := EmptyString;
     ZenviaWhatsApp.FileCaption := EmptyString;
     ZenviaWhatsApp.FileName := EmptyString;
     ZenviaWhatsApp.Longitude := lon;
     ZenviaWhatsApp.Latitude := lat |}.

Definition waEvent (eventType direction : string) : ZenviaWhatsApp.moPayload string :=
  {| ZenviaWhatsApp.Timestamp := "2021-03-08T18:45:07Z";
     ZenviaWhatsApp.EventType := eventType;
     ZenviaWhatsApp.Message :=
       {| ZenviaWhatsApp.ID := "ec9adc86";
          ZenviaWhatsApp.From := "5515997899875";
          ZenviaWhatsApp.To := "5515991234567";
          ZenviaWhatsApp.Direction := direction;
          ZenviaWhatsApp.Contents :=
            [ waContent "text" "Hello" EmptyString "0.000000" "0.000000";
              waContent "file" EmptyString "https://files.example/cat.jpg"
                        "0.000000" "0.000000";
              waContent "location" EmptyString EmptyString "-9.500000" "-35.700000" ] |};
     ZenviaWhatsApp.VisitorName := "Bob" |}.

Definition waReceive : string + ZenviaWhatsApp.moPayload string -> Handled :=
  ZenviaWhatsApp.receiveMessage ToUpperASCII string (fun s => s) waParseTime waURN.

(** Channels, outbound messages and provider answers. *)
Definition channelWith (config : list (string * string)) : Channel :=
  {| chan_address := "+5515991234567";
     chan_schemes := ["freshchat"];
     chan_config := list_to_map config |}.

Definition outMsg (c : Channel) (path text : string) (attachments : list string) : OutMsg :=
  {| msg_channel := c;
     msg_id := "10";
     msg_urn := {| urn_scheme := "tel"; urn_path := path; urn_display := EmptyString |};
     msg_text := text;
     msg_attachments := attachments |}.

Definition answered (doc : json) : RR :=
  {| rr_err := None; rr_body := "(json)"; rr_doc := Some doc |}.

Definition unreachable : RR :=
  {| rr_err := Some "connection refused"; rr_body := EmptyString; rr_doc := None |}.

(** A provider that cannot be reached. *)
Definition deadNet : Net := fun _ _ => unreachable.

(** Zenvia SMS accepts the first part and cannot be reached for the next. *)
Definition zenviaAccepted : RR :=
  answered (JObj [ ("sendSmsResponse", JObj [ ("statusCode", JStr "00") ]) ]).

Definition firstPartOnlyNet : Net :=
  fun n _ => match n with 0%nat => zenviaAccepted | _ => unreachable end.

Definition zenviaSend (net : Net) : OutMsg -> SendResult :=
  Zenvia.SendMsg "username" "password" msg_text Handlers.SplitMsg
    (fun user pass => "Basic " ++ user ++ ":" ++ pass) net.

Definition zenviaChannel : Channel :=
  channelWith [ ("username", "zv-user"); ("password", "zv-pass") ].

(** Zenvia WhatsApp. *)
Definition whatsappSend (net : Net) : OutMsg -> SendResult :=
  ZenviaWhatsApp.SendMsg "api_key" (fun att => ("image/jpeg", att))
    (fun _ text max => Handlers.SplitMsg text max) net.

Definition whatsappChannel : Channel := channelWith [ ("api_key", "zvw-token") ].

(** Slack: the attachment is fetched, its upload is refused, the text is
    posted. *)
Definition decodeFileResponse (rr : RR) : string + Slack.FileResponse :=
  match rr_doc rr with
  | Some (JObj fields) =>
      inr {| Slack.OK := match assoc "ok" fields with Some (JBool b) => b | _ => false end;
             Slack.Error := match assoc "error" fields with Some (JStr e) => e | _ => EmptyString end |}
  | _ => inl "unexpected end of JSON input"
  end.

Definition uploadRefusedNet : Net :=
  fun n _ =>
    match n with
    | 0%nat => {| rr_err := None; rr_body := "(jpeg)"; rr_doc := None |}
    | 1%nat => answered (JObj [ ("ok", JBool false); ("error", JStr "invalid_auth") ])
    | _ => answered (JObj [ ("ok", JBool true) ])
    end.

Definition slackSend (net : Net) : OutMsg -> SendResult :=
  Slack.SendMsg (fun att => ("image/jpeg", att)) (fun _ => inr "cat.jpg") (fun _ => None)
    decodeFileResponse net.

Definition slackChannel : Channel := channelWith [ ("bot_token", "xoxb-123") ].

Definition slackMsg : OutMsg :=
  outMsg slackChannel "U0123ABCDEF" "Hello" ["https://files.example/cat.jpg"].

(** FreshChat: a library that finds a PEM block only behind its header and
    whose key parser refuses every block. *)
Definition strictCrypto : FreshChat.Crypto :=
  {| FreshChat.pemDecode :=
       fun s => if String.prefix "-----BEGIN PUBLIC KEY-----" s then Some s else None;
     FreshChat.ParsePKIXPublicKey := fun _ => inl "asn1: syntax error";
     FreshChat.sha256sum := fun s => s;
     FreshChat.base64Decode := fun s => inr s;
     FreshChat.VerifyPKCS1v15 := fun _ _ _ _ => None |}.

Definition signedRequest (body : string) : FreshChat.InRequest :=
  {| FreshChat.header_signature := "c2lnbmF0dXJl"; FreshChat.body := body |}.

Definition fcMessage (actorID actorType : string) (parts : list FreshChat.MessageParts)
    : FreshChat.Message :=
  {| FreshChat.ActorID := actorID;
     FreshChat.ChannelID := "c8fddfaf";
     FreshChat.ActorType := actorType;
     FreshChat.CreatedTime := 1615229107%Z;
     FreshChat.Parts := parts |}.

Definition fcText (content : string) : FreshChat.MessageParts :=
  {| FreshChat.Text := Some content; FreshChat.Image := None |}.

Definition fcImage (url : string) : FreshChat.MessageParts :=
  {| FreshChat.Text := None; FreshChat.Image := Some url |}.

(** The decoder of the examples: the body names the event it stands for. *)
Definition fcDecode (body : string) : string + FreshChat.moPayload :=
  if decide (body = "(event without message)") then
    inr {| FreshChat.DataMessage := None |}
  else if decide (body = "(event without actor)") then
    inr {| FreshChat.DataMessage := Some (fcMessage EmptyString "user" [fcText "Hi"]) |}
  else if decide (body = "(agent event)") then
    inr {| FreshChat.DataMessage := Some (fcMessage "882f3926" "agent" [fcText "Hi"]) |}
  else if decide (body = "(user event)") then
    inr {| FreshChat.DataMessage :=
             Some (fcMessage "882f3926" "user"
                     [ fcText "first"; fcImage "https://img.example/1.png";
                       fcText "second"; fcImage "https://img.example/2.png" ]) |}
  else inl "unexpected end of JSON input".

Definition fcURN (scheme path : string) : string + URN :=
  if decide (path = EmptyString) then inl "invalid path"
  else inr {| urn_scheme := scheme; urn_path := path; urn_display := EmptyString |}.

Definition fcReceive (validateSignatures : bool) (c : Channel) (r : FreshChat.InRequest)
    : outcome Handled :=
  FreshChat.receiveMessage strictCrypto "password" fcDecode fcURN validateSignatures c r.

Definition fcSend (net : Net) : OutMsg -> outcome SendResult :=
  FreshChat.SendMsg "username" "auth_token" net.

Definition fcChannel : Channel :=
  channelWith [ ("username", "agent-1"); ("auth_token", "fc-token") ].

End Examples.

(** ** More inputs *)

Module MoreExamples.

(** Zenvia SMS accepts every part. *)
Definition acceptNet : Net := fun _ _ => Examples.zenviaAccepted.

Definition shortMsg : OutMsg :=
  Examples.outMsg Examples.zenviaChannel "5515997899875" "Hi" [].

Definition longMsg : OutMsg :=
  Examples.outMsg Examples.zenviaChannel "5515997899875" Examples.text151 [].

(** A library whose keys all parse and whose signature of a body is the
    body itself. *)
Definition echoCrypto : FreshChat.Crypto :=
  {| FreshChat.pemDecode := fun s => Some s;
     FreshChat.ParsePKIXPublicKey := fun _ => inr (FreshChat.RSAPublicKey 3233 17);
     FreshChat.sha256sum := fun s => s;
     FreshChat.base64Decode :=
       fun s => if String.prefix "!" s then inl "illegal base64 data at input byte 0"
                else inr s;
     FreshChat.VerifyPKCS1v15 :=
       fun _ _ digest sig =>
         if decide (digest = sig) then None else Some "crypto/rsa: verification error" |}.

Definition echoChannel : Channel :=
  Examples.channelWith [ ("password", "-----BEGIN PUBLIC KEY-----") ].

(** Slack events: a message with two files, the first of which is
    already public and the second of which Slack refuses to share. *)
Definition slackFile (id : string) : SlackEvents.File :=
  {| SlackEvents.ID := id;
     SlackEvents.URLPrivateDownload := "https://files.slack.example/" ++ id;
     SlackEvents.PermalinkPublic := "https://slack-files.example/T0-" ++ id ++ "-5f3a" |}.

Definition slackEvent (kind channelType botID : string) : SlackEvents.moPayload :=
  {| SlackEvents.Token := "tok-1";
     SlackEvents.Event_ :=
       {| SlackEvents.EventKind := kind;
          SlackEvents.Channel_ := "C0123ABCDEF";
          SlackEvents.User := "U0123ABCDEF";
          SlackEvents.Text := "Hello";
          SlackEvents.ChannelType := channelType;
          SlackEvents.Files := [slackFile "F1"; slackFile "F2"];
          SlackEvents.BotID := botID |};
     SlackEvents.Type_ := "event_callback";
     SlackEvents.EventID := "Ev0123";
     SlackEvents.EventTime := 1615229107%Z;
     SlackEvents.Challenge := EmptyString |}.

Definition slackChallenge (token : string) : SlackEvents.moPayload :=
  {| SlackEvents.Token := token;
     SlackEvents.Event_ :=
       {| SlackEvents.EventKind := EmptyString;
          SlackEvents.Channel_ := EmptyString;
          SlackEvents.User := EmptyString;
          SlackEvents.Text := EmptyString;
          SlackEvents.ChannelType := EmptyString;
          SlackEvents.Files := [];
          SlackEvents.BotID := EmptyString |};
     SlackEvents.Type_ := "url_verification";
     SlackEvents.EventID := EmptyString;
     SlackEvents.EventTime := 0%Z;
     SlackEvents.Challenge := "3eZbrw1aB" |}.

Definition slackDecodeFile (rr : RR) : string + SlackEvents.FileResponse :=
  match rr_doc rr with
  | Some (JObj fields) =>
      inr {| SlackEvents.OK :=
               match assoc "ok" fields with Some (JBool b) => b | _ => false end;
             SlackEvents.ResponseFile := slackFile "F0";
             SlackEvents.Error :=
               match assoc "error" fields with Some (JStr e) => e | _ => EmptyString end |}
  | _ => inl "unexpected end of JSON input"
  end.

Definition slackDecodeUser (rr : RR) : string + option SlackEvents.UserInfo :=
  match rr_doc rr with
  | Some JNull => inr None
  | Some (JObj fields) =>
      inr (Some {| SlackEvents.RealName :=
                     match assoc "real_name" fields with
                     | Some (JStr name) => name
                     | _ => EmptyString
                     end |})
  | _ => inl "unexpected end of JSON input"
  end.

(** Slack answers a question about a user with the name, about the file F1
    with already_public, about any other file with a refusal. *)
Definition slackAPI : SlackEvents.API :=
  fun _ call =>
    match call with
    | SlackEvents.UsersInfo _ _ =>
        Examples.answered (JObj [ ("real_name", JStr "Bob Silva") ])
    | SlackEvents.SharedPublicURL _ fileID =>
        if decide (fileID = "F1") then
          Examples.answered (JObj [ ("ok", JBool false); ("error", JStr "already_public") ])
        else
          Examples.answered (JObj [ ("ok", JBool false); ("error", JStr "not_allowed") ])
    end.

Definition slackURN (path display : string) : string + URN :=
  if decide (path = EmptyString) then inl "invalid path"
  else inr {| urn_scheme := "slack"; urn_path := path; urn_display := display |}.

Definition slackChannelIn : Channel :=
  Examples.channelWith [ ("bot_token", "xoxb-123"); ("user_token", "xoxp-456");
                         ("verification_token", "tok-1") ].

Definition slackReceive (api : SlackEvents.API)
    : Channel -> string + SlackEvents.moPayload -> outcome SlackEvents.EventResult :=
  SlackEvents.receiveEvent (fun _ => "8eb23e93") slackURN slackDecodeFile slackDecodeUser api.

(** The one-byte part of UTF-8: a byte below 128 is the rune of that
    number, any other byte is an invalid encoding of width 1. *)
Definition isASCII (a : ascii) : bool := (nat_of_ascii a <? 128)%nat.

Definition validASCII (s : list ascii) : bool := forallb isASCII s.

Definition decodeASCII (s : list ascii) : Z * nat :=
  match s with
  | [] => (Utils.RuneError, 0%nat)
  | a :: _ =>
      if isASCII a then (Z.of_nat (nat_of_ascii a), 1%nat) else (Utils.RuneError, 1%nat)
  end.

Definition encodeASCII (r : Z) : list ascii :=
  if decide (r = Utils.RuneError) then
    [ascii_of_nat 239; ascii_of_nat 191; ascii_of_nat 189]
  else [ascii_of_nat (Z.to_nat r)].

Definition brokenBytes : list ascii :=
  ["a"%char; ascii_of_nat 255; "b"%char; ascii_of_nat 192; "c"%char].

End MoreExamples.

(** * Properties *)

(** ** Splitting and joining *)

Section Strings.

Import Handlers.

Lemma append_cons (a : ascii) (s t : string) : String a s ++ t = String a (s ++ t).
Proof. reflexivity. Qed.

Lemma append_empty_l (t : string) : EmptyString ++ t = t.
Proof. reflexivity. Qed.

Lemma append_empty_r (s : string) : s ++ EmptyString = s.
Proof.
  induction s as [|a s IH]; [reflexivity|]. now rewrite append_cons, IH.
Qed.

Lemma length_append (s t : string) :
  String.length (s ++ t) = (String.length s + String.length t)%nat.
Proof.
  induction s as [|a s IH]; [reflexivity|]. rewrite append_cons. simpl. now rewrite IH.
Qed.

Lemma str_take_drop (n : nat) (s : string) : str_take n s ++ str_drop n s = s.
Proof.
  revert s; induction n as [|n IH]; intros [|a s]; simpl; try reflexivity.
  now rewrite append_cons, IH.
Qed.

Lemma length_str_take (n : nat) (s : string) :
  String.length (str_take n s) = Nat.min n (String.length s).
Proof.
  revert s; induction n as [|n IH]; intros [|a s]; simpl; try reflexivity.
  now rewrite IH.
Qed.

Lemma length_str_drop (n : nat) (s : string) :
  String.length (str_drop n s) = (String.length s - n)%nat.
Proof.
  revert s; induction n as [|n IH]; intros [|a s]; simpl; try reflexivity.
  apply IH.
Qed.

Lemma word_cut_bounds (w : string) (k : nat) :
  word_cut w = Some k -> (1 <= k <= String.length w)%nat.
Proof.
  revert k; induction w as [|a w IH]; simpl; intros k Hk; [discriminate|].
  destruct (word_cut w) as [k'|].
  - injection Hk as <-. specialize (IH k' eq_refl). lia.
  - destruct (Ascii.eqb a " "); [|discriminate]. injection Hk as <-. lia.
Qed.

(** A prefix cut at [word_cut] ends in a space. *)
Lemma word_cut_space (w : string) (k : nat) :
  word_cut w = Some k -> exists p, str_take k w = p ++ " ".
Proof.
  revert k; induction w as [|a w IH]; simpl; intros k Hk; [discriminate|].
  destruct (word_cut w) as [k'|] eqn:E.
  - injection Hk as <-. destruct (IH k' eq_refl) as [p Hp].
    exists (String a p). simpl. now rewrite Hp, append_cons.
  - destruct (Ascii.eqb a " ") eqn:Ea; [|discriminate]. injection Hk as <-.
    apply Ascii.eqb_eq in Ea. subst a. exists EmptyString. now destruct w.
Qed.

Lemma cut_point_bounds (text : string) (max : nat) :
  (0 < max)%nat -> (max < String.length text)%nat ->
  (1 <= cut_point text max <= max)%nat.
Proof.
  intros Hmax Hlen. unfold cut_point.
  destruct (word_cut (str_take max text)) as [k|] eqn:E; simpl; [|lia].
  apply word_cut_bounds in E. rewrite length_str_take in E. lia.
Qed.

Lemma join_cons (p : string) (ps : list string) : join (p :: ps) = p ++ join ps.
Proof.
  unfold join. destruct ps as [|q ps]; simpl; [now rewrite append_empty_r | reflexivity].
Qed.

Lemma split_loop_join (max : nat) (Hmax : (0 < max)%nat) (fuel : nat) :
  forall text, (String.length text < fuel)%nat -> join (split_loop fuel text max) = text.
Proof.
  induction fuel as [|fuel IH]; intros text Hfuel; [lia|].
  simpl. destruct (Nat.leb_spec (String.length text) max) as [Hle|Hgt].
  - unfold join; simpl. reflexivity.
  - rewrite join_cons, IH; [apply str_take_drop|].
    pose proof (cut_point_bounds text max Hmax Hgt). rewrite length_str_drop. lia.
Qed.

Lemma split_loop_bound (max : nat) (Hmax : (0 < max)%nat) (fuel : nat) :
  forall text, Forall (fun p => (String.length p <= max)%nat) (split_loop fuel text max).
Proof.
  induction fuel as [|fuel IH]; intros text; simpl; [constructor|].
  destruct (Nat.leb_spec (String.length text) max) as [Hle|Hgt].
  - repeat constructor. exact Hle.
  - constructor; [|apply IH].
    pose proof (cut_point_bounds text max Hmax Hgt). rewrite length_str_take. lia.
Qed.

(** No part of a text that is not empty is empty. *)
Lemma split_loop_nonempty (max : nat) (Hmax : (0 < max)%nat) (fuel : nat) :
  forall text, (0 < String.length text)%nat ->
    Forall (fun p => (0 < String.length p)%nat) (split_loop fuel text max).
Proof.
  induction fuel as [|fuel IH]; intros text Hlen; simpl; [constructor|].
  destruct (Nat.leb_spec (String.length text) max) as [Hle|Hgt].
  - repeat constructor. exact Hlen.
  - pose proof (cut_point_bounds text max Hmax Hgt) as Hcut.
    constructor.
    + rewrite length_str_take. lia.
    + apply IH. rewrite length_str_drop. lia.
Qed.

End Strings.

(** C3: a text longer than the maximum part length of Zenvia SMS (150) or of
    Zenvia WhatsApp (1152) is split into parts that, joined in order with
    nothing between them, are the text again, and no part is longer than the
    maximum. *)
Theorem split_parts_rejoin_and_fit (text : string) (max : nat) :
  max = Zenvia.maxMsgLength \/ max = ZenviaWhatsApp.maxMsgLength ->
  (max < String.length text)%nat ->
  Handlers.join (Handlers.SplitMsg text max) = text /\
  Forall (fun part => (String.length part <= max)%nat) (Handlers.SplitMsg text max).
Proof.
  intros Hmax Hlen.
  assert (0 < max)%nat as Hpos.
  { destruct Hmax as [-> | ->]; [unfold Zenvia.maxMsgLength | unfold ZenviaWhatsApp.maxMsgLength]; lia. }
  unfold Handlers.SplitMsg. split.
  - apply split_loop_join; [exact Hpos | lia].
  - apply split_loop_bound. exact Hpos.
Qed.

Lemma split_parts_rejoin_and_fit_witness :
  Handlers.join (Handlers.SplitMsg Examples.text151 150) = Examples.text151 /\
  Forall (fun part => (String.length part <= 150)%nat)
         (Handlers.SplitMsg Examples.text151 150).
Proof.
  apply (split_parts_rejoin_and_fit Examples.text151 150).
  - left. reflexivity.
  - vm_compute. lia.
Defined.

(** The scenario of a short text: one part, the text itself. *)
Lemma split_short_text (text : string) (max : nat) :
  (String.length text <= max)%nat -> Handlers.SplitMsg text max = [text].
Proof.
  intros Hle. unfold Handlers.SplitMsg. simpl.
  destruct (Nat.leb_spec (String.length text) max); [reflexivity | lia].
Qed.

(** The scenario of 2300 bytes under a maximum of 1152: two parts. *)
Example split_2300_two_parts :
  map String.length (Handlers.SplitMsg Examples.text2300 ZenviaWhatsApp.maxMsgLength)
  = [1152; 1148]%nat.
Proof. vm_compute. reflexivity. Qed.

(** ** Status tables *)

(** Walk a lookup down the insertions of a table, one key at a time. *)
Ltac walk_table code :=
  cbn [list_to_map foldr uncurry fst snd];
  repeat (rewrite lookup_insert; case_decide; [subst code; reflexivity|]);
  rewrite lookup_empty.

(** A key that differs from every member of a list is not in it. *)
Ltac not_listed H :=
  repeat (apply elem_of_cons in H as [H|H]; [congruence|]);
  apply elem_of_nil in H; contradiction.

Lemma zenvia_mapStatus_documented (code : string) :
  Zenvia.mapStatus code = Documented.zenviaStatus code.
Proof.
  unfold Zenvia.mapStatus, Zenvia.statusMapping, Zenvia.statusTable.
  walk_table code. unfold Documented.zenviaStatus.
  destruct (decide (code ∈ ["00"; "01"; "02"])) as [Hin|_]; [not_listed Hin|].
  destruct (decide (code = "03")); [congruence | reflexivity].
Qed.

Lemma whatsapp_mapStatus_documented (upper : string -> string) (code : string) :
  ZenviaWhatsApp.mapStatus upper code = Documented.whatsappStatus (upper code).
Proof.
  unfold ZenviaWhatsApp.mapStatus, ZenviaWhatsApp.statusMapping,
    ZenviaWhatsApp.statusTable.
  generalize (upper code) as key. intros key.
  walk_table key. unfold Documented.whatsappStatus.
  destruct (decide (key ∈ ["REJECTED"; "NOT_DELIVERED"])) as [Hin|_]; [not_listed Hin|].
  destruct (decide (key = "SENT")); [congruence|].
  destruct (decide (key ∈ ["DELIVERED"; "READ"])) as [Hin|_]; [not_listed Hin|].
  reflexivity.
Qed.

(** The Zenvia SMS lookup sends a code that is in no row of its table to
    errored. *)
Lemma zenvia_absent_errored (code : string) :
  Zenvia.statusMapping !! code = None -> Zenvia.mapStatus code = MsgErrored.
Proof. intros H. unfold Zenvia.mapStatus. now rewrite H. Qed.

(** C4, as the code has it: the Zenvia SMS lookup and the Zenvia WhatsApp
    lookup are the documented tables, the WhatsApp one read at the
    upper-cased code; a code that is absent from the Zenvia SMS table, or
    whose upper-cased form is absent from the Zenvia WhatsApp table, is
    errored, which is no success state. *)
Theorem status_mapping_tables (upper : string -> string) (code : string) :
  Zenvia.mapStatus code = Documented.zenviaStatus code /\
  ZenviaWhatsApp.mapStatus upper code = Documented.whatsappStatus (upper code) /\
  (Zenvia.statusMapping !! code = None ->
     Zenvia.mapStatus code = MsgErrored /\ is_success (Zenvia.mapStatus code) = false) /\
  (ZenviaWhatsApp.statusMapping !! upper code = None ->
     ZenviaWhatsApp.mapStatus upper code = MsgErrored /\
     is_success (ZenviaWhatsApp.mapStatus upper code) = false).
Proof.
  split; [apply zenvia_mapStatus_documented|].
  split; [apply whatsapp_mapStatus_documented|].
  split.
  - intros H. rewrite (zenvia_absent_errored code H). split; reflexivity.
  - intros H. unfold ZenviaWhatsApp.mapStatus. rewrite H. split; reflexivity.
Qed.

Lemma status_mapping_tables_witness :
  Zenvia.mapStatus "11" = MsgErrored /\
  ZenviaWhatsApp.mapStatus ToUpperASCII "queued" = MsgErrored /\
  ZenviaWhatsApp.mapStatus ToUpperASCII "read" = MsgDelivered.
Proof.
  pose proof (status_mapping_tables ToUpperASCII "11") as (_ & _ & Hsms & _).
  pose proof (status_mapping_tables ToUpperASCII "queued") as (_ & _ & _ & Hwa).
  pose proof (status_mapping_tables ToUpperASCII "read") as (_ & Hread & _ & _).
  split; [apply Hsms; reflexivity|].
  split; [apply Hwa; reflexivity|].
  exact Hread.
Defined.

(** C4 as stated fails on Zenvia WhatsApp: the code sent, in
    lower case, is in no row of the table and is mapped to the success state
    sent. *)
Lemma whatsapp_absent_code_not_errored :
  ZenviaWhatsApp.statusMapping !! "sent" = None /\
  ZenviaWhatsApp.mapStatus ToUpperASCII "sent" = MsgSent /\
  is_success (ZenviaWhatsApp.mapStatus ToUpperASCII "sent") = true /\
  ZenviaWhatsApp.receiveStatus ToUpperASCII
    (inr {| ZenviaWhatsApp.StatusType := "MESSAGE_STATUS";
            ZenviaWhatsApp.MessageID := "ec9adc86";
            ZenviaWhatsApp.Code := "sent" |})
  = StatusWritten (NewMsgStatusForExternalID "ec9adc86" MsgSent).
Proof. repeat split; reflexivity. Qed.

(** The status handlers write the status of the lookup under the external
    id of the event. *)
Lemma zenvia_StatusMessage_written (zvStatus : Zenvia.statusRequest) :
  Zenvia.StatusMessage (inr zvStatus)
  = StatusWritten (NewMsgStatusForExternalID (Zenvia.ID zvStatus)
                     (Documented.zenviaStatus (Zenvia.StatusCode zvStatus))).
Proof.
  unfold Zenvia.StatusMessage. now rewrite zenvia_mapStatus_documented.
Qed.

Lemma whatsapp_receiveStatus_written (upper : string -> string)
    (payload : ZenviaWhatsApp.statusPayload) :
  upper (ZenviaWhatsApp.StatusType payload) = "MESSAGE_STATUS" ->
  ZenviaWhatsApp.receiveStatus upper (inr payload)
  = StatusWritten
      (NewMsgStatusForExternalID (ZenviaWhatsApp.MessageID payload)
         (Documented.whatsappStatus (upper (ZenviaWhatsApp.Code payload)))).
Proof.
  intros Htype. unfold ZenviaWhatsApp.receiveStatus.
  now rewrite (decide_True _ _ Htype), whatsapp_mapStatus_documented.
Qed.

(** ** Zenvia WhatsApp: one message per content *)

Section FanOut.

Context {float32 : Type}.
Variable ToUpper : string -> string.
Variable FormatF : float32 -> string.
Variable ParseTime : string -> option Time.
Variable NewWhatsAppURN : string -> string + URN.

Import ZenviaWhatsApp.

Let contentMsg := ZenviaWhatsApp.contentMsg float32 FormatF.
Let geoURL := ZenviaWhatsApp.geoURL float32 FormatF.

Lemma geoURL_not_empty (lat lon : float32) : geoURL lat lon <> EmptyString.
Proof.
  unfold geoURL, ZenviaWhatsApp.geoURL.
  change ("geo:" ++ ?x) with (String "g" ("eo:" ++ x)). discriminate.
Qed.

Lemma content_of_text (content : moContent float32) :
  Type_ _ content = "text" ->
  contentText _ content = Text _ content /\
  contentMediaURL _ FormatF content = EmptyString.
Proof.
  intros Ht. unfold contentText, contentMediaURL. rewrite Ht. split; reflexivity.
Qed.

Lemma content_of_file (content : moContent float32) :
  Type_ _ content = "file" ->
  contentText _ content = EmptyString /\
  contentMediaURL _ FormatF content = FileURL _ content.
Proof.
  intros Ht. unfold contentText, contentMediaURL. rewrite Ht. split; reflexivity.
Qed.

Lemma content_of_location (content : moContent float32) :
  Type_ _ content = "location" ->
  contentText _ content = EmptyString /\
  contentMediaURL _ FormatF content = geoURL (Latitude _ content) (Longitude _ content).
Proof.
  intros Ht. unfold contentText, contentMediaURL. rewrite Ht. split; reflexivity.
Qed.

(** What one iteration builds: the shared fields, the text of the content
    and its media URL as the one attachment, when it has one. *)
Lemma contentMsg_shape (urn : URN) (externalID : string) (date : Time)
    (contactName : string) (content : moContent float32) :
  contentMsg urn externalID date contactName content =
  {| in_urn := urn;
     in_text := contentText _ content;
     in_attachments :=
       if decide (contentMediaURL _ FormatF content = EmptyString) then []
       else [contentMediaURL _ FormatF content];
     in_external_id := externalID;
     in_received_on := Some date;
     in_contact_name := contactName |}.
Proof.
  unfold contentMsg, ZenviaWhatsApp.contentMsg. cbv zeta.
  destruct (decide (contentMediaURL _ FormatF content = EmptyString)); reflexivity.
Qed.

(** C5: an inbound Zenvia WhatsApp message event (type MESSAGE, a
    timestamp that parses, direction IN, a sender that makes a URN) with N
    contents is written as exactly N messages, one per content and in their
    order; each has the sender URN, the received timestamp and the contact
    name of the event; the message of a text content has its text and no
    attachment, the message of a file content has the file URL (when there
    is one) as its one attachment, the message of a location content has
    the URL geo:<lat>,<lon> as its one attachment. *)
Theorem whatsapp_one_msg_per_content (payload : moPayload float32) (date : Time) (urn : URN) :
  ToUpper (EventType _ payload) = "MESSAGE" ->
  ParseTime (Timestamp _ payload) = Some date ->
  ToUpper (Direction _ (Message _ payload)) = "IN" ->
  NewWhatsAppURN (From _ (Message _ payload)) = inr urn ->
  exists msgs,
    receiveMessage ToUpper _ FormatF ParseTime NewWhatsAppURN (inr payload)
      = MsgsWritten msgs /\
    List.length msgs = List.length (Contents _ (Message _ payload)) /\
    Forall2
      (fun content msg =>
         in_urn msg = urn /\
         in_received_on msg = Some date /\
         in_contact_name msg = VisitorName _ payload /\
         (Type_ _ content = "text" ->
            in_text msg = Text _ content /\ in_attachments msg = []) /\
         (Type_ _ content = "file" ->
            in_text msg = EmptyString /\
            in_attachments msg =
              if decide (FileURL _ content = EmptyString) then []
              else [FileURL _ content]) /\
         (Type_ _ content = "location" ->
            in_text msg = EmptyString /\
            in_attachments msg = [geoURL (Latitude _ content) (Longitude _ content)]))
      (Contents _ (Message _ payload)) msgs.
Proof.
  intros Htype Hdate Hdir Hurn. unfold receiveMessage.
  rewrite (decide_True _ _ Htype), Hdate, (decide_True _ _ Hdir), Hurn.
  eexists. split; [reflexivity|]. split; [apply length_map|].
  induction (Contents _ (Message _ payload)) as [|content contents IH]; simpl;
    constructor; [|exact IH].
  fold (contentMsg urn (ID _ (Message _ payload)) date (VisitorName _ payload) content).
  rewrite contentMsg_shape. simpl.
  repeat split.
  - now destruct (content_of_text content H) as [-> _].
  - now destruct (content_of_text content H) as [_ ->].
  - now destruct (content_of_file content H) as [-> _].
  - now destruct (content_of_file content H) as [_ ->].
  - now destruct (content_of_location content H) as [-> _].
  - destruct (content_of_location content H) as [_ ->].
    destruct (decide (_ = EmptyString)) as [E|_]; [|reflexivity].
    exfalso. exact (geoURL_not_empty _ _ E).
Qed.

End FanOut.

Lemma whatsapp_one_msg_per_content_witness :
  exists msgs,
    Examples.waReceive (inr (Examples.waEvent "message" "in")) = MsgsWritten msgs /\
    List.length msgs = 3%nat /\
    map in_text msgs = ["Hello"; EmptyString; EmptyString] /\
    map in_attachments msgs =
      [ []; ["https://files.example/cat.jpg"]; ["geo:-9.500000,-35.700000"] ] /\
    map in_urn msgs =
      repeat {| urn_scheme := "whatsapp"; urn_path := "5515997899875";
                urn_display := EmptyString |} 3 /\
    map in_received_on msgs = repeat (Some 1615229107%Z) 3 /\
    map in_contact_name msgs = repeat "Bob" 3.
Proof.
  destruct (whatsapp_one_msg_per_content ToUpperASCII (fun s => s)
              Examples.waParseTime Examples.waURN
              (Examples.waEvent "message" "in") 1615229107%Z
              {| urn_scheme := "whatsapp"; urn_path := "5515997899875";
                 urn_display := EmptyString |}
              eq_refl eq_refl eq_refl eq_refl) as (msgs & Hrecv & _).
  exists msgs. split; [exact Hrecv|].
  unfold Examples.waReceive in *. vm_compute in Hrecv.
  injection Hrecv as <-. repeat split; reflexivity.
Defined.

(** ** FreshChat: the inbound handler *)

Lemma last_cons {A} (x d : A) (l : list A) : List.last (x :: l) d = List.last l x.
Proof.
  revert x d. induction l as [|y l IH]; intros x d; [reflexivity|].
  change (List.last (x :: y :: l) d) with (List.last (y :: l) d).
  now rewrite !IH.
Qed.

Lemma omap_step {A B} (f : A -> option B) (x : A) (l : list A) :
  omap f (x :: l) = match f x with Some y => y :: omap f l | None => omap f l end.
Proof. reflexivity. Qed.

(** The loop keeps the content of the last text part and the URL of the
    last image part. *)
Lemma collectParts_last (parts : list FreshChat.MessageParts) (text mediaURL : string) :
  FreshChat.collectParts parts text mediaURL =
  (List.last (omap FreshChat.Text parts) text, List.last (omap FreshChat.Image parts) mediaURL).
Proof.
  revert text mediaURL. induction parts as [|data parts IH]; intros text mediaURL;
    [reflexivity|].
  cbn [FreshChat.collectParts]. rewrite IH, !omap_step.
  destruct (FreshChat.Text data), (FreshChat.Image data);
    rewrite ?last_cons; reflexivity.
Qed.

Section FreshChatReceive.

Variable lib : FreshChat.Crypto.
Variable ConfigPassword : string.
Variable DecodeAndValidateJSON : string -> string + FreshChat.moPayload.
Variable NewURNFromParts : string -> string -> string + URN.

Let receiveMessage :=
  FreshChat.receiveMessage lib ConfigPassword DecodeAndValidateJSON NewURNFromParts.

Let arrives := FreshChat.arrives lib ConfigPassword DecodeAndValidateJSON.

Lemma freshchat_dropped_ignored validateSignatures channel r message :
  arrives validateSignatures channel r message ->
  FreshChat.ActorID message = EmptyString \/ FreshChat.ActorType message = "agent" ->
  exists details,
    receiveMessage validateSignatures channel r = Returns (RequestIgnored details).
Proof.
  intros (Hsig & payload & Hdec & Hmsg) Hdrop.
  unfold receiveMessage, FreshChat.receiveMessage. rewrite Hsig, Hdec, Hmsg.
  destruct (decide (FreshChat.ActorID message = EmptyString)); [eauto|].
  destruct Hdrop as [?|Hagent]; [contradiction|].
  rewrite (decide_True _ _ Hagent). eauto.
Qed.

(** An event whose body has no message at all is not ignored: the handler
    reads the actor through the nil pointer. *)
Lemma freshchat_no_message_panics validateSignatures channel r payload :
  FreshChat.validateSignature lib ConfigPassword validateSignatures channel r = Returns None ->
  DecodeAndValidateJSON (FreshChat.body r) = inr payload ->
  FreshChat.DataMessage payload = None ->
  exists why, receiveMessage validateSignatures channel r = Panics why.
Proof.
  intros Hsig Hdec Hmsg.
  unfold receiveMessage, FreshChat.receiveMessage. rewrite Hsig, Hdec, Hmsg. eauto.
Qed.

(** C10: an event of a user that reaches the FreshChat handler is written
    as exactly one message, however many parts it has: its text is the
    content of the last text part, its one attachment is the URL of the last
    image part (none when that URL is empty or there is no image part), and
    it never has more than one attachment. *)
Theorem freshchat_one_msg_per_event validateSignatures channel r message scheme urn :
  arrives validateSignatures channel r message ->
  FreshChat.ActorID message <> EmptyString ->
  FreshChat.ActorType message <> "agent" ->
  chan_schemes channel !! 0%nat = Some scheme ->
  NewURNFromParts scheme (FreshChat.ChannelID message ++ "/" ++ FreshChat.ActorID message)
    = inr urn ->
  exists msg,
    receiveMessage validateSignatures channel r = Returns (MsgsWritten [msg]) /\
    in_urn msg = urn /\
    in_text msg = Documented.lastText (FreshChat.Parts message) /\
    in_attachments msg =
      (if decide (Documented.lastImage (FreshChat.Parts message) = EmptyString) then []
       else [Documented.lastImage (FreshChat.Parts message)]) /\
    (List.length (in_attachments msg) <= 1)%nat.
Proof.
  intros (Hsig & payload & Hdec & Hmsg) Hactor Hagent Hscheme Hurn.
  unfold receiveMessage, FreshChat.receiveMessage.
  rewrite Hsig, Hdec, Hmsg, (decide_False _ _ Hactor), (decide_False _ _ Hagent),
    Hscheme, Hurn, collectParts_last.
  fold (Documented.lastText (FreshChat.Parts message)).
  fold (Documented.lastImage (FreshChat.Parts message)).
  eexists. split; [reflexivity|].
  destruct (decide (Documented.lastImage (FreshChat.Parts message) = EmptyString));
    simpl; repeat split; lia.
Qed.

End FreshChatReceive.

Lemma freshchat_one_msg_per_event_witness :
  exists msg,
    Examples.fcReceive false Examples.fcChannel (Examples.signedRequest "(user event)")
      = Returns (MsgsWritten [msg]) /\
    in_text msg = "second" /\
    in_attachments msg = ["https://img.example/2.png"].
Proof.
  destruct (freshchat_one_msg_per_event Examples.strictCrypto "password"
              Examples.fcDecode Examples.fcURN false Examples.fcChannel
              (Examples.signedRequest "(user event)")
              (Examples.fcMessage "882f3926" "user"
                 [ Examples.fcText "first"; Examples.fcImage "https://img.example/1.png";
                   Examples.fcText "second"; Examples.fcImage "https://img.example/2.png" ])
              "freshchat"
              {| urn_scheme := "freshchat"; urn_path := "c8fddfaf/882f3926";
                 urn_display := EmptyString |})
    as (msg & Hrecv & _ & Htext & Hatt & _).
  - split; [reflexivity|]. eexists. split; reflexivity.
  - discriminate.
  - discriminate.
  - reflexivity.
  - reflexivity.
  - exists msg. split; [exact Hrecv|]. split; [exact Htext | exact Hatt].
Defined.

(** ** Dropped events *)

Section Dropped.

Variable lib : FreshChat.Crypto.
Variable ConfigPassword : string.
Variable DecodeAndValidateJSON : string -> string + FreshChat.moPayload.
Variable NewURNFromParts : string -> string -> string + URN.
Context {float32 : Type}.
Variable ToUpper : string -> string.
Variable FormatF : float32 -> string.
Variable ParseTime : string -> option Time.
Variable NewWhatsAppURN : string -> string + URN.

Let fcReceive :=
  FreshChat.receiveMessage lib ConfigPassword DecodeAndValidateJSON NewURNFromParts.
Let fcArrives := FreshChat.arrives lib ConfigPassword DecodeAndValidateJSON.
Let waReceive :=
  ZenviaWhatsApp.receiveMessage ToUpper float32 FormatF ParseTime NewWhatsAppURN.

(** C7, as the code has it: a FreshChat event that reaches the handler with
    a message and has no actor, or the actor type agent, and a Zenvia
    WhatsApp event of type MESSAGE with a timestamp that parses and a
    direction other than IN, produce no message and are acknowledged as
    ignored, not answered with an error; a Zenvia WhatsApp event of a type
    other than MESSAGE produces no message and is answered with an error. *)
Theorem dropped_events_outcome :
  (forall validateSignatures channel r message,
     fcArrives validateSignatures channel r message ->
     FreshChat.ActorID message = EmptyString \/ FreshChat.ActorType message = "agent" ->
     exists h,
       fcReceive validateSignatures channel r = Returns h /\
       produced h = [] /\ is_ignored h = true /\ is_error_response h = false) /\
  (forall payload date,
     ToUpper (ZenviaWhatsApp.EventType _ payload) = "MESSAGE" ->
     ParseTime (ZenviaWhatsApp.Timestamp _ payload) = Some date ->
     ToUpper (ZenviaWhatsApp.Direction _ (ZenviaWhatsApp.Message _ payload)) <> "IN" ->
     let h := waReceive (inr payload) in
     produced h = [] /\ is_ignored h = true /\ is_error_response h = false) /\
  (forall payload,
     ToUpper (ZenviaWhatsApp.EventType _ payload) <> "MESSAGE" ->
     let h := waReceive (inr payload) in
     produced h = [] /\ is_ignored h = false /\ is_error_response h = true).
Proof.
  split; [|split].
  - intros validateSignatures channel r message Harr Hdrop.
    destruct (freshchat_dropped_ignored lib ConfigPassword DecodeAndValidateJSON
                NewURNFromParts validateSignatures channel r message Harr Hdrop)
      as [details Hrecv].
    exists (RequestIgnored details). repeat split. exact Hrecv.
  - intros payload date Htype Hdate Hdir. cbv zeta.
    unfold waReceive, ZenviaWhatsApp.receiveMessage.
    rewrite (decide_True _ _ Htype), Hdate, (decide_False _ _ Hdir).
    repeat split.
  - intros payload Htype. cbv zeta.
    unfold waReceive, ZenviaWhatsApp.receiveMessage.
    rewrite (decide_False _ _ Htype). repeat split.
Qed.

End Dropped.

Lemma dropped_events_outcome_witness :
  Examples.fcReceive false Examples.fcChannel (Examples.signedRequest "(agent event)")
    = Returns (RequestIgnored "Ignoring request, Agent Message") /\
  Examples.fcReceive false Examples.fcChannel (Examples.signedRequest "(event without actor)")
    = Returns (RequestIgnored "Ignoring request, no message") /\
  is_ignored (Examples.waReceive (inr (Examples.waEvent "message" "OUT"))) = true.
Proof.
  pose proof (dropped_events_outcome Examples.strictCrypto "password" Examples.fcDecode
                Examples.fcURN ToUpperASCII (fun s : string => s) Examples.waParseTime
                Examples.waURN)
    as (Hfc & Hwa & _).
  split; [|split].
  - destruct (Hfc false Examples.fcChannel (Examples.signedRequest "(agent event)")
                (Examples.fcMessage "882f3926" "agent" [Examples.fcText "Hi"]))
      as (h & Hrecv & _).
    + split; [reflexivity|]. eexists. split; reflexivity.
    + right. reflexivity.
    + reflexivity.
  - destruct (Hfc false Examples.fcChannel (Examples.signedRequest "(event without actor)")
                (Examples.fcMessage EmptyString "user" [Examples.fcText "Hi"]))
      as (h & Hrecv & _).
    + split; [reflexivity|]. eexists. split; reflexivity.
    + left. reflexivity.
    + reflexivity.
  - apply (Hwa (Examples.waEvent "message" "OUT") 1615229107%Z);
      [reflexivity | reflexivity | discriminate].
Defined.

(** C7 as stated fails on Zenvia WhatsApp: an event whose type
    is not that of a message is answered with an error response, not
    acknowledged as ignored. *)
Lemma whatsapp_other_type_is_error :
  Examples.waReceive (inr (Examples.waEvent "MESSAGE_STATUS" "IN"))
    = RequestError "unsupported event type: MESSAGE_STATUS" /\
  produced (Examples.waReceive (inr (Examples.waEvent "MESSAGE_STATUS" "IN"))) = [] /\
  is_ignored (Examples.waReceive (inr (Examples.waEvent "MESSAGE_STATUS" "IN"))) = false /\
  is_error_response (Examples.waReceive (inr (Examples.waEvent "MESSAGE_STATUS" "IN")))
    = true.
Proof. repeat split; reflexivity. Qed.

(** A FreshChat event with no message at all makes the example handler
    panic. *)
Example freshchat_no_message_example :
  Examples.fcReceive false Examples.fcChannel (Examples.signedRequest "(event without message)")
  = Panics "invalid memory address or nil pointer dereference".
Proof. reflexivity. Qed.

(** ** FreshChat: the signature check *)

Section SignatureCheck.

Variable lib : FreshChat.Crypto.
Variable ConfigPassword : string.

Let validateSignature := FreshChat.validateSignature lib ConfigPassword.
Let publicKey (c : Channel) : string := StringConfigForKey c ConfigPassword EmptyString.

Lemma validateSignature_disabled (c : Channel) (r : FreshChat.InRequest) :
  validateSignature false c r = Returns None.
Proof. reflexivity. Qed.

Lemma validateSignature_missing_header (c : Channel) (r : FreshChat.InRequest) :
  FreshChat.header_signature r = EmptyString ->
  validateSignature true c r = Returns (Some "missing request signature").
Proof.
  intros H. unfold validateSignature, FreshChat.validateSignature. simpl.
  now rewrite (decide_True _ _ H).
Qed.

(** With a key that parses, every failure is a returned error. *)
Lemma validateSignature_good_key_returns (c : Channel) (r : FreshChat.InRequest)
    (der : string) (n e : Z) :
  FreshChat.pemDecode lib (publicKey c) = Some der ->
  FreshChat.ParsePKIXPublicKey lib der = inr (FreshChat.RSAPublicKey n e) ->
  exists result, validateSignature true c r = Returns result.
Proof.
  intros Hpem Hkey. unfold validateSignature, FreshChat.validateSignature. simpl.
  destruct (decide (FreshChat.header_signature r = EmptyString)); [eauto|].
  fold (publicKey c). rewrite Hpem, Hkey.
  destruct (FreshChat.base64Decode lib _); [eauto|].
  destruct (FreshChat.VerifyPKCS1v15 lib _ _ _ _); eauto.
Qed.

(** With a key that parses, the failures after the header check are told
    apart by their message. *)
Lemma validateSignature_errors (c : Channel) (r : FreshChat.InRequest)
    (der : string) (n e : Z) :
  FreshChat.header_signature r <> EmptyString ->
  FreshChat.pemDecode lib (publicKey c) = Some der ->
  FreshChat.ParsePKIXPublicKey lib der = inr (FreshChat.RSAPublicKey n e) ->
  validateSignature true c r =
  match FreshChat.base64Decode lib (FreshChat.header_signature r) with
  | inl err => Returns (Some ("unable to decode base64 signature, " ++ err))
  | inr decodedSig =>
      match FreshChat.VerifyPKCS1v15 lib n e
              (FreshChat.sha256sum lib (FreshChat.body r)) decodedSig with
      | Some err => Returns (Some ("unable to verify signature, " ++ err))
      | None => Returns None
      end
  end.
Proof.
  intros Hsig Hpem Hkey. unfold validateSignature, FreshChat.validateSignature. simpl.
  rewrite (decide_False _ _ Hsig). fold (publicKey c). now rewrite Hpem, Hkey.
Qed.

(** C1 fails on the code: with signature validation on and a signature
    header present, a public key in which no PEM block is found (the empty
    configuration value is one), or whose block does not parse as a key,
    makes [validateSignature] panic instead of returning an error. *)
Theorem validateSignature_bad_key_panics (c : Channel) (r : FreshChat.InRequest) :
  FreshChat.header_signature r <> EmptyString ->
  FreshChat.pemDecode lib (publicKey c) = None \/
  (exists der err,
     FreshChat.pemDecode lib (publicKey c) = Some der /\
     FreshChat.ParsePKIXPublicKey lib der = inl err) ->
  exists why, validateSignature true c r = Panics why.
Proof.
  intros Hsig Hkey. unfold validateSignature, FreshChat.validateSignature. simpl.
  rewrite (decide_False _ _ Hsig). fold (publicKey c).
  destruct Hkey as [-> | (der & err & -> & ->)]; eauto.
Qed.

End SignatureCheck.

Lemma validateSignature_bad_key_panics_witness :
  (exists why,
     FreshChat.validateSignature Examples.strictCrypto "password" true
       (Examples.channelWith []) (Examples.signedRequest "(user event)") = Panics why) /\
  (exists why,
     FreshChat.validateSignature Examples.strictCrypto "password" true
       (Examples.channelWith [ ("password", "-----BEGIN PUBLIC KEY-----") ])
       (Examples.signedRequest "(user event)") = Panics why).
Proof.
  split.
  - apply validateSignature_bad_key_panics; [discriminate|]. left. reflexivity.
  - apply validateSignature_bad_key_panics; [discriminate|]. right.
    exists "-----BEGIN PUBLIC KEY-----", "asn1: syntax error". split; reflexivity.
Defined.

(** ** FreshChat: the path of the destination *)

Lemma append_assoc (s t u : string) : (s ++ t) ++ u = s ++ (t ++ u).
Proof.
  induction s as [|a s IH]; [reflexivity|]. now rewrite !append_cons, IH.
Qed.

Lemma splitSlash_no_slash (s cur : string) :
  FreshChat.contains "/" s = false -> FreshChat.splitSlash s cur = [cur ++ s].
Proof.
  revert cur. induction s as [|a s IH]; intros cur H; simpl in *.
  - now rewrite append_empty_r.
  - apply orb_false_iff in H as [Ha Hs]. rewrite Ha, (IH _ Hs), append_assoc.
    reflexivity.
Qed.

Lemma splitSlash_length (s cur : string) :
  (1 <= List.length (FreshChat.splitSlash s cur))%nat.
Proof.
  revert cur. induction s as [|a s IH]; intros cur; simpl; [lia|].
  destruct (Ascii.eqb a "/"); simpl; [lia | apply IH].
Qed.

Lemma splitSlash_slash (s cur : string) :
  FreshChat.contains "/" s = true -> (2 <= List.length (FreshChat.splitSlash s cur))%nat.
Proof.
  revert cur. induction s as [|a s IH]; intros cur H; simpl in *; [discriminate|].
  destruct (Ascii.eqb a "/"); simpl in *.
  - pose proof (splitSlash_length s EmptyString). lia.
  - apply IH, H.
Qed.

Section FreshChatSend.

Variables ConfigUsername ConfigAuthToken : string.
Variable net : Net.

Let SendMsg := FreshChat.SendMsg ConfigUsername ConfigAuthToken net.

(** C9: with both credentials set, FreshChat's [SendMsg] panics on the index
    of the user id when the path of the destination URN holds no slash, and
    returns when it holds one. *)
Theorem freshchat_send_needs_slash (msg : OutMsg) :
  StringConfigForKey (msg_channel msg) ConfigUsername EmptyString <> EmptyString ->
  StringConfigForKey (msg_channel msg) ConfigAuthToken EmptyString <> EmptyString ->
  (FreshChat.contains "/" (urn_path (msg_urn msg)) = false ->
     SendMsg msg = Panics "index out of range") /\
  (FreshChat.contains "/" (urn_path (msg_urn msg)) = true ->
     exists result, SendMsg msg = Returns result).
Proof.
  intros Huser Htoken. unfold SendMsg, FreshChat.SendMsg.
  rewrite (decide_False _ _ Huser), (decide_False _ _ Htoken).
  cbv zeta. unfold FreshChat.Split. split; intros Hpath.
  - rewrite (splitSlash_no_slash _ _ Hpath). reflexivity.
  - pose proof (splitSlash_slash _ EmptyString Hpath) as Hlen.
    destruct (FreshChat.splitSlash _ _) as [|channelID [|userID rest]];
      simpl in Hlen; try lia.
    simpl. destruct (rr_err _); eauto.
Qed.

End FreshChatSend.

Lemma freshchat_send_needs_slash_witness :
  Examples.fcSend Examples.deadNet (Examples.outMsg Examples.fcChannel "882f3926" "Hi" [])
    = Panics "index out of range" /\
  exists result,
    Examples.fcSend Examples.deadNet
      (Examples.outMsg Examples.fcChannel "c8fddfaf/882f3926" "Hi" []) = Returns result.
Proof.
  split.
  - apply freshchat_send_needs_slash; [discriminate | discriminate | reflexivity].
  - apply freshchat_send_needs_slash; [discriminate | discriminate | reflexivity].
Defined.

(** ** Sending without credentials *)

Section MissingCredential.

Variables ConfigUsername ConfigPassword ConfigAPIKey ConfigAuthToken : string.
Variable GetTextAndAttachments : OutMsg -> string.
Variable SplitMsg : string -> nat -> list string.
Variable SplitMsgByChannel : Channel -> string -> nat -> list string.
Variable BasicAuth : string -> string -> string.
Variable SplitAttachment : string -> string * string.
Variable BasePathForURL : string -> string + string.
Variable NewRequestError : string -> option string.
Variable UnmarshalFileResponse : RR -> string + Slack.FileResponse.
Variable net : Net.

Let config (msg : OutMsg) (key : string) : string :=
  StringConfigForKey (msg_channel msg) key EmptyString.

Lemma zenvia_refuses (msg : OutMsg) :
  config msg ConfigUsername = EmptyString \/ config msg ConfigPassword = EmptyString ->
  refused (Zenvia.SendMsg ConfigUsername ConfigPassword GetTextAndAttachments SplitMsg
             BasicAuth net msg).
Proof.
  unfold config, Zenvia.SendMsg. intros Hmissing.
  destruct (decide (StringConfigForKey _ ConfigUsername _ = _)); [now repeat split|].
  destruct (decide (StringConfigForKey _ ConfigPassword _ = _)); [now repeat split|].
  destruct Hmissing; contradiction.
Qed.

Lemma whatsapp_refuses (msg : OutMsg) :
  config msg ConfigAPIKey = EmptyString ->
  refused (ZenviaWhatsApp.SendMsg ConfigAPIKey SplitAttachment SplitMsgByChannel net msg).
Proof.
  unfold config, ZenviaWhatsApp.SendMsg. intros Hmissing.
  rewrite (decide_True _ _ Hmissing). now repeat split.
Qed.

Lemma freshchat_refuses (msg : OutMsg) :
  config msg ConfigUsername = EmptyString \/ config msg ConfigAuthToken = EmptyString ->
  exists result,
    FreshChat.SendMsg ConfigUsername ConfigAuthToken net msg = Returns result /\
    refused result.
Proof.
  unfold config, FreshChat.SendMsg. intros Hmissing.
  destruct (decide (StringConfigForKey _ ConfigUsername _ = _));
    [eexists; split; [reflexivity | now repeat split]|].
  destruct (decide (StringConfigForKey _ ConfigAuthToken _ = _));
    [eexists; split; [reflexivity | now repeat split]|].
  destruct Hmissing; contradiction.
Qed.

Lemma slack_refuses (msg : OutMsg) :
  config msg Slack.configBotToken = EmptyString ->
  refused (Slack.SendMsg SplitAttachment BasePathForURL NewRequestError
             UnmarshalFileResponse net msg).
Proof.
  unfold config, Slack.SendMsg. intros Hmissing.
  rewrite (decide_True _ _ Hmissing). now repeat split.
Qed.

(** C8: an outbound message on a channel that lacks a credential (the
    username or the password for Zenvia SMS, the API token for Zenvia
    WhatsApp, the agent id or the auth token for FreshChat, the bot token
    for Slack) makes [SendMsg] return an error with no status, before any
    call to the provider. *)
Theorem missing_credential_refused (msg : OutMsg) :
  (config msg ConfigUsername = EmptyString \/ config msg ConfigPassword = EmptyString ->
     refused (Zenvia.SendMsg ConfigUsername ConfigPassword GetTextAndAttachments SplitMsg
                BasicAuth net msg)) /\
  (config msg ConfigAPIKey = EmptyString ->
     refused (ZenviaWhatsApp.SendMsg ConfigAPIKey SplitAttachment SplitMsgByChannel net msg)) /\
  (config msg ConfigUsername = EmptyString \/ config msg ConfigAuthToken = EmptyString ->
     exists result,
       FreshChat.SendMsg ConfigUsername ConfigAuthToken net msg = Returns result /\
       refused result) /\
  (config msg Slack.configBotToken = EmptyString ->
     refused (Slack.SendMsg SplitAttachment BasePathForURL NewRequestError
                UnmarshalFileResponse net msg)).
Proof.
  split; [apply zenvia_refuses|].
  split; [apply whatsapp_refuses|].
  split; [apply freshchat_refuses | apply slack_refuses].
Qed.

End MissingCredential.

Lemma missing_credential_refused_witness :
  refused (Examples.zenviaSend Examples.deadNet
             (Examples.outMsg (Examples.channelWith [ ("username", "zv-user") ])
                "5515997899875" "Hi" [])) /\
  refused (Examples.whatsappSend Examples.deadNet
             (Examples.outMsg (Examples.channelWith []) "5515997899875" "Hi" [])) /\
  refused (Examples.slackSend Examples.deadNet
             (Examples.outMsg (Examples.channelWith []) "U0123ABCDEF" "Hi" [])).
Proof.
  split; [|split].
  - apply missing_credential_refused with (ConfigAPIKey := "api_key")
      (ConfigAuthToken := "auth_token") (SplitMsgByChannel := fun _ _ _ => [])
      (SplitAttachment := fun att => (EmptyString, att))
      (BasePathForURL := fun _ => inr EmptyString)
      (NewRequestError := fun _ => None)
      (UnmarshalFileResponse := Examples.decodeFileResponse).
    right. reflexivity.
  - apply missing_credential_refused with (ConfigUsername := "username")
      (ConfigPassword := "password") (ConfigAuthToken := "auth_token")
      (GetTextAndAttachments := msg_text) (SplitMsg := Handlers.SplitMsg)
      (BasicAuth := fun _ _ => EmptyString)
      (BasePathForURL := fun _ => inr EmptyString)
      (NewRequestError := fun _ => None)
      (UnmarshalFileResponse := Examples.decodeFileResponse).
    reflexivity.
  - apply missing_credential_refused with (ConfigUsername := "username")
      (ConfigPassword := "password") (ConfigAPIKey := "api_key")
      (ConfigAuthToken := "auth_token")
      (GetTextAndAttachments := msg_text) (SplitMsg := Handlers.SplitMsg)
      (SplitMsgByChannel := fun _ _ _ => [])
      (BasicAuth := fun _ _ => EmptyString).
    reflexivity.
Defined.

(** ** Failures while sending *)

Lemma last_snoc {A} (l : list A) (x d : A) : List.last (l ++ [x]) d = x.
Proof. apply last_last. Qed.

Lemma length_snoc_pred {A} (l : list A) (x : A) :
  (List.length (l ++ [x]) - 1)%nat = List.length l.
Proof. rewrite length_app. simpl. lia. Qed.

Section ZenviaFailure.

Variables ConfigUsername ConfigPassword : string.
Variable GetTextAndAttachments : OutMsg -> string.
Variable SplitMsg : string -> nat -> list string.
Variable BasicAuth : string -> string -> string.
Variable net : Net.

Let partRequest := Zenvia.partRequest BasicAuth.
Let sendParts := Zenvia.sendParts BasicAuth net.


End ZenviaFailure.





Section SlackSend.

Variable SplitAttachment : string -> string * string.
Variable BasePathForURL : string -> string + string.
Variable NewRequestError : string -> option string.
Variable UnmarshalFileResponse : RR -> string + Slack.FileResponse.
Variable net : Net.

Let sendAttachments :=
  Slack.sendAttachments SplitAttachment BasePathForURL NewRequestError
    UnmarshalFileResponse net.
Let SendMsg :=
  Slack.SendMsg SplitAttachment BasePathForURL NewRequestError UnmarshalFileResponse net.






End SlackSend.




(** ** The status of a send with a failed part *)

(** C2 fails on the code: Slack fetches the attachment, the upload is
    refused by the provider, the text is posted, and the status returned is
    wired with a nil error; the failed upload left a nil entry in the log
    trail. *)
Theorem slack_wired_despite_failed_upload :
  exists fetch upload text status,
    sr_calls (Examples.slackSend Examples.uploadRefusedNet Examples.slackMsg)
      = [fetch; upload; text] /\
    req_url upload = "https://slack.com/api/files.upload" /\
    Examples.decodeFileResponse (Examples.uploadRefusedNet 1%nat upload)
      = inr {| Slack.OK := false; Slack.Error := "invalid_auth" |} /\
    sr_status (Examples.slackSend Examples.uploadRefusedNet Examples.slackMsg)
      = Some status /\
    status_value status = MsgWired /\
    status_logs status !! 1%nat = Some None /\
    sr_err (Examples.slackSend Examples.uploadRefusedNet Examples.slackMsg) = None.
Proof. do 4 eexists. repeat split; reflexivity. Qed.

(** The same on Zenvia SMS: the first of two parts is accepted, the second
    cannot be sent, and the status returned with the error is wired. *)
Example zenvia_wired_despite_failed_part :
  let result :=
    Examples.zenviaSend Examples.firstPartOnlyNet
      (Examples.outMsg Examples.zenviaChannel "5515997899875" Examples.text151 []) in
  List.length (sr_calls result) = 2%nat /\
  returned_value result = Some MsgWired /\
  sr_err result = Some "connection refused".
Proof. vm_compute. repeat split; reflexivity. Qed.

(** FreshChat sends one part, and its status is wired only when the call
    went through. *)
Lemma freshchat_wired_only_if_sent
    (ConfigUsername ConfigAuthToken : string) (net : Net) (msg : OutMsg)
    (result : SendResult) :
  FreshChat.SendMsg ConfigUsername ConfigAuthToken net msg = Returns result ->
  returned_value result = Some MsgWired ->
  exists req, sr_calls result = [req] /\ rr_err (net 0%nat req) = None /\
              sr_err result = None.
Proof.
  unfold FreshChat.SendMsg. intros Hsend Hwired.
  repeat case_decide; try (injection Hsend as <-; discriminate).
  destruct (FreshChat.Split _ !! 0%nat) as [channelID|]; [|discriminate].
  destruct (FreshChat.Split _ !! 1%nat) as [userID|]; [|discriminate].
  cbv zeta in Hsend.
  destruct (rr_err (net 0%nat (FreshChat.sendRequest _ _ channelID userID msg)))
    as [err|] eqn:Etransport; injection Hsend as <-; [discriminate|].
  eexists. split; [reflexivity|]. split; [exact Etransport | reflexivity].
Qed.

(** ** The first [SendMsg] of Slack keeps the status errored until every
       part went through *)

Section SlackFirstSend.

Variable SplitAttachment : string -> string * string.
Variable BasePathForURL : string -> string + string.
Variable NewRequestError : string -> option string.
Variable UnmarshalFileResponse : RR -> string + Slack.FileResponse.
Variable net : Net.

Let fetchAll := SlackFirst.fetchAll SplitAttachment BasePathForURL NewRequestError net.
Let uploadAll := SlackFirst.uploadAll UnmarshalFileResponse net.
Let sendText := SlackFirst.sendText net.
Let SendMsg :=
  SlackFirst.SendMsg SplitAttachment BasePathForURL NewRequestError
    UnmarshalFileResponse net.

(** A send that stopped kept the status it held. *)
Ltac still_errored H :=
  unfold SlackFirst.stopped_errored, returned_value; simpl; now rewrite H.

Lemma slackfirst_sendText (msg : OutMsg) (botToken : string) (status : MsgStatus) :
  status_value status = MsgErrored ->
  match sendText msg botToken status with
  | inl (status', calls) =>
      status_value status' = MsgErrored /\
      List.length calls = (if decide (msg_text msg = EmptyString) then 0 else 1)%nat /\
      (msg_text msg <> EmptyString ->
       Slack.textSucceeded (net 0%nat (Slack.textRequest msg botToken)) = true)
  | inr result => SlackFirst.stopped_errored result
  end.
Proof.
  intros Hvalue. unfold sendText, SlackFirst.sendText, Slack.textSucceeded.
  destruct (decide (msg_text msg = EmptyString)) as [Htext|Htext];
    [repeat split; [exact Hvalue | contradiction]|].
  cbv zeta.
  destruct (GetBoolean _ _) as [[|]|]; [|still_errored Hvalue..].
  repeat split. exact Hvalue.
Qed.

Lemma slackfirst_fetchAll (msg : OutMsg) (attachments : list string) :
  forall status calls files,
    status_value status = MsgErrored ->
    match fetchAll msg attachments status calls files with
    | inl (status', calls', files') =>
        status_value status' = MsgErrored /\
        List.length calls' = (List.length calls + List.length attachments)%nat /\
        List.length files' = (List.length files + List.length attachments)%nat
    | inr result => SlackFirst.stopped_errored result
    end.
Proof.
  induction attachments as [|attachment attachments IH]; intros status calls files Hvalue.
  - simpl. repeat split; [exact Hvalue | lia | lia].
  - cbn [fetchAll SlackFirst.fetchAll]. cbv zeta.
    destruct (NewRequestError _); [still_errored Hvalue|].
    destruct (rr_err _); [still_errored Hvalue|].
    destruct (BasePathForURL _); [still_errored Hvalue|].
    fold fetchAll.
    match goal with
    | |- match fetchAll msg attachments ?st ?cs ?fs with _ => _ end =>
        specialize (IH st cs fs Hvalue); destruct (fetchAll msg attachments st cs fs)
          as [[[status' calls'] files']|result]
    end; [|exact IH].
    destruct IH as (Hv & Hc & Hf). rewrite !length_app in *. simpl in *.
    repeat split; [exact Hv | lia | lia].
Qed.

Lemma slackfirst_uploadAll (botToken : string) (files : list Slack.FileParams) :
  forall status calls,
    status_value status = MsgErrored ->
    match uploadAll botToken files status calls with
    | inl (status', calls') =>
        status_value status' = MsgErrored /\
        List.length calls' = (List.length calls + List.length files)%nat
    | inr result => SlackFirst.stopped_errored result
    end.
Proof.
  induction files as [|attParams files IH]; intros status calls Hvalue.
  - simpl. split; [exact Hvalue | lia].
  - cbn [uploadAll SlackFirst.uploadAll]. cbv zeta.
    destruct (rr_err _); [still_errored Hvalue|].
    destruct (UnmarshalFileResponse _) as [err|fResponse]; [still_errored Hvalue|].
    destruct (Slack.OK fResponse); [|still_errored Hvalue].
    fold uploadAll.
    match goal with
    | |- match uploadAll botToken files ?st ?cs with _ => _ end =>
        specialize (IH st cs Hvalue); destruct (uploadAll botToken files st cs)
          as [[status' calls']|result]
    end; [|exact IH].
    destruct IH as (Hv & Hc). rewrite !length_app in *. simpl in *.
    split; [exact Hv | lia].
Qed.

(** A wired status means that no part stopped the send: the text part, when
    there is a text, was answered with success, and every attachment was
    fetched and uploaded. *)
Lemma slackfirst_wired_only_if_all_sent (msg : OutMsg) :
  let botToken := StringConfigForKey (msg_channel msg) Slack.configBotToken EmptyString in
  returned_value (SendMsg msg) = Some MsgWired ->
  sr_err (SendMsg msg) = None /\
  List.length (sr_calls (SendMsg msg))
    = ((if decide (msg_text msg = EmptyString) then 0 else 1)
       + 2 * List.length (msg_attachments msg))%nat /\
  (msg_text msg <> EmptyString ->
   Slack.textSucceeded (net 0%nat (Slack.textRequest msg botToken)) = true).
Proof.
  intros botToken. unfold SendMsg, SlackFirst.SendMsg. fold botToken.
  destruct (decide (botToken = EmptyString)); [discriminate|]. cbv zeta.
  pose proof (slackfirst_sendText msg botToken (NewMsgStatusForID MsgErrored) eq_refl)
    as Htext.
  fold sendText.
  destruct (sendText msg botToken (NewMsgStatusForID MsgErrored))
    as [[status1 calls1]|result]; [|unfold SlackFirst.stopped_errored in Htext; congruence].
  destruct Htext as (Hv1 & Hc1 & Hok).
  pose proof (slackfirst_fetchAll msg (msg_attachments msg) status1 calls1 [] Hv1) as Hfetch.
  fold fetchAll.
  destruct (fetchAll msg (msg_attachments msg) status1 calls1 [])
    as [[[status2 calls2] files]|result]; [|unfold SlackFirst.stopped_errored in Hfetch; congruence].
  destruct Hfetch as (Hv2 & Hc2 & Hf).
  pose proof (slackfirst_uploadAll botToken files status2 calls2 Hv2) as Hupload.
  fold uploadAll.
  destruct (uploadAll botToken files status2 calls2)
    as [[status3 calls3]|result]; [|unfold SlackFirst.stopped_errored in Hupload; congruence].
  destruct Hupload as (Hv3 & Hc3).
  intros _. simpl in *. repeat split; [lia | exact Hok].
Qed.

End SlackFirstSend.

(** * Further properties *)

(** ** Package [utils] *)

Lemma concat_cons_cons (delim x y : string) (l : list string) :
  String.concat delim (x :: y :: l) = x ++ delim ++ String.concat delim (y :: l).
Proof. reflexivity. Qed.

Lemma length_zero_empty (s : string) : String.length s = 0%nat <-> s = EmptyString.
Proof. destruct s; simpl; split; intros H; try reflexivity; discriminate. Qed.

(** The loop of [JoinNonEmpty] appends the strings that are not empty, each
    behind a delimiter except the first one written into an empty buffer. *)
Lemma joinLoop_filter (delim : string) (strs : list string) :
  forall buf,
    Utils.joinLoop delim strs buf =
    match filter (fun s : string => s <> EmptyString) strs with
    | [] => buf
    | kept =>
        if decide (buf = EmptyString) then String.concat delim kept
        else buf ++ delim ++ String.concat delim kept
    end.
Proof.
  induction strs as [|s strs IH]; intros buf; [reflexivity|].
  cbn [Utils.joinLoop]. rewrite filter_cons.
  destruct (decide (s = EmptyString)) as [Hs|Hs].
  - rewrite decide_False by (intros H; exact (H Hs)). apply IH.
  - rewrite decide_True by exact Hs. rewrite IH.
    assert (Hne : forall b, b ++ s <> EmptyString).
    { intros b Hb. apply (f_equal String.length) in Hb.
      rewrite length_append in Hb. simpl in Hb.
      apply Hs, length_zero_empty. lia. }
    destruct (Nat.ltb_spec 0 (String.length buf)) as [Hbuf|Hbuf].
    + rewrite (decide_False (P := buf = EmptyString))
        by (intros ->; simpl in Hbuf; lia).
      destruct (filter _ strs) as [|y kept]; simpl.
      * now rewrite append_assoc.
      * rewrite decide_False by apply Hne.
        change (String.concat delim (s :: y :: kept))
          with (s ++ delim ++ String.concat delim (y :: kept)).
        now rewrite !append_assoc.
    + assert (buf = EmptyString) as -> by (apply length_zero_empty; lia).
      rewrite decide_True by reflexivity. cbv zeta. rewrite append_empty_l.
      destruct (filter _ strs) as [|y kept]; simpl; [reflexivity|].
      rewrite decide_False by (apply (Hne EmptyString)).
      reflexivity.
Qed.

Lemma JoinNonEmpty_filter (delim : string) (strs : list string) :
  Utils.JoinNonEmpty delim strs
  = String.concat delim (filter (fun s : string => s <> EmptyString) strs).
Proof.
  unfold Utils.JoinNonEmpty. rewrite joinLoop_filter.
  destruct (filter _ strs); reflexivity.
Qed.

(** X1: [JoinNonEmpty] is the join, with the delimiter, of the strings
    that are not empty, in their order: an empty string leaves no delimiter
    behind, and no delimiter leads or ends the result. *)
Theorem JoinNonEmpty_joins_kept (delim : string) (strs : list string) :
  Utils.JoinNonEmpty delim strs
  = String.concat delim (filter (fun s : string => s <> EmptyString) strs).
Proof. apply JoinNonEmpty_filter. Qed.

Lemma concat_nonempty (delim : string) (l : list string) :
  Forall (fun s : string => s <> EmptyString) l ->
  String.concat delim l = EmptyString -> l = [].
Proof.
  intros Hall Hcat. destruct l as [|x l]; [reflexivity|]. exfalso.
  apply Forall_cons in Hall as [Hx _]. apply Hx.
  destruct l as [|y l]; simpl in Hcat; [exact Hcat|].
  apply (f_equal String.length) in Hcat. rewrite length_append in Hcat. simpl in Hcat.
  apply length_zero_empty. lia.
Qed.

Lemma concat_app (delim : string) (l1 l2 : list string) :
  l1 <> [] -> l2 <> [] ->
  String.concat delim (l1 ++ l2)%list
  = String.concat delim l1 ++ delim ++ String.concat delim l2.
Proof.
  intros H1 H2. induction l1 as [|x l1 IH]; [contradiction|].
  destruct l1 as [|y l1].
  - destruct l2 as [|z l2]; [contradiction|]. reflexivity.
  - change ((x :: y :: l1) ++ l2)%list with (x :: y :: (l1 ++ l2)%list).
    rewrite !concat_cons_cons.
    change (y :: (l1 ++ l2)%list) with ((y :: l1) ++ l2)%list.
    rewrite IH by discriminate. now rewrite !append_assoc.
Qed.

(** X2: joining two lists at once is joining their two joins: a list can be
    joined piece by piece. *)
Theorem JoinNonEmpty_app (delim : string) (strs1 strs2 : list string) :
  Utils.JoinNonEmpty delim (strs1 ++ strs2)%list
  = Utils.JoinNonEmpty delim
      [Utils.JoinNonEmpty delim strs1; Utils.JoinNonEmpty delim strs2].
Proof.
  rewrite !JoinNonEmpty_filter.
  rewrite filter_app.
  set (k1 := filter (fun s : string => s <> EmptyString) strs1).
  set (k2 := filter (fun s : string => s <> EmptyString) strs2).
  assert (H1 : Forall (fun s : string => s <> EmptyString) k1)
    by (apply Forall_forall; intros s Hs; apply (proj1 (list_elem_of_filter _ _ _) Hs)).
  assert (H2 : Forall (fun s : string => s <> EmptyString) k2)
    by (apply Forall_forall; intros s Hs; apply (proj1 (list_elem_of_filter _ _ _) Hs)).
  rewrite !filter_cons, filter_nil.
  destruct (decide (String.concat delim k1 <> EmptyString)) as [N1|E1];
    destruct (decide (String.concat delim k2 <> EmptyString)) as [N2|E2].
  - rewrite concat_app; [reflexivity | intros ->; apply N1; reflexivity
                         | intros ->; apply N2; reflexivity].
  - apply dec_stable in E2. rewrite (concat_nonempty _ _ H2 E2), app_nil_r. reflexivity.
  - apply dec_stable in E1. rewrite (concat_nonempty _ _ H1 E1). reflexivity.
  - apply dec_stable in E1. apply dec_stable in E2.
    rewrite (concat_nonempty _ _ H1 E1), (concat_nonempty _ _ H2 E2). reflexivity.
Qed.

(** X3: [StringArrayContains] answers true exactly for the elements of the
    array. *)
Theorem StringArrayContains_elem_of (s : list string) (e : string) :
  Utils.StringArrayContains s e = true <-> e ∈ s.
Proof.
  induction s as [|a s IH]; simpl.
  - split; [discriminate | intros H; inversion H].
  - destruct (decide (a = e)) as [->|Hne].
    + split; [intros _; left | reflexivity].
    + rewrite IH. split; [intros H; now right|].
      intros H. apply elem_of_cons in H as [->|H]; [contradiction | exact H].
Qed.

Section DecodeUTF8.

Variable ValidString : list ascii -> bool.
Variable DecodeRuneInString : list ascii -> Z * nat.
Variable EncodeRune : Z -> list ascii.

(** What the library gives: a rune read from a string that is not empty is
    at least one byte wide and no wider than the string, and a rune that was
    read from a valid encoding is encoded as the bytes it was read from. *)
Hypothesis width_bounds : forall s,
  s <> [] ->
  (1 <= snd (DecodeRuneInString s) <= List.length s)%nat.
Hypothesis encode_decoded : forall s r width,
  s <> [] ->
  DecodeRuneInString s = (r, width) ->
  ~ (r = Utils.RuneError /\ width = 1%nat) ->
  EncodeRune r = take width s.

Lemma rangeLoop_keeps (fuel : nat) (s : list ascii) (v : list Z) :
  (List.length s <= fuel)%nat ->
  exists kept,
    sublist kept s /\
    flat_map EncodeRune (Utils.rangeLoop DecodeRuneInString fuel s v)
    = (flat_map EncodeRune v ++ kept)%list.
Proof.
  revert s v. induction fuel as [|fuel IH]; intros s v Hlen.
  - destruct s as [|a s]; [|simpl in Hlen; lia].
    exists []. split; [constructor|]. simpl. now rewrite app_nil_r.
  - destruct s as [|a s].
    { exists []. split; [constructor|]. simpl. now rewrite app_nil_r. }
    assert (Hne : a :: s <> []) by discriminate.
    pose proof (width_bounds (a :: s) Hne) as Hwidth.
    pose proof (encode_decoded (a :: s)) as Henc.
    cbn [Utils.rangeLoop].
    destruct (DecodeRuneInString (a :: s)) as [r width] eqn:Hdec.
    cbn [snd] in Hwidth. specialize (Henc r width Hne eq_refl).
    assert (Hrest : (List.length (drop width (a :: s)) <= fuel)%nat).
    { rewrite length_drop. simpl in *. lia. }
    assert (Hkeep : ~ (r = Utils.RuneError /\ width = 1%nat) ->
      exists kept,
        sublist kept (a :: s) /\
        flat_map EncodeRune
          (Utils.rangeLoop DecodeRuneInString fuel (drop width (a :: s)) (v ++ [r])%list)
        = (flat_map EncodeRune v ++ kept)%list).
    { intros Hvalid.
      destruct (IH (drop width (a :: s)) (v ++ [r])%list Hrest) as (kept & Hsub & Heq).
      exists (take width (a :: s) ++ kept)%list. split.
      - rewrite <- (take_drop width (a :: s)) at 2.
        apply sublist_app; [reflexivity | exact Hsub].
      - rewrite Heq, flat_map_app. simpl. rewrite app_nil_r, (Henc Hvalid).
        now rewrite <- app_assoc. }
    assert (Hskip :
      exists kept,
        sublist kept (a :: s) /\
        flat_map EncodeRune
          (Utils.rangeLoop DecodeRuneInString fuel (drop width (a :: s)) v)
        = (flat_map EncodeRune v ++ kept)%list).
    { destruct (IH (drop width (a :: s)) v Hrest) as (kept & Hsub & Heq).
      exists kept. split; [|exact Heq].
      etransitivity; [exact Hsub | apply sublist_drop]. }
    destruct (decide (r = Utils.RuneError)) as [Hr|Hr].
    + destruct (decide (width = 1%nat)) as [Hw|Hw].
      * exact Hskip.
      * apply Hkeep. intros [_ Hw']. contradiction.
    + apply Hkeep. intros [Hr' _]. contradiction.
Qed.

(** X21: [DecodeUTF8] only takes bytes out: what it returns is the bytes of
    its argument with some of them left out, in their order, nothing added
    and nothing changed; a valid string is returned as it is. *)
Theorem DecodeUTF8_only_drops_bytes (bytes : list ascii) :
  sublist (Utils.DecodeUTF8 ValidString DecodeRuneInString EncodeRune bytes) bytes /\
  (ValidString bytes = true ->
   Utils.DecodeUTF8 ValidString DecodeRuneInString EncodeRune bytes = bytes).
Proof.
  unfold Utils.DecodeUTF8. cbv zeta.
  destruct (ValidString bytes); cbn [negb].
  - split; [reflexivity | intros _; reflexivity].
  - split; [|discriminate].
    destruct (rangeLoop_keeps (List.length bytes) bytes [] (le_n _))
      as (kept & Hsub & ->).
    exact Hsub.
Qed.

End DecodeUTF8.

Lemma DecodeUTF8_only_drops_bytes_witness :
  sublist (Utils.DecodeUTF8 MoreExamples.validASCII MoreExamples.decodeASCII
             MoreExamples.encodeASCII MoreExamples.brokenBytes)
          MoreExamples.brokenBytes /\
  Utils.DecodeUTF8 MoreExamples.validASCII MoreExamples.decodeASCII
    MoreExamples.encodeASCII MoreExamples.brokenBytes
  = ["a"%char; "b"%char; "c"%char].
Proof.
  split; [|reflexivity].
  apply (DecodeUTF8_only_drops_bytes MoreExamples.validASCII MoreExamples.decodeASCII
           MoreExamples.encodeASCII).
  - intros [|a s] Hne; [contradiction|].
    unfold MoreExamples.decodeASCII. destruct (MoreExamples.isASCII a); simpl; lia.
  - intros [|a s] r width Hne Hdec Hvalid; [contradiction|].
    unfold MoreExamples.decodeASCII in Hdec.
    destruct (MoreExamples.isASCII a) eqn:Ha; inversion Hdec; subst.
    + unfold MoreExamples.isASCII in Ha. apply Nat.ltb_lt in Ha.
      unfold MoreExamples.encodeASCII.
      rewrite decide_False by (unfold Utils.RuneError; lia).
      rewrite Nat2Z.id, ascii_nat_embedding. reflexivity.
    + exfalso. apply Hvalid. split; reflexivity.
Defined.

(** ** Zenvia SMS: incoming messages *)

Section ZenviaReceive.

Variable ParseTime : string -> option Time.
Variable NewTelURNForCountry : string -> string -> URN.
Variable Country : Channel -> string.
Variable WriteMsg : Msg -> option string.

Let ReceiveMessage :=
  ZenviaMO.ReceiveMessage ParseTime NewTelURNForCountry Country WriteMsg.

(** X4: [ReceiveMessage] hands at most one message to the backend, and only
    for a request that decoded and whose date parsed; an event it returns is
    that message, accepted by the backend and answered with success, with
    the body as text, the correlated id as external id, the parsed date, the
    tel URN of the sender and no attachment. *)
Theorem zenvia_ReceiveMessage_sound (channel : Channel)
    (decoded : string + ZenviaMO.messageRequest) :
  let r := ReceiveMessage channel decoded in
  (List.length (ZenviaMO.rc_writes r) <= 1)%nat /\
  (forall msg, msg ∈ ZenviaMO.rc_writes r ->
     exists zvMsg date,
       decoded = inr zvMsg /\
       ParseTime (ZenviaMO.Date zvMsg) = Some date /\
       msg = {| in_urn := NewTelURNForCountry (ZenviaMO.From zvMsg) (Country channel);
                in_text := ZenviaMO.Text zvMsg;
                in_attachments := [];
                in_external_id := ZenviaMO.ExternalID zvMsg;
                in_received_on := Some date;
                in_contact_name := EmptyString |}) /\
  (forall msg, msg ∈ ZenviaMO.rc_events r ->
     ZenviaMO.rc_events r = [msg] /\
     ZenviaMO.rc_writes r = [msg] /\
     WriteMsg msg = None /\
     ZenviaMO.rc_response r = ZenviaMO.MsgSuccess [msg]) /\
  (ZenviaMO.rc_events r = [] ->
     forall msgs, ZenviaMO.rc_response r <> ZenviaMO.MsgSuccess msgs).
Proof.
  cbv zeta. unfold ReceiveMessage, ZenviaMO.ReceiveMessage.
  destruct decoded as [err|zvMsg]; simpl.
  { split; [lia|]. split; [intros msg H; inversion H|].
    split; [intros msg H; inversion H | discriminate]. }
  destruct (ParseTime (ZenviaMO.Date zvMsg)) as [date|] eqn:Edate; simpl.
  2:{ split; [lia|]. split; [intros msg H; inversion H|].
      split; [intros msg H; inversion H | discriminate]. }
  match goal with
  | |- context [WriteMsg ?m] => set (built := m)
  end.
  assert (Hbuilt : forall msg, msg ∈ [built] ->
            exists zvMsg' date',
              @inr string _ zvMsg = inr zvMsg' /\
              ParseTime (ZenviaMO.Date zvMsg') = Some date' /\
              msg = {| in_urn := NewTelURNForCountry (ZenviaMO.From zvMsg') (Country channel);
                       in_text := ZenviaMO.Text zvMsg';
                       in_attachments := [];
                       in_external_id := ZenviaMO.ExternalID zvMsg';
                       in_received_on := Some date';
                       in_contact_name := EmptyString |}).
  { intros msg H. apply list_elem_of_singleton in H as ->.
    exists zvMsg, date. repeat split. exact Edate. }
  destruct (WriteMsg built) as [err|] eqn:Ewrite; simpl.
  - split; [lia|]. split; [exact Hbuilt|].
    split; [intros msg H; inversion H | discriminate].
  - split; [lia|]. split; [exact Hbuilt|]. split; [|discriminate].
    intros msg H. apply list_elem_of_singleton in H as ->. repeat split. exact Ewrite.
Qed.

End ZenviaReceive.

(** ** Zenvia SMS: the run of a send *)

Section ZenviaRun.

Variable BasicAuth : string -> string -> string.
Variable net : Net.
Variables username password : string.
Variable msg : OutMsg.

Let request := Zenvia.partRequest BasicAuth username password msg.
Let sendParts := Zenvia.sendParts BasicAuth net username password msg.

(** Whether the part sent as call number [i] went through. *)
Let went (i : nat) (part : string) : bool :=
  Zenvia.partSucceeded (net i (request part)).

Lemma zenvia_part_went (status : MsgStatus) (calls : list Request)
    (part : string) (parts : list string) :
  went (List.length calls) part = true ->
  sendParts (part :: parts) status calls =
  sendParts parts
    (SetStatus MsgWired
       (AddLog (Some (NewChannelLogFromRR "Message Sent"
                        (net (List.length calls) (request part)))) status))
    (calls ++ [request part])%list.
Proof.
  unfold went, Zenvia.partSucceeded. intros Hwent.
  cbn [sendParts Zenvia.sendParts]. cbv zeta. fold (request part).
  destruct (rr_err (net (List.length calls) (request part))); [discriminate|].
  destruct (Zenvia.statusMapping !! _) as [[]|]; try discriminate; reflexivity.
Qed.

Lemma zenvia_part_failed (status : MsgStatus) (calls : list Request)
    (part : string) (parts : list string) :
  went (List.length calls) part = false ->
  exists err,
    sendParts (part :: parts) status calls =
    {| sr_status :=
         Some (AddLog (Some (WithError "Message Send Error"
                               (rr_err (net (List.length calls) (request part)))
                               (NewChannelLogFromRR "Message Sent"
                                  (net (List.length calls) (request part))))) status);
       sr_err := Some err;
       sr_calls := (calls ++ [request part])%list |}.
Proof.
  unfold went, Zenvia.partSucceeded. intros Hwent.
  cbn [sendParts Zenvia.sendParts]. cbv zeta. fold (request part).
  destruct (rr_err (net (List.length calls) (request part))); [eauto|].
  destruct (Zenvia.statusMapping !! _) as [[]|]; try discriminate; eauto.
Qed.

Lemma zenvia_sendParts_through (parts : list string) :
  forall (status : MsgStatus) (calls : list Request),
    (forall i part, parts !! i = Some part -> went (List.length calls + i) part = true) ->
    exists status',
      sendParts parts status calls =
      {| sr_status := Some status'; sr_err := None;
         sr_calls := (calls ++ map request parts)%list |} /\
      List.length (status_logs status')
        = (List.length (status_logs status) + List.length parts)%nat /\
      status_value status'
        = match parts with [] => status_value status | _ => MsgWired end.
Proof.
  induction parts as [|part parts IH]; intros status calls Hwent.
  - exists status. simpl. rewrite app_nil_r. repeat split. lia.
  - rewrite zenvia_part_went
      by (specialize (Hwent 0%nat part eq_refl); now rewrite Nat.add_0_r in Hwent).
    edestruct IH as (status' & -> & Hlogs & Hvalue).
    { intros i p Hp. rewrite length_app. simpl.
      replace (List.length calls + 1 + i)%nat with (List.length calls + S i)%nat by lia.
      apply Hwent. exact Hp. }
    exists status'. split; [|split].
    + simpl. now rewrite <- app_assoc.
    + rewrite Hlogs. simpl. rewrite length_app. simpl. lia.
    + rewrite Hvalue. destruct parts; reflexivity.
Qed.

Lemma zenvia_sendParts_stops (parts : list string) :
  forall (status : MsgStatus) (calls : list Request) (f : nat) (part : string),
    parts !! f = Some part ->
    went (List.length calls + f) part = false ->
    (forall i p, (i < f)%nat -> parts !! i = Some p ->
                 went (List.length calls + i) p = true) ->
    exists status' err,
      sendParts parts status calls =
      {| sr_status := Some status'; sr_err := Some err;
         sr_calls := (calls ++ map request (take (S f) parts))%list |} /\
      List.length (status_logs status')
        = (List.length (status_logs status) + S f)%nat.
Proof.
  induction parts as [|part0 parts IH]; intros status calls f part Hpart Hfail Hbefore;
    [discriminate|].
  destruct f as [|f].
  - injection Hpart as ->. rewrite Nat.add_0_r in Hfail.
    destruct (zenvia_part_failed status calls part parts Hfail) as [err ->].
    eexists _, err. split; [reflexivity|]. simpl. rewrite length_app. simpl. lia.
  - rewrite zenvia_part_went
      by (specialize (Hbefore 0%nat part0 ltac:(lia) eq_refl);
          now rewrite Nat.add_0_r in Hbefore).
    match goal with
    | |- context [sendParts parts ?st ?cs] =>
        destruct (IH st cs f part Hpart) as (status' & err & -> & Hlogs)
    end.
    { rewrite length_app. simpl.
      replace (List.length calls + 1 + f)%nat with (List.length calls + S f)%nat by lia.
      exact Hfail. }
    { intros i p Hi Hp. rewrite length_app. simpl.
      replace (List.length calls + 1 + i)%nat with (List.length calls + S i)%nat by lia.
      apply Hbefore; [lia | exact Hp]. }
    exists status', err. split.
    + simpl. now rewrite <- app_assoc.
    + rewrite Hlogs. simpl. rewrite length_app. simpl. lia.
Qed.

End ZenviaRun.

Section ZenviaSendRun.

Variables ConfigUsername ConfigPassword : string.
Variable GetTextAndAttachments : OutMsg -> string.
Variable SplitMsg : string -> nat -> list string.
Variable BasicAuth : string -> string -> string.
Variable net : Net.

Let SendMsg :=
  Zenvia.SendMsg ConfigUsername ConfigPassword GetTextAndAttachments SplitMsg BasicAuth net.
Let username (msg : OutMsg) := StringConfigForKey (msg_channel msg) ConfigUsername EmptyString.
Let password (msg : OutMsg) := StringConfigForKey (msg_channel msg) ConfigPassword EmptyString.
Let parts (msg : OutMsg) := SplitMsg (GetTextAndAttachments msg) Zenvia.maxMsgLength.
Let request (msg : OutMsg) :=
  Zenvia.partRequest BasicAuth (username msg) (password msg) msg.

(** X5: when every part goes through, Zenvia's [SendMsg] makes one call per
    part, in the order of the parts, logs each of them, and returns a nil
    error; the status is wired, unless there was no part at all, which
    leaves it errored with a nil error. *)
Theorem zenvia_send_all_parts (msg : OutMsg) :
  username msg <> EmptyString ->
  password msg <> EmptyString ->
  (forall i part, parts msg !! i = Some part ->
     Zenvia.partSucceeded (net i (request msg part)) = true) ->
  exists status,
    SendMsg msg =
    {| sr_status := Some status; sr_err := None;
       sr_calls := map (request msg) (parts msg) |} /\
    List.length (status_logs status) = List.length (parts msg) /\
    status_value status
      = match parts msg with [] => MsgErrored | _ => MsgWired end.
Proof.
  intros Huser Hpass Hwent. unfold SendMsg, Zenvia.SendMsg.
  fold (username msg) (password msg).
  rewrite (decide_False _ _ Huser), (decide_False _ _ Hpass). cbv zeta.
  fold (parts msg).
  destruct (zenvia_sendParts_through BasicAuth net (username msg) (password msg) msg
              (parts msg) (NewMsgStatusForID MsgErrored) [] Hwent)
    as (status & Hrun & Hlogs & Hvalue).
  exists status. split; [exact Hrun|]. split; [exact Hlogs | exact Hvalue].
Qed.

(** X6: Zenvia's [SendMsg] stops at the first part that fails: it has made
    the calls of the parts up to that one, in order, and no call after it,
    has logged each call made, and returns an error. *)
Theorem zenvia_send_stops_at_failure (msg : OutMsg) (f : nat) (part : string) :
  username msg <> EmptyString ->
  password msg <> EmptyString ->
  parts msg !! f = Some part ->
  Zenvia.partSucceeded (net f (request msg part)) = false ->
  (forall i p, (i < f)%nat -> parts msg !! i = Some p ->
     Zenvia.partSucceeded (net i (request msg p)) = true) ->
  exists status err,
    SendMsg msg =
    {| sr_status := Some status; sr_err := Some err;
       sr_calls := map (request msg) (take (S f) (parts msg)) |} /\
    List.length (status_logs status) = S f.
Proof.
  intros Huser Hpass Hpart Hfail Hbefore. unfold SendMsg, Zenvia.SendMsg.
  fold (username msg) (password msg).
  rewrite (decide_False _ _ Huser), (decide_False _ _ Hpass). cbv zeta.
  fold (parts msg).
  destruct (zenvia_sendParts_stops BasicAuth net (username msg) (password msg) msg
              (parts msg) (NewMsgStatusForID MsgErrored) [] f part Hpart Hfail Hbefore)
    as (status & err & Hrun & Hlogs).
  exists status, err. split; [exact Hrun | exact Hlogs].
Qed.

End ZenviaSendRun.

Lemma zenvia_send_all_parts_witness :
  returned_value (Examples.zenviaSend MoreExamples.acceptNet MoreExamples.longMsg)
    = Some MsgWired /\
  sr_err (Examples.zenviaSend MoreExamples.acceptNet MoreExamples.longMsg) = None /\
  List.length (sr_calls (Examples.zenviaSend MoreExamples.acceptNet MoreExamples.longMsg))
    = 2%nat.
Proof.
  destruct (zenvia_send_all_parts "username" "password" msg_text Handlers.SplitMsg
              (fun user pass => "Basic " ++ user ++ ":" ++ pass)
              MoreExamples.acceptNet MoreExamples.longMsg)
    as (status & Hrun & _ & Hvalue).
  - discriminate.
  - discriminate.
  - intros i part _. reflexivity.
  - unfold Examples.zenviaSend. rewrite Hrun. unfold returned_value. simpl.
    rewrite Hvalue. repeat split.
Defined.

Lemma zenvia_send_stops_at_failure_witness :
  sr_err (Examples.zenviaSend Examples.firstPartOnlyNet MoreExamples.longMsg) <> None /\
  List.length
    (sr_calls (Examples.zenviaSend Examples.firstPartOnlyNet MoreExamples.longMsg))
    = 2%nat.
Proof.
  destruct (zenvia_send_stops_at_failure "username" "password" msg_text Handlers.SplitMsg
              (fun user pass => "Basic " ++ user ++ ":" ++ pass)
              Examples.firstPartOnlyNet MoreExamples.longMsg 1%nat "a")
    as (status & err & Hrun & _).
  - discriminate.
  - discriminate.
  - reflexivity.
  - reflexivity.
  - intros i p Hi _. destruct i; [reflexivity | lia].
  - unfold Examples.zenviaSend. rewrite Hrun. split; [discriminate | reflexivity].
Defined.

(** ** Zenvia WhatsApp: the one request of a send, and what is received *)

Section WhatsAppSend.

Variable ConfigAPIKey : string.
Variable SplitAttachment : string -> string * string.
Variable SplitMsgByChannel : Channel -> string -> nat -> list string.
Variable net : Net.

Let SendMsg := ZenviaWhatsApp.SendMsg ConfigAPIKey SplitAttachment SplitMsgByChannel net.
Let token (msg : OutMsg) := StringConfigForKey (msg_channel msg) ConfigAPIKey EmptyString.
Let request (msg : OutMsg) :=
  ZenviaWhatsApp.sendRequest SplitAttachment SplitMsgByChannel (token msg) msg.

(** X7: with a token, Zenvia WhatsApp's [SendMsg] makes exactly one call,
    whatever the number of attachments and of parts of the text, logs it,
    and returns a nil error; the status is wired, with the id of the answer
    as external id, exactly when the call went through and its answer has
    an id, and errored with no external id otherwise. *)
Theorem whatsapp_send_one_call (msg : OutMsg) :
  token msg <> EmptyString ->
  exists status,
    SendMsg msg =
    {| sr_status := Some status; sr_err := None; sr_calls := [request msg] |} /\
    List.length (status_logs status) = 1%nat /\
    match rr_err (net 0%nat (request msg)),
          GetString (rr_doc (net 0%nat (request msg))) ["id"] with
    | None, Some externalID =>
        status_value status = MsgWired /\ status_external_id status = externalID
    | _, _ =>
        status_value status = MsgErrored /\ status_external_id status = EmptyString
    end.
Proof.
  intros Htoken. unfold SendMsg, ZenviaWhatsApp.SendMsg. fold (token msg).
  rewrite (decide_False _ _ Htoken). cbv zeta. fold (request msg).
  destruct (rr_err (net 0%nat (request msg))) as [err|].
  - eexists. split; [reflexivity|]. split; [reflexivity|]. split; reflexivity.
  - destruct (GetString _ _) as [externalID|]; eexists;
      (split; [reflexivity|]); split; try reflexivity; split; reflexivity.
Qed.

End WhatsAppSend.

Lemma whatsapp_send_one_call_witness :
  exists status,
    Examples.whatsappSend
      (fun _ _ => Examples.answered (JObj [ ("id", JStr "ec9adc86") ]))
      (Examples.outMsg Examples.whatsappChannel "5515997899875" Examples.text2300
         ["https://files.example/cat.jpg"])
    = {| sr_status := Some status; sr_err := None;
         sr_calls :=
           [ZenviaWhatsApp.sendRequest (fun att => ("image/jpeg", att))
              (fun _ text max => Handlers.SplitMsg text max) "zvw-token"
              (Examples.outMsg Examples.whatsappChannel "5515997899875" Examples.text2300
                 ["https://files.example/cat.jpg"])] |} /\
    status_value status = MsgWired /\
    status_external_id status = "ec9adc86".
Proof.
  destruct (whatsapp_send_one_call "api_key" (fun att => ("image/jpeg", att))
              (fun _ text max => Handlers.SplitMsg text max)
              (fun _ _ => Examples.answered (JObj [ ("id", JStr "ec9adc86") ]))
              (Examples.outMsg Examples.whatsappChannel "5515997899875" Examples.text2300
                 ["https://files.example/cat.jpg"]))
    as (status & Hrun & _ & Hvalue).
  - discriminate.
  - exists status. split; [exact Hrun | exact Hvalue].
Defined.

Section WhatsAppReceived.

Context {float32 : Type}.
Variable ToUpper : string -> string.
Variable FormatF : float32 -> string.
Variable ParseTime : string -> option Time.
Variable NewWhatsAppURN : string -> string + URN.

Let receiveMessage :=
  ZenviaWhatsApp.receiveMessage ToUpper float32 FormatF ParseTime NewWhatsAppURN.

(** X8: whatever the event, every message Zenvia WhatsApp's
    [receiveMessage] writes has the id of the event's message as external
    id, at most one attachment, and never both a text and an attachment:
    the caption of a file is not kept. *)
Theorem whatsapp_written_msgs_shape (payload : ZenviaWhatsApp.moPayload float32) :
  Forall
    (fun msg =>
       in_external_id msg = ZenviaWhatsApp.ID _ (ZenviaWhatsApp.Message _ payload) /\
       (List.length (in_attachments msg) <= 1)%nat /\
       (in_text msg = EmptyString \/ in_attachments msg = []))
    (produced (receiveMessage (inr payload))).
Proof.
  unfold receiveMessage, ZenviaWhatsApp.receiveMessage.
  destruct (decide (ToUpper _ = "MESSAGE")); [|constructor].
  destruct (ParseTime _) as [date|]; [|constructor].
  destruct (decide (ToUpper _ = "IN")); [|constructor].
  destruct (NewWhatsAppURN _) as [err|urn]; [constructor|].
  simpl. induction (ZenviaWhatsApp.Contents _ _) as [|content contents IH];
    simpl; constructor; [|exact IH].
  pose proof (contentMsg_shape FormatF urn
                (ZenviaWhatsApp.ID _ (ZenviaWhatsApp.Message _ payload)) date
                (ZenviaWhatsApp.VisitorName _ payload) content) as Hshape.
  cbv zeta in Hshape. rewrite Hshape. simpl.
  split; [reflexivity|]. split.
  - destruct (decide (ZenviaWhatsApp.contentMediaURL _ FormatF content = EmptyString));
      simpl; lia.
  - unfold ZenviaWhatsApp.contentText, ZenviaWhatsApp.contentMediaURL.
    destruct (decide (ZenviaWhatsApp.Type_ _ content = "text")); [right | now left].
    now rewrite decide_True.
Qed.

End WhatsAppReceived.

(** ** Status webhooks *)

(** X9: the status webhooks write one status, under the external id of the
    event and with an empty log trail, and its value is never wired: Zenvia
    SMS writes sent, delivered or errored, Zenvia WhatsApp, for an event of
    type MESSAGE_STATUS only, sent, delivered, failed or errored; a request
    that does not decode writes none. *)
Theorem status_webhooks_never_wired :
  (forall decoded,
     match Zenvia.StatusMessage decoded with
     | StatusWritten status =>
         exists zvStatus,
           decoded = inr zvStatus /\
           status_external_id status = Zenvia.ID zvStatus /\
           status_logs status = [] /\
           status_value status ∈ [MsgSent; MsgDelivered; MsgErrored]
     | RequestError err => decoded = inl err
     | _ => False
     end) /\
  (forall upper decoded,
     match ZenviaWhatsApp.receiveStatus upper decoded with
     | StatusWritten status =>
         exists payload,
           decoded = inr payload /\
           upper (ZenviaWhatsApp.StatusType payload) = "MESSAGE_STATUS" /\
           status_external_id status = ZenviaWhatsApp.MessageID payload /\
           status_logs status = [] /\
           status_value status ∈ [MsgSent; MsgDelivered; MsgFailed; MsgErrored]
     | RequestError err =>
         decoded = inl err \/
         exists payload,
           decoded = inr payload /\
           upper (ZenviaWhatsApp.StatusType payload) <> "MESSAGE_STATUS"
     | _ => False
     end).
Proof.
  split.
  - intros [err|zvStatus]; simpl; [reflexivity|].
    exists zvStatus. repeat split.
    rewrite zenvia_mapStatus_documented. unfold Documented.zenviaStatus.
    repeat case_decide; solve [repeat constructor].
  - intros upper [err|payload]; simpl; [now left|].
    destruct (decide (upper _ = "MESSAGE_STATUS")) as [Htype|Htype].
    + exists payload. repeat split; [exact Htype|].
      rewrite whatsapp_mapStatus_documented. unfold Documented.whatsappStatus.
      repeat case_decide; solve [repeat constructor].
    + right. exists payload. split; [reflexivity | exact Htype].
Qed.

(** ** FreshChat: replies, attachments and the signature *)

Lemma splitSlash_through (a b cur : string) :
  FreshChat.contains "/" a = false ->
  FreshChat.splitSlash (a ++ String "/" b) cur
  = (cur ++ a) :: FreshChat.splitSlash b EmptyString.
Proof.
  revert cur. induction a as [|c a IH]; intros cur Ha.
  - rewrite append_empty_l, append_empty_r. reflexivity.
  - simpl in Ha. apply orb_false_iff in Ha as [Hc Ha].
    rewrite append_cons. cbn [FreshChat.splitSlash]. rewrite Hc, (IH _ Ha), append_assoc.
    reflexivity.
Qed.

Section FreshChatReply.

Variables ConfigUsername ConfigAuthToken : string.
Variable net : Net.

Let SendMsg := FreshChat.SendMsg ConfigUsername ConfigAuthToken net.

(** X10: the path the FreshChat handler composes for a sender, channel id,
    a slash, actor id, is taken apart again by [SendMsg]: the one call of a
    reply to that URN names the same channel and the same user, when
    neither id holds a slash. *)
Theorem freshchat_reply_addresses_sender (msg : OutMsg) (channelID actorID : string) :
  let agentID := StringConfigForKey (msg_channel msg) ConfigUsername EmptyString in
  let authToken := StringConfigForKey (msg_channel msg) ConfigAuthToken EmptyString in
  agentID <> EmptyString ->
  authToken <> EmptyString ->
  FreshChat.contains "/" channelID = false ->
  FreshChat.contains "/" actorID = false ->
  urn_path (msg_urn msg) = channelID ++ "/" ++ actorID ->
  exists status err,
    SendMsg msg =
    Returns {| sr_status := Some status; sr_err := err;
               sr_calls := [FreshChat.sendRequest agentID authToken channelID actorID msg] |}.
Proof.
  intros agentID authToken Hagent Htoken Hchannel Hactor Hpath.
  unfold SendMsg, FreshChat.SendMsg. fold agentID authToken.
  rewrite (decide_False _ _ Hagent), (decide_False _ _ Htoken). cbv zeta.
  unfold FreshChat.Split. rewrite Hpath.
  change ("/" ++ actorID) with (String "/" actorID).
  rewrite (splitSlash_through _ _ _ Hchannel), (splitSlash_no_slash _ _ Hactor).
  rewrite !append_empty_l. simpl.
  destruct (rr_err _); eauto.
Qed.

(** X11: FreshChat's [SendMsg] reads the first attachment only: two
    messages of one channel, to one URN, with the same text and the same
    first attachment, if any, are sent with the same calls, status and
    error, whatever their other attachments; these are never sent. *)
Theorem freshchat_send_first_attachment_only (msg msg' : OutMsg) :
  msg_channel msg = msg_channel msg' ->
  msg_urn msg = msg_urn msg' ->
  msg_text msg = msg_text msg' ->
  head (msg_attachments msg) = head (msg_attachments msg') ->
  SendMsg msg = SendMsg msg'.
Proof.
  intros Hchannel Hurn Htext Hfirst.
  assert (Hparts : FreshChat.messageParts msg = FreshChat.messageParts msg').
  { unfold FreshChat.messageParts. rewrite Htext.
    destruct (msg_attachments msg) as [|a l], (msg_attachments msg') as [|a' l'];
      simpl in Hfirst; try discriminate; [reflexivity|].
    injection Hfirst as ->. reflexivity. }
  unfold SendMsg, FreshChat.SendMsg, FreshChat.sendRequest, FreshChat.messagePayload.
  rewrite Hchannel, Hurn, Hparts. reflexivity.
Qed.

End FreshChatReply.

Lemma freshchat_send_first_attachment_only_witness :
  Examples.fcSend Examples.deadNet
    (Examples.outMsg Examples.fcChannel "c8fddfaf/882f3926" "Hi"
       ["https://files.example/a.jpg"; "https://files.example/b.jpg"])
  = Examples.fcSend Examples.deadNet
      (Examples.outMsg Examples.fcChannel "c8fddfaf/882f3926" "Hi"
         ["https://files.example/a.jpg"]).
Proof.
  apply (freshchat_send_first_attachment_only "username" "auth_token" Examples.deadNet);
    reflexivity.
Defined.

Lemma freshchat_reply_addresses_sender_witness :
  exists status err,
    Examples.fcSend Examples.deadNet
      (Examples.outMsg Examples.fcChannel "c8fddfaf/882f3926" "Hi" []) =
    Returns {| sr_status := Some status; sr_err := err;
               sr_calls :=
                 [FreshChat.sendRequest "agent-1" "fc-token" "c8fddfaf" "882f3926"
                    (Examples.outMsg Examples.fcChannel "c8fddfaf/882f3926" "Hi" [])] |}.
Proof.
  apply (freshchat_reply_addresses_sender "username" "auth_token" Examples.deadNet
           (Examples.outMsg Examples.fcChannel "c8fddfaf/882f3926" "Hi" [])
           "c8fddfaf" "882f3926");
    first [discriminate | reflexivity].
Defined.

Section SignatureAccepts.

Variable lib : FreshChat.Crypto.
Variable ConfigPassword : string.

Let validateSignature := FreshChat.validateSignature lib ConfigPassword.

(** X12: with signature validation on, a signature header and a key that
    parses as an RSA key, [validateSignature] returns, and returns the nil
    error exactly when the header decodes as base64 to a signature that
    verifies, under the key, against the SHA-256 digest of the body. *)
Theorem validateSignature_accepts_iff (c : Channel) (r : FreshChat.InRequest)
    (der : string) (n e : Z) :
  FreshChat.header_signature r <> EmptyString ->
  FreshChat.pemDecode lib (StringConfigForKey c ConfigPassword EmptyString) = Some der ->
  FreshChat.ParsePKIXPublicKey lib der = inr (FreshChat.RSAPublicKey n e) ->
  (exists result, validateSignature true c r = Returns result) /\
  (validateSignature true c r = Returns None <->
   exists decodedSig,
     FreshChat.base64Decode lib (FreshChat.header_signature r) = inr decodedSig /\
     FreshChat.VerifyPKCS1v15 lib n e (FreshChat.sha256sum lib (FreshChat.body r))
       decodedSig = None).
Proof.
  intros Hsig Hpem Hkey. unfold validateSignature.
  rewrite (validateSignature_errors lib ConfigPassword c r der n e Hsig Hpem Hkey).
  destruct (FreshChat.base64Decode lib _) as [err|decodedSig].
  - split; [eauto|]. split; [discriminate|]. intros (sig & Hdec & _). discriminate.
  - destruct (FreshChat.VerifyPKCS1v15 lib n e _ decodedSig) as [err|] eqn:Everify.
    + split; [eauto|]. split; [discriminate|].
      intros (sig & Hdec & Hver). injection Hdec as <-. congruence.
    + split; [eauto|]. split; [eauto | reflexivity].
Qed.

End SignatureAccepts.

Lemma validateSignature_accepts_iff_witness :
  FreshChat.validateSignature MoreExamples.echoCrypto "password" true
    MoreExamples.echoChannel
    {| FreshChat.header_signature := "(user event)"; FreshChat.body := "(user event)" |}
  = Returns None /\
  FreshChat.validateSignature MoreExamples.echoCrypto "password" true
    MoreExamples.echoChannel
    {| FreshChat.header_signature := "(user event)"; FreshChat.body := "(agent event)" |}
  <> Returns None.
Proof.
  split.
  - apply (validateSignature_accepts_iff MoreExamples.echoCrypto "password"
             MoreExamples.echoChannel
             {| FreshChat.header_signature := "(user event)";
                FreshChat.body := "(user event)" |}
             "-----BEGIN PUBLIC KEY-----" 3233 17);
      [discriminate | reflexivity | reflexivity |].
    exists "(user event)". split; reflexivity.
  - intros Haccept.
    apply (validateSignature_accepts_iff MoreExamples.echoCrypto "password"
             MoreExamples.echoChannel
             {| FreshChat.header_signature := "(user event)";
                FreshChat.body := "(agent event)" |}
             "-----BEGIN PUBLIC KEY-----" 3233 17) in Haccept;
      [| discriminate | reflexivity | reflexivity].
    destruct Haccept as (sig & Hdec & Hver). injection Hdec as <-. discriminate.
Defined.

Section FreshChatWritten.

Variable lib : FreshChat.Crypto.
Variable ConfigPassword : string.
Variable DecodeAndValidateJSON : string -> string + FreshChat.moPayload.
Variable NewURNFromParts : string -> string -> string + URN.

Let receiveMessage :=
  FreshChat.receiveMessage lib ConfigPassword DecodeAndValidateJSON NewURNFromParts.

(** X13: the FreshChat handler writes messages only for a request that
    passed the signature check and whose body decoded to a message of an
    actor that is named and is not an agent; it then writes exactly one,
    received at the time the message was created, with no external id and
    no contact name. *)
Theorem freshchat_written_only_if_verified (validateSignatures : bool)
    (channel : Channel) (r : FreshChat.InRequest) (msgs : list Msg) :
  receiveMessage validateSignatures channel r = Returns (MsgsWritten msgs) ->
  FreshChat.validateSignature lib ConfigPassword validateSignatures channel r
    = Returns None /\
  exists payload message msg,
    DecodeAndValidateJSON (FreshChat.body r) = inr payload /\
    FreshChat.DataMessage payload = Some message /\
    FreshChat.ActorID message <> EmptyString /\
    FreshChat.ActorType message <> "agent" /\
    msgs = [msg] /\
    in_received_on msg = Some (FreshChat.CreatedTime message) /\
    in_external_id msg = EmptyString /\
    in_contact_name msg = EmptyString.
Proof.
  unfold receiveMessage, FreshChat.receiveMessage.
  destruct (FreshChat.validateSignature lib ConfigPassword validateSignatures channel r)
    as [[err|]|why]; try discriminate.
  destruct (DecodeAndValidateJSON _) as [err|payload] eqn:Hdec; [discriminate|].
  destruct (FreshChat.DataMessage payload) as [message|] eqn:Hmsg; [|discriminate].
  destruct (decide (FreshChat.ActorID message = EmptyString)); [discriminate|].
  destruct (decide (FreshChat.ActorType message = "agent")); [discriminate|].
  destruct (chan_schemes channel !! 0%nat); [|discriminate].
  destruct (NewURNFromParts _ _) as [err|urn]; [discriminate|].
  destruct (FreshChat.collectParts _ _ _) as [text mediaURL].
  intros Hwritten. injection Hwritten as <-.
  split; [reflexivity|].
  exists payload, message. eexists.
  repeat (split; [first [reflexivity | assumption]|]).
  destruct (decide (mediaURL = EmptyString)); repeat split.
Qed.

End FreshChatWritten.

Lemma freshchat_written_only_if_verified_witness :
  FreshChat.validateSignature Examples.strictCrypto "password" false Examples.fcChannel
    (Examples.signedRequest "(user event)") = Returns None /\
  exists msg,
    in_received_on msg = Some 1615229107%Z /\ in_external_id msg = EmptyString.
Proof.
  destruct (freshchat_written_only_if_verified Examples.strictCrypto "password"
              Examples.fcDecode Examples.fcURN false Examples.fcChannel
              (Examples.signedRequest "(user event)")
              [ {| in_urn := {| urn_scheme := "freshchat"; urn_path := "c8fddfaf/882f3926";
                                urn_display := EmptyString |};
                   in_text := "second";
                   in_attachments := ["https://img.example/2.png"];
                   in_external_id := EmptyString;
                   in_received_on := Some 1615229107%Z;
                   in_contact_name := EmptyString |} ] eq_refl)
    as (Hsig & payload & message & msg & Hdec & Hmsg & _ & _ & _ & Hdate & Hext & _).
  split; [exact Hsig|]. exists msg. split; [|exact Hext].
  rewrite Hdate. vm_compute in Hdec. injection Hdec as <-.
  vm_compute in Hmsg. injection Hmsg as <-. reflexivity.
Defined.

(** ** Slack: the shape of a send *)

Section SlackShape.

Variable SplitAttachment : string -> string * string.
Variable BasePathForURL : string -> string + string.
Variable NewRequestError : string -> option string.
Variable UnmarshalFileResponse : RR -> string + Slack.FileResponse.
Variable net : Net.

Let sendAttachments :=
  Slack.sendAttachments SplitAttachment BasePathForURL NewRequestError
    UnmarshalFileResponse net.
Let SendMsg :=
  Slack.SendMsg SplitAttachment BasePathForURL NewRequestError UnmarshalFileResponse net.

(** An attachment costs at most two calls, its fetch and its upload, and
    leaves at least one entry in the log trail. *)
Lemma slack_sendAttachments_bounds (msg : OutMsg) (botToken : string)
    (attachments : list string) :
  forall (hasError : bool) (status : MsgStatus) (calls : list Request),
    let after := sendAttachments msg botToken attachments hasError status calls in
    (List.length after.2 <= List.length calls + 2 * List.length attachments)%nat /\
    (List.length (status_logs status) + List.length attachments
     <= List.length (status_logs after.1.2))%nat.
Proof.
  induction attachments as [|attachment attachments IH]; intros hasError status calls;
    cbv zeta; [simpl; lia|].
  cbn [sendAttachments Slack.sendAttachments].
  unfold Slack.parseAttachmentToFileParams.
  destruct (NewRequestError _).
  - fold sendAttachments.
    match goal with
    | |- context [sendAttachments msg botToken attachments ?h ?st ?cs] =>
        specialize (IH h st cs); cbv zeta in IH
    end.
    simpl in *. rewrite length_app in IH. simpl in IH. lia.
  - cbv zeta. destruct (BasePathForURL _).
    + fold sendAttachments.
      match goal with
      | |- context [sendAttachments msg botToken attachments ?h ?st ?cs] =>
          specialize (IH h st cs); cbv zeta in IH
      end.
      simpl in *. rewrite !length_app in IH. simpl in IH. lia.
    + destruct (Slack.sendFilePart _ _ _ _ _ _) as [[log2 err2] calls2] eqn:Eupload.
      assert (Hcalls2 : (List.length calls2 = List.length calls + 2)%nat).
      { unfold Slack.sendFilePart in Eupload. cbv zeta in Eupload.
        destruct (rr_err _); [|destruct (UnmarshalFileResponse _) as [?|fr];
                                [|destruct (Slack.OK fr)]];
          injection Eupload as _ _ <-; rewrite !length_app; simpl; lia. }
      fold sendAttachments.
      match goal with
      | |- context [sendAttachments msg botToken attachments ?h ?st ?cs] =>
          specialize (IH h st cs); cbv zeta in IH
      end.
      simpl in *. rewrite !length_app in IH. simpl in IH. lia.
Qed.

(** X14: with a bot token, Slack's [SendMsg] returns a status and a nil
    error whatever happens; it makes at most two calls for each attachment
    and one for the text, the call of the text last, and leaves a log entry
    for each attachment; a message with neither text nor attachment makes
    no call and is returned errored. *)
Theorem slack_send_shape (msg : OutMsg) :
  let botToken := StringConfigForKey (msg_channel msg) Slack.configBotToken EmptyString in
  botToken <> EmptyString ->
  sr_err (SendMsg msg) = None /\
  (exists status,
     sr_status (SendMsg msg) = Some status /\
     (List.length (msg_attachments msg) <= List.length (status_logs status))%nat) /\
  (List.length (sr_calls (SendMsg msg))
   <= 2 * List.length (msg_attachments msg)
      + (if decide (msg_text msg = EmptyString) then 0 else 1))%nat /\
  (msg_text msg <> EmptyString ->
   List.last (sr_calls (SendMsg msg)) (Slack.textRequest msg EmptyString)
   = Slack.textRequest msg botToken) /\
  (msg_text msg = EmptyString -> msg_attachments msg = [] ->
   sr_calls (SendMsg msg) = [] /\ returned_value (SendMsg msg) = Some MsgErrored).
Proof.
  intros botToken Htoken. unfold SendMsg, Slack.SendMsg. fold botToken.
  rewrite (decide_False _ _ Htoken). cbv zeta. fold sendAttachments.
  pose proof (slack_sendAttachments_bounds msg botToken (msg_attachments msg) true
                (NewMsgStatusForID MsgErrored) []) as Hbounds.
  cbv zeta in Hbounds.
  destruct (msg_attachments msg) as [|attachment attachments] eqn:Eatts.
  - simpl. destruct (decide (msg_text msg = EmptyString)) as [Htext|Htext].
    + simpl. repeat split; try (intros; contradiction); try lia.
      eexists. split; [reflexivity | simpl; lia].
    + unfold Slack.sendTextMsgPart. cbv zeta.
      destruct (GetBoolean _ _) as [[|]|]; [| destruct (GetString _ _) |];
        simpl; repeat split; try (intros; contradiction); try lia;
        eexists; (split; [reflexivity | simpl; lia]).
  - destruct (sendAttachments msg botToken (attachment :: attachments) true
                (NewMsgStatusForID MsgErrored) []) as [[hasError status] calls].
    simpl in Hbounds. destruct Hbounds as [Hcalls Hlogs].
    destruct (decide (msg_text msg = EmptyString)) as [Htext|Htext].
    + split; [reflexivity|]. split.
      { eexists. split; [reflexivity|]. destruct hasError; simpl; lia. }
      split; [simpl; lia|]. split; [intros; contradiction | discriminate].
    + unfold Slack.sendTextMsgPart. cbv zeta.
      destruct (GetBoolean _ _) as [[|]|]; [| destruct (GetString _ _) |];
        (split; [reflexivity|]);
        (split; [eexists; split; [reflexivity|]; simpl; rewrite length_app; simpl; lia|]);
        (split; [simpl; rewrite length_app; simpl; lia|]);
        (split; [intros _; simpl; apply last_snoc | intros; contradiction]).
Qed.

End SlackShape.

Lemma slack_send_shape_witness :
  sr_err (Examples.slackSend Examples.uploadRefusedNet Examples.slackMsg) = None /\
  (List.length (sr_calls (Examples.slackSend Examples.uploadRefusedNet Examples.slackMsg))
   <= 3)%nat.
Proof.
  destruct (slack_send_shape (fun att => ("image/jpeg", att)) (fun _ => inr "cat.jpg")
              (fun _ => None) Examples.decodeFileResponse Examples.uploadRefusedNet
              Examples.slackMsg) as (Herr & _ & Hcalls & _).
  - discriminate.
  - split; [exact Herr | exact Hcalls].
Defined.

Section SlackFirstOutcome.

Variable SplitAttachment : string -> string * string.
Variable BasePathForURL : string -> string + string.
Variable NewRequestError : string -> option string.
Variable UnmarshalFileResponse : RR -> string + Slack.FileResponse.
Variable net : Net.

Let SendMsg :=
  SlackFirst.SendMsg SplitAttachment BasePathForURL NewRequestError
    UnmarshalFileResponse net.

(** X15: the first [SendMsg] of Slack sends the text before any
    attachment, and a text that did not go through ends the send: the one
    call made is that of the text, the status is errored, and the error is
    nil when Slack answered with ok false. A wired status means the send
    ran to its end: a nil error, the call of the text and two calls for
    each attachment. *)
Theorem slackfirst_send_outcome (msg : OutMsg) :
  let botToken := StringConfigForKey (msg_channel msg) Slack.configBotToken EmptyString in
  let answer := net 0%nat (Slack.textRequest msg botToken) in
  botToken <> EmptyString ->
  (msg_text msg <> EmptyString ->
   Slack.textSucceeded answer = false ->
   sr_calls (SendMsg msg) = [Slack.textRequest msg botToken] /\
   returned_value (SendMsg msg) = Some MsgErrored /\
   (GetBoolean (rr_doc answer) ["ok"] = Some false -> sr_err (SendMsg msg) = None)) /\
  (returned_value (SendMsg msg) = Some MsgWired ->
   sr_err (SendMsg msg) = None /\
   List.length (sr_calls (SendMsg msg))
     = ((if decide (msg_text msg = EmptyString) then 0 else 1)
        + 2 * List.length (msg_attachments msg))%nat).
Proof.
  intros botToken answer Htoken. split.
  - intros Htext Hfail. unfold SendMsg, SlackFirst.SendMsg. fold botToken.
    rewrite (decide_False _ _ Htoken). cbv zeta.
    unfold SlackFirst.sendText. rewrite (decide_False _ _ Htext). cbv zeta.
    fold answer. unfold Slack.textSucceeded in Hfail.
    destruct (GetBoolean (rr_doc answer) ["ok"]) as [[|]|]; [discriminate| |];
      repeat split; discriminate.
  - intros Hwired.
    destruct (slackfirst_wired_only_if_all_sent SplitAttachment BasePathForURL
                NewRequestError UnmarshalFileResponse net msg Hwired)
      as (Herr & Hcalls & _).
    split; [exact Herr | exact Hcalls].
Qed.

End SlackFirstOutcome.

Lemma slackfirst_send_outcome_witness :
  sr_calls
    (SlackFirst.SendMsg (fun att => ("image/jpeg", att)) (fun _ => inr "cat.jpg")
       (fun _ => None) Examples.decodeFileResponse
       (fun _ _ => Examples.answered (JObj [ ("ok", JBool false) ])) Examples.slackMsg)
  = [Slack.textRequest Examples.slackMsg "xoxb-123"] /\
  sr_err
    (SlackFirst.SendMsg (fun att => ("image/jpeg", att)) (fun _ => inr "cat.jpg")
       (fun _ => None) Examples.decodeFileResponse
       (fun _ _ => Examples.answered (JObj [ ("ok", JBool false) ])) Examples.slackMsg)
  = None.
Proof.
  destruct (slackfirst_send_outcome (fun att => ("image/jpeg", att)) (fun _ => inr "cat.jpg")
              (fun _ => None) Examples.decodeFileResponse
              (fun _ _ => Examples.answered (JObj [ ("ok", JBool false) ]))
              Examples.slackMsg) as (Hstop & _).
  - discriminate.
  - destruct Hstop as (Hcalls & _ & Herr); [discriminate | reflexivity |].
    split; [exact Hcalls | apply Herr; reflexivity].
Defined.

(** ** Slack: incoming events *)

Lemma contains_append (sep : ascii) (s t : string) :
  FreshChat.contains sep (s ++ t) = FreshChat.contains sep s || FreshChat.contains sep t.
Proof.
  induction s as [|c s IH]; [reflexivity|].
  rewrite append_cons. simpl. now rewrite IH, orb_assoc.
Qed.

(** The pieces of a split end in a piece that holds no separator and that
    ends the text, right after the last separator of the text if it has
    one. *)
Lemma splitOn_last (sep : ascii) (s : string) :
  forall cur,
    FreshChat.contains sep cur = false ->
    exists front piece pre,
      SlackEvents.splitOn sep s cur = (front ++ [piece])%list /\
      cur ++ s = pre ++ piece /\
      FreshChat.contains sep piece = false /\
      (pre = EmptyString \/ exists pre', pre = pre' ++ String sep EmptyString).
Proof.
  induction s as [|a s IH]; intros cur Hcur.
  - exists [], cur, EmptyString. rewrite append_empty_r.
    split; [reflexivity|]. split; [reflexivity|]. split; [exact Hcur | now left].
  - cbn [SlackEvents.splitOn]. destruct (Ascii.eqb a sep) eqn:Ea.
    + apply Ascii.eqb_eq in Ea. subst a.
      destruct (IH EmptyString eq_refl) as (front & piece & pre & -> & Hs & Hpiece & Hpre).
      exists (cur :: front), piece, (cur ++ String sep pre).
      split; [reflexivity|]. split; [|split; [exact Hpiece|]].
      * rewrite append_empty_l in Hs. rewrite Hs.
        now rewrite append_assoc, append_cons.
      * right. destruct Hpre as [->|[pre' ->]].
        -- exists cur. reflexivity.
        -- exists (cur ++ String sep pre').
           now rewrite append_assoc, append_cons.
    + destruct (IH (cur ++ String a EmptyString))
        as (front & piece & pre & -> & Hs & Hpiece & Hpre).
      { rewrite contains_append, Hcur. simpl. now rewrite Ea. }
      exists front, piece, pre.
      split; [reflexivity|]. split; [|split; [exact Hpiece | exact Hpre]].
      rewrite <- Hs, append_assoc. reflexivity.
Qed.

Lemma Split_last_index (s : string) (sep : ascii) :
  exists piece pre,
    SlackEvents.Split s sep !! (List.length (SlackEvents.Split s sep) - 1)%nat = Some piece /\
    s = pre ++ piece /\
    FreshChat.contains sep piece = false /\
    (pre = EmptyString \/ exists pre', pre = pre' ++ String sep EmptyString).
Proof.
  unfold SlackEvents.Split.
  destruct (splitOn_last sep s EmptyString eq_refl)
    as (front & piece & pre & -> & Hs & Hp & Hpre).
  exists piece, pre. rewrite length_snoc_pred.
  split; [|split; [exact Hs | split; [exact Hp | exact Hpre]]].
  rewrite lookup_app_r by lia. now rewrite Nat.sub_diag.
Qed.

Section SlackInbound.

Variable UUID : Channel -> string.
Variable NewSlackURN : string -> string -> string + URN.
Variable UnmarshalFileResponse : RR -> string + SlackEvents.FileResponse.
Variable UnmarshalUserInfo : RR -> string + option SlackEvents.UserInfo.
Variable api : SlackEvents.API.

Let resolveFile := SlackEvents.resolveFile UnmarshalFileResponse api.
Let resolveFiles := SlackEvents.resolveFiles UnmarshalFileResponse api.
Let receiveEvent :=
  SlackEvents.receiveEvent UUID NewSlackURN UnmarshalFileResponse UnmarshalUserInfo api.

(** [resolveFile] returns: the index of the last piece of a split is never
    out of range. *)
Lemma slack_resolveFile_returns (channel : Channel) (file : SlackEvents.File) (n : nat) :
  exists result logs, resolveFile channel file n = Returns (result, logs).
Proof.
  unfold resolveFile, SlackEvents.resolveFile. cbv zeta.
  destruct (rr_err _); [eauto|].
  destruct (UnmarshalFileResponse _) as [err|fResponse]; [eauto|].
  destruct (SlackEvents.OK fResponse).
  - destruct (Split_last_index
                (SlackEvents.PermalinkPublic (SlackEvents.ResponseFile fResponse)) "-")
      as (piece & pre & -> & _). eauto.
  - destruct (decide (SlackEvents.Error fResponse = SlackEvents.ErrAlreadyPublic)).
    + destruct (Split_last_index (SlackEvents.PermalinkPublic file) "-")
        as (piece & pre & -> & _). eauto.
    + destruct (decide (_ = SlackEvents.ErrPublicVideoNotAllowed)); eauto.
Qed.

(** X16: [resolveFile] never panics on the index of the last piece of the
    public link; a URL it returns is the private download URL of the file
    Slack answered with, or of the file of the event when Slack says it is
    already public, followed by the query pub_secret with the piece of that
    file's public link after its last dash: the link is [pre ++ pubSecret],
    where [pubSecret] holds no dash and [pre] is empty (a link without
    dash is its own secret) or ends in a dash. *)
Theorem slack_resolveFile_link (channel : Channel) (file : SlackEvents.File) (n : nat) :
  exists result logs,
    resolveFile channel file n = Returns (result, logs) /\
    forall url, result = inr url ->
      exists fResponse located pre pubSecret,
        UnmarshalFileResponse (api n (SlackEvents.fileCall channel file)) = inr fResponse /\
        (SlackEvents.OK fResponse = true /\ located = SlackEvents.ResponseFile fResponse \/
         SlackEvents.OK fResponse = false /\
         SlackEvents.Error fResponse = SlackEvents.ErrAlreadyPublic /\ located = file) /\
        SlackEvents.PermalinkPublic located = pre ++ pubSecret /\
        FreshChat.contains "-" pubSecret = false /\
        (pre = EmptyString \/ exists pre', pre = pre' ++ "-") /\
        url = SlackEvents.URLPrivateDownload located ++ "?pub_secret=" ++ pubSecret.
Proof.
  unfold resolveFile, SlackEvents.resolveFile. cbv zeta.
  destruct (rr_err _); [do 2 eexists; split; [reflexivity | discriminate]|].
  destruct (UnmarshalFileResponse _) as [err|fResponse];
    [do 2 eexists; split; [reflexivity | discriminate]|].
  destruct (SlackEvents.OK fResponse) eqn:Eok.
  - destruct (Split_last_index
                (SlackEvents.PermalinkPublic (SlackEvents.ResponseFile fResponse)) "-")
      as (piece & pre & Hindex & Hpre & Hpiece & Hdash).
    rewrite Hindex. do 2 eexists. split; [reflexivity|].
    intros url Hurl. injection Hurl as <-.
    exists fResponse, (SlackEvents.ResponseFile fResponse), pre, piece.
    split; [reflexivity|]. split; [left; split; [exact Eok | reflexivity]|].
    split; [exact Hpre|]. split; [exact Hpiece|]. split; [exact Hdash | reflexivity].
  - destruct (decide (SlackEvents.Error fResponse = SlackEvents.ErrAlreadyPublic))
      as [Ealready|].
    + destruct (Split_last_index (SlackEvents.PermalinkPublic file) "-")
        as (piece & pre & Hindex & Hpre & Hpiece & Hdash).
      rewrite Hindex. do 2 eexists. split; [reflexivity|].
      intros url Hurl. injection Hurl as <-.
      exists fResponse, file, pre, piece.
      split; [reflexivity|]. split; [right; repeat split; assumption|].
      split; [exact Hpre|]. split; [exact Hpiece|]. split; [exact Hdash | reflexivity].
    + destruct (decide (_ = SlackEvents.ErrPublicVideoNotAllowed));
        do 2 eexists; (split; [reflexivity | discriminate]).
Qed.

(** The loop over the files makes one call for each file, in their order,
    and each file ends as a URL or as a logged error. *)
Lemma slack_resolveFiles_run (channel : Channel) (files : list SlackEvents.File) :
  forall st,
    exists st',
      resolveFiles channel files st = Returns st' /\
      SlackEvents.rs_calls st'
        = (SlackEvents.rs_calls st ++ map (SlackEvents.fileCall channel) files)%list /\
      (List.length (SlackEvents.rs_urls st') + List.length (SlackEvents.rs_skipped st')
       = List.length (SlackEvents.rs_urls st) + List.length (SlackEvents.rs_skipped st)
         + List.length files)%nat.
Proof.
  induction files as [|file files IH]; intros st.
  - exists st. simpl. rewrite app_nil_r. repeat split. lia.
  - cbn [resolveFiles SlackEvents.resolveFiles]. cbv zeta.
    destruct (slack_resolveFile_returns channel file (List.length (SlackEvents.rs_calls st)))
      as (result & logs & Hresolve).
    unfold resolveFile in Hresolve. rewrite Hresolve.
    destruct result as [err|fileURL]; fold resolveFiles;
      match goal with
      | |- context [resolveFiles channel files ?st1] =>
          destruct (IH st1) as (st' & -> & Hcalls & Hcount)
      end;
      exists st'; (split; [reflexivity|]); simpl in *;
      rewrite Hcalls, <- app_assoc; (split; [reflexivity|]);
      rewrite ?length_app in Hcount; simpl in Hcount; lia.
Qed.

Lemma attach_fields (urls : list string) :
  forall msg,
    in_attachments (SlackEvents.attach urls msg) = (in_attachments msg ++ urls)%list /\
    in_urn (SlackEvents.attach urls msg) = in_urn msg /\
    in_text (SlackEvents.attach urls msg) = in_text msg /\
    in_external_id (SlackEvents.attach urls msg) = in_external_id msg /\
    in_received_on (SlackEvents.attach urls msg) = in_received_on msg /\
    in_contact_name (SlackEvents.attach urls msg) = in_contact_name msg.
Proof.
  unfold SlackEvents.attach.
  induction urls as [|url urls IH]; intros msg; simpl.
  - rewrite app_nil_r. repeat split.
  - destruct (IH (WithAttachment url msg)) as (-> & -> & -> & -> & -> & ->).
    simpl. rewrite <- app_assoc. repeat split.
Qed.

End SlackInbound.

Section SlackHandled.

Variable UUID : Channel -> string.
Variable NewSlackURN : string -> string -> string + URN.
Variable UnmarshalFileResponse : RR -> string + SlackEvents.FileResponse.
Variable UnmarshalUserInfo : RR -> string + option SlackEvents.UserInfo.
Variable api : SlackEvents.API.

Let receiveEvent :=
  SlackEvents.receiveEvent UUID NewSlackURN UnmarshalFileResponse UnmarshalUserInfo api.

(** X17: a URL verification request is answered on the spot, with no call
    and no message: with status 200 and the challenge as body exactly when
    its token is the verification token of the channel (the empty token,
    when the channel has none), with status 403, an empty body and an error
    otherwise. *)
Theorem slack_url_verification (channel : Channel) (payload : SlackEvents.moPayload) :
  SlackEvents.Type_ payload = "url_verification" ->
  exists resp err,
    receiveEvent channel (inr payload) =
    Returns {| SlackEvents.ev_outcome := SlackEvents.Verification resp err;
               SlackEvents.ev_calls := [];
               SlackEvents.ev_logs := [];
               SlackEvents.ev_skipped := [] |} /\
    (SlackEvents.resp_status resp = 200%nat <->
     SlackEvents.Token payload
     = StringConfigForKey channel SlackEvents.configValidationToken EmptyString) /\
    (SlackEvents.resp_status resp = 200%nat ->
     SlackEvents.resp_body resp = SlackEvents.Challenge payload /\ err = None) /\
    (SlackEvents.resp_status resp <> 200%nat ->
     SlackEvents.resp_status resp = 403%nat /\
     SlackEvents.resp_body resp = EmptyString /\ err <> None).
Proof.
  intros Htype. unfold receiveEvent, SlackEvents.receiveEvent. cbv zeta.
  rewrite (decide_True _ _ Htype). unfold SlackEvents.handleURLVerification. cbv zeta.
  destruct (decide (StringConfigForKey channel SlackEvents.configValidationToken EmptyString
                    = SlackEvents.Token payload)) as [Htoken|Htoken];
    do 2 eexists; (split; [reflexivity|]); simpl.
  - repeat split; try (intros; congruence); try discriminate.
  - repeat split; try (intros; congruence); try discriminate; try lia.
Qed.

(** X18: an event that is not a message, or that a bot sent, is
    acknowledged as ignored: no message is written and Slack is not
    called. *)
Theorem slack_event_ignored (channel : Channel) (payload : SlackEvents.moPayload) :
  SlackEvents.Type_ payload <> "url_verification" ->
  SlackEvents.Contains (SlackEvents.EventKind (SlackEvents.Event_ payload)) "message" = false \/
  SlackEvents.BotID (SlackEvents.Event_ payload) <> EmptyString ->
  receiveEvent channel (inr payload) =
  Returns {| SlackEvents.ev_outcome :=
               SlackEvents.Answered (RequestIgnored "Ignoring request, no message");
             SlackEvents.ev_calls := [];
             SlackEvents.ev_logs := [];
             SlackEvents.ev_skipped := [] |}.
Proof.
  intros Htype Hdrop. unfold receiveEvent, SlackEvents.receiveEvent. cbv zeta.
  rewrite (decide_False _ _ Htype).
  destruct Hdrop as [-> | Hbot]; [reflexivity|].
  rewrite (bool_decide_eq_false_2 _ Hbot), andb_false_r. reflexivity.
Qed.

(** What the handler builds once it has the URN of the sender. *)
Lemma slack_event_built (channel : Channel) (payload : SlackEvents.moPayload)
    (urn : URN) (userName : string) (calls : list SlackEvents.Call) :
  exists st,
    SlackEvents.resolveFiles UnmarshalFileResponse api channel
      (SlackEvents.Files (SlackEvents.Event_ payload))
      {| SlackEvents.rs_urls := []; SlackEvents.rs_skipped := [];
         SlackEvents.rs_logs := []; SlackEvents.rs_calls := calls |} = Returns st /\
    SlackEvents.rs_calls st
      = (calls ++ map (SlackEvents.fileCall channel)
                    (SlackEvents.Files (SlackEvents.Event_ payload)))%list /\
    let msg :=
      SlackEvents.attach (SlackEvents.rs_urls st)
        (WithContactName userName
           (WithExternalID (SlackEvents.EventID payload)
              (WithReceivedOn (SlackEvents.EventTime payload)
                 (NewIncomingMsg urn (SlackEvents.Text (SlackEvents.Event_ payload)))))) in
    in_urn msg = urn /\
    in_text msg = SlackEvents.Text (SlackEvents.Event_ payload) /\
    in_external_id msg = SlackEvents.EventID payload /\
    in_received_on msg = Some (SlackEvents.EventTime payload) /\
    in_contact_name msg = userName /\
    (List.length (in_attachments msg) + List.length (SlackEvents.rs_skipped st)
     = List.length (SlackEvents.Files (SlackEvents.Event_ payload)))%nat.
Proof.
  destruct (slack_resolveFiles_run UnmarshalFileResponse api channel
              (SlackEvents.Files (SlackEvents.Event_ payload))
              {| SlackEvents.rs_urls := []; SlackEvents.rs_skipped := [];
                 SlackEvents.rs_logs := []; SlackEvents.rs_calls := calls |})
    as (st & Hrun & Hcalls & Hcount).
  exists st. split; [exact Hrun|]. split; [exact Hcalls|]. cbv zeta.
  match goal with
  | |- context [SlackEvents.attach ?urls ?m] =>
      destruct (attach_fields urls m) as (-> & -> & -> & -> & -> & ->)
  end.
  simpl in *. repeat split. lia.
Qed.

(** X19: a message posted in a channel is written as one message, from the
    URN of the channel, with the text, the id and the time of the event and
    no contact name; Slack is asked once for each file of the event, in
    their order, and for nothing else, and each file ends as an attachment
    of the message or as a logged error. *)
Theorem slack_channel_message (channel : Channel) (payload : SlackEvents.moPayload)
    (urn : URN) :
  let event := SlackEvents.Event_ payload in
  SlackEvents.Type_ payload <> "url_verification" ->
  SlackEvents.Contains (SlackEvents.EventKind event) "message" = true ->
  SlackEvents.BotID event = EmptyString ->
  SlackEvents.ChannelType event = "channel" ->
  NewSlackURN (SlackEvents.Channel_ event) EmptyString = inr urn ->
  exists msg logs skipped,
    receiveEvent channel (inr payload) =
    Returns {| SlackEvents.ev_outcome := SlackEvents.Answered (MsgsWritten [msg]);
               SlackEvents.ev_calls :=
                 map (SlackEvents.fileCall channel) (SlackEvents.Files event);
               SlackEvents.ev_logs := logs;
               SlackEvents.ev_skipped := skipped |} /\
    in_urn msg = urn /\
    in_text msg = SlackEvents.Text event /\
    in_external_id msg = SlackEvents.EventID payload /\
    in_received_on msg = Some (SlackEvents.EventTime payload) /\
    in_contact_name msg = EmptyString /\
    (List.length (in_attachments msg) + List.length skipped
     = List.length (SlackEvents.Files event))%nat.
Proof.
  intros event Htype Hkind Hbot Hchannel Hurn.
  unfold receiveEvent, SlackEvents.receiveEvent. cbv zeta. fold event.
  rewrite (decide_False _ _ Htype), Hkind, (bool_decide_eq_true_2 _ Hbot).
  cbn [andb]. rewrite (decide_True _ _ Hchannel), Hurn.
  destruct (slack_event_built channel payload urn EmptyString [])
    as (st & Hrun & Hcalls & Hmsg).
  fold event in Hrun, Hcalls, Hmsg. rewrite Hrun.
  do 3 eexists. split; [rewrite Hcalls; reflexivity|]. exact Hmsg.
Qed.

(** X20: for a direct message the handler first asks Slack once for the
    user. A failed call is answered with an error, after the log of the
    call is written to the backend, and no file is asked for; an answer
    that decodes to no user makes the handler panic; otherwise one message
    is written, with the real name of the user as contact name, and Slack
    is then asked once for each file. *)
Theorem slack_direct_message (channel : Channel) (payload : SlackEvents.moPayload) :
  let event := SlackEvents.Event_ payload in
  let call :=
    SlackEvents.UsersInfo (StringConfigForKey channel Slack.configBotToken EmptyString)
      (SlackEvents.User event) in
  let rr := api 0%nat call in
  SlackEvents.Type_ payload <> "url_verification" ->
  SlackEvents.Contains (SlackEvents.EventKind event) "message" = true ->
  SlackEvents.BotID event = EmptyString ->
  SlackEvents.ChannelType event = "im" ->
  (forall err, rr_err rr = Some err ->
     receiveEvent channel (inr payload) =
     Returns {| SlackEvents.ev_outcome := SlackEvents.Answered (RequestError err);
                SlackEvents.ev_calls := [call];
                SlackEvents.ev_logs :=
                  [WithError "Request User Info Error" (Some err)
                     (NewChannelLogFromRR "Get User info" rr)];
                SlackEvents.ev_skipped := [] |}) /\
  (rr_err rr = None -> UnmarshalUserInfo rr = inr None ->
     exists why, receiveEvent channel (inr payload) = Panics why) /\
  (forall userInfo urn,
     rr_err rr = None -> UnmarshalUserInfo rr = inr (Some userInfo) ->
     NewSlackURN (SlackEvents.User event) (SlackEvents.RealName userInfo) = inr urn ->
     exists msg logs skipped,
       receiveEvent channel (inr payload) =
       Returns {| SlackEvents.ev_outcome := SlackEvents.Answered (MsgsWritten [msg]);
                  SlackEvents.ev_calls :=
                    call :: map (SlackEvents.fileCall channel) (SlackEvents.Files event);
                  SlackEvents.ev_logs := logs;
                  SlackEvents.ev_skipped := skipped |} /\
       in_urn msg = urn /\
       in_contact_name msg = SlackEvents.RealName userInfo /\
       (List.length (in_attachments msg) + List.length skipped
        = List.length (SlackEvents.Files event))%nat).
Proof.
  intros event call rr Htype Hkind Hbot Him.
  assert (Hstart :
    receiveEvent channel (inr payload) =
    match SlackEvents.getUserInfo UnmarshalUserInfo api (SlackEvents.User event) channel 0 with
    | (_, log, Some err) =>
        Returns {| SlackEvents.ev_outcome := SlackEvents.Answered (RequestError err);
                   SlackEvents.ev_calls := [call];
                   SlackEvents.ev_logs := match log with Some l => [l] | None => [] end;
                   SlackEvents.ev_skipped := [] |}
    | (None, _, None) => Panics "invalid memory address or nil pointer dereference"
    | (Some userInfo, _, None) =>
        match NewSlackURN (SlackEvents.User event) (SlackEvents.RealName userInfo) with
        | inl err =>
            Returns {| SlackEvents.ev_outcome := SlackEvents.Answered (RequestError err);
                       SlackEvents.ev_calls := [call];
                       SlackEvents.ev_logs := [];
                       SlackEvents.ev_skipped := [] |}
        | inr urn =>
            match SlackEvents.resolveFiles UnmarshalFileResponse api channel
                    (SlackEvents.Files event)
                    {| SlackEvents.rs_urls := []; SlackEvents.rs_skipped := [];
                       SlackEvents.rs_logs := []; SlackEvents.rs_calls := [call] |} with
            | Panics why => Panics why
            | Returns st =>
                Returns
                  {| SlackEvents.ev_outcome :=
                       SlackEvents.Answered
                         (MsgsWritten
                            [SlackEvents.attach (SlackEvents.rs_urls st)
                               (WithContactName (SlackEvents.RealName userInfo)
                                  (WithExternalID (SlackEvents.EventID payload)
                                     (WithReceivedOn (SlackEvents.EventTime payload)
                                        (NewIncomingMsg urn (SlackEvents.Text event)))))]);
                     SlackEvents.ev_calls := SlackEvents.rs_calls st;
                     SlackEvents.ev_logs := SlackEvents.rs_logs st;
                     SlackEvents.ev_skipped := SlackEvents.rs_skipped st |}
            end
        end
    end).
  { unfold receiveEvent, SlackEvents.receiveEvent. cbv zeta. fold event.
    rewrite (decide_False _ _ Htype), Hkind, (bool_decide_eq_true_2 _ Hbot).
    cbn [andb]. rewrite Him.
    rewrite decide_False by discriminate. rewrite decide_True by reflexivity.
    reflexivity. }
  rewrite Hstart. unfold SlackEvents.getUserInfo. cbv zeta. fold call rr.
  split; [|split].
  - intros err ->. reflexivity.
  - intros -> ->. eauto.
  - intros userInfo urn -> -> ->.
    destruct (slack_event_built channel payload urn (SlackEvents.RealName userInfo) [call])
      as (st & Hrun & Hcalls & Hmsg).
    fold event in Hrun, Hcalls, Hmsg. rewrite Hrun.
    do 3 eexists. split; [rewrite Hcalls; reflexivity|].
    cbv zeta in Hmsg. destruct Hmsg as (Hu & _ & _ & _ & Hn & Hc).
    split; [exact Hu|]. split; [exact Hn | exact Hc].
Qed.

End SlackHandled.

Lemma slack_url_verification_witness :
  exists resp err,
    MoreExamples.slackReceive MoreExamples.slackAPI MoreExamples.slackChannelIn
      (inr (MoreExamples.slackChallenge "tok-1")) =
    Returns {| SlackEvents.ev_outcome := SlackEvents.Verification resp err;
               SlackEvents.ev_calls := [];
               SlackEvents.ev_logs := [];
               SlackEvents.ev_skipped := [] |} /\
    SlackEvents.resp_status resp = 200%nat /\
    SlackEvents.resp_body resp = "3eZbrw1aB".
Proof.
  destruct (slack_url_verification (fun _ => "8eb23e93") MoreExamples.slackURN
              MoreExamples.slackDecodeFile MoreExamples.slackDecodeUser
              MoreExamples.slackAPI MoreExamples.slackChannelIn
              (MoreExamples.slackChallenge "tok-1") eq_refl)
    as (resp & err & Heq & Hiff & Hok & _).
  assert (Hstatus : SlackEvents.resp_status resp = 200%nat)
    by (apply Hiff; vm_compute; reflexivity).
  exists resp, err. split; [exact Heq|]. split; [exact Hstatus|].
  exact (proj1 (Hok Hstatus)).
Defined.

Lemma slack_event_ignored_witness :
  MoreExamples.slackReceive MoreExamples.slackAPI MoreExamples.slackChannelIn
    (inr (MoreExamples.slackEvent "message" "channel" "B01")) =
  Returns {| SlackEvents.ev_outcome :=
               SlackEvents.Answered (RequestIgnored "Ignoring request, no message");
             SlackEvents.ev_calls := [];
             SlackEvents.ev_logs := [];
             SlackEvents.ev_skipped := [] |}.
Proof.
  apply (slack_event_ignored (fun _ => "8eb23e93") MoreExamples.slackURN
           MoreExamples.slackDecodeFile MoreExamples.slackDecodeUser
           MoreExamples.slackAPI MoreExamples.slackChannelIn
           (MoreExamples.slackEvent "message" "channel" "B01")).
  - discriminate.
  - right. discriminate.
Defined.

Lemma slack_channel_message_witness :
  exists msg logs skipped,
    MoreExamples.slackReceive MoreExamples.slackAPI MoreExamples.slackChannelIn
      (inr (MoreExamples.slackEvent "message" "channel" EmptyString)) =
    Returns {| SlackEvents.ev_outcome := SlackEvents.Answered (MsgsWritten [msg]);
               SlackEvents.ev_calls :=
                 [SlackEvents.SharedPublicURL "xoxp-456" "F1";
                  SlackEvents.SharedPublicURL "xoxp-456" "F2"];
               SlackEvents.ev_logs := logs;
               SlackEvents.ev_skipped := skipped |} /\
    in_text msg = "Hello" /\
    (List.length (in_attachments msg) + List.length skipped = 2)%nat.
Proof.
  destruct (slack_channel_message (fun _ => "8eb23e93") MoreExamples.slackURN
              MoreExamples.slackDecodeFile MoreExamples.slackDecodeUser
              MoreExamples.slackAPI MoreExamples.slackChannelIn
              (MoreExamples.slackEvent "message" "channel" EmptyString)
              {| urn_scheme := "slack"; urn_path := "C0123ABCDEF";
                 urn_display := EmptyString |})
    as (msg & logs & skipped & Heq & _ & Htext & _ & _ & _ & Hcount).
  - discriminate.
  - reflexivity.
  - reflexivity.
  - reflexivity.
  - reflexivity.
  - exists msg, logs, skipped. split; [exact Heq|]. split; [exact Htext | exact Hcount].
Defined.

Lemma slack_direct_message_witness :
  exists msg logs skipped,
    MoreExamples.slackReceive MoreExamples.slackAPI MoreExamples.slackChannelIn
      (inr (MoreExamples.slackEvent "message" "im" EmptyString)) =
    Returns {| SlackEvents.ev_outcome := SlackEvents.Answered (MsgsWritten [msg]);
               SlackEvents.ev_calls :=
                 [SlackEvents.UsersInfo "xoxb-123" "U0123ABCDEF";
                  SlackEvents.SharedPublicURL "xoxp-456" "F1";
                  SlackEvents.SharedPublicURL "xoxp-456" "F2"];
               SlackEvents.ev_logs := logs;
               SlackEvents.ev_skipped := skipped |} /\
    in_contact_name msg = "Bob Silva".
Proof.
  destruct (slack_direct_message (fun _ => "8eb23e93") MoreExamples.slackURN
              MoreExamples.slackDecodeFile MoreExamples.slackDecodeUser
              MoreExamples.slackAPI MoreExamples.slackChannelIn
              (MoreExamples.slackEvent "message" "im" EmptyString))
    as (_ & _ & Hmsg).
  - discriminate.
  - reflexivity.
  - reflexivity.
  - reflexivity.
  - destruct (Hmsg {| SlackEvents.RealName := "Bob Silva" |}
                {| urn_scheme := "slack"; urn_path := "U0123ABCDEF";
                   urn_display := "Bob Silva" |})
      as (msg & logs & skipped & Heq & _ & Hname & _).
    + reflexivity.
    + reflexivity.
    + reflexivity.
    + exists msg, logs, skipped. split; [exact Heq | exact Hname].
Defined.
